(** * ckan/migration/migrate_package_activity.py

    A shallow embedding of the one-off migration script that copies
    revision data into the activity stream, and the properties of it
    that the design document states.

    Python values are embedded as a JSON-like tree, dictionaries as
    [gmap string json].  Python exceptions are an error result.  The
    script's three pieces of shared mutable state (the module level
    [_context] cache, the SQLAlchemy session and standard output) are
    threaded through a state-and-exception monad [M]. *)

From stdpp Require Import gmap strings list fin_maps.
From Stdlib Require Import ZArith Ascii.

Set Warnings "-register-all".
Set Default Proof Using "Type".

(* ===================================================================== *)
(** * Python values and exceptions *)
(* ===================================================================== *)

Inductive json :=
| JNone
| JBool (b : bool)
| JInt (z : Z)
| JStr (s : string)
| JList (l : list json)
| JDict (d : gmap string json).

Inductive exn :=
| KeyError (k : string)
| TypeError
| AttributeError
| EOFError
| SystemExit (code : Z)
| ActionError (what : string).   (* raised by a ckan.logic action *)

(** [NotFound] is the ckan.logic exception of that name. *)
Definition NotFound : exn := ActionError "NotFound".

Inductive result (A : Type) :=
| Ok (a : A)
| Raise (e : exn).
Arguments Ok {A} a.
Arguments Raise {A} e.

#[global] Instance result_ret : MRet result := λ A a, Ok a.
#[global] Instance result_bind : MBind result := λ A B f r,
  match r with
  | Ok a => f a
  | Raise e => Raise e
  end.

(** [for x in l: x' = f x], collecting the (possibly mutated) items;
    the first exception stops the loop. *)
Fixpoint mapM {A B} (f : A → result B) (l : list A) : result (list B) :=
  match l with
  | [] => Ok []
  | x :: l' => y ← f x; ys ← mapM f l'; Ok (y :: ys)
  end.

Module Py.

(** Truth value of an object, as used by [not x] and [x or y]. *)
Definition truthy (v : json) : bool :=
  match v with
  | JNone => false
  | JBool b => b
  | JInt z => negb (z =? 0)%Z
  | JStr s => negb (String.eqb s "")
  | JList l => negb (bool_decide (l = []))
  | JDict d => negb (bool_decide (d = ∅))
  end.

(** [x or y] *)
Definition or (x y : json) : json := if truthy x then x else y.

(** [needle in hay] on two strings: substring test. *)
Fixpoint str_contains (needle hay : string) : bool :=
  String.prefix needle hay ||
  match hay with
  | EmptyString => false
  | String _ hay' => str_contains needle hay'
  end.

(** [v == k] for a string [k]. *)
Definition eq_str (k : string) (v : json) : bool :=
  match v with
  | JStr s => String.eqb s k
  | _ => false
  end.

(** [k in v] for a string [k]: key test on a dict, membership on a
    list, substring on a string, [TypeError] otherwise. *)
Definition contains (k : string) (v : json) : result bool :=
  match v with
  | JDict d => Ok (bool_decide (is_Some (d !! k)))
  | JList l => Ok (existsb (eq_str k) l)
  | JStr s => Ok (str_contains k s)
  | _ => Raise TypeError
  end.

(** [v.get(k, dflt)]: only dicts have a [get] attribute. *)
Definition get (v : json) (k : string) (dflt : json) : result json :=
  match v with
  | JDict d => Ok (default dflt (d !! k))
  | _ => Raise AttributeError
  end.

(** [v[k]] for a string [k]. *)
Definition getitem (v : json) (k : string) : result json :=
  match v with
  | JDict d =>
      match d !! k with
      | Some x => Ok x
      | None => Raise (KeyError k)
      end
  | _ => Raise TypeError
  end.

(** [del v[k]] for a string [k]; the result is the mutated object. *)
Definition delitem (v : json) (k : string) : result json :=
  match v with
  | JDict d =>
      match d !! k with
      | Some _ => Ok (JDict (delete k d))
      | None => Raise (KeyError k)
      end
  | _ => Raise TypeError
  end.

Fixpoint chars (s : string) : list json :=
  match s with
  | EmptyString => []
  | String c s' => JStr (String c EmptyString) :: chars s'
  end.

(** The items [for x in v] visits.  A dict yields its keys (in the
    map's canonical order; nothing below depends on the order). *)
Definition iter (v : json) : result (list json) :=
  match v with
  | JList l => Ok l
  | JDict d => Ok (JStr <$> (map_to_list d).*1)
  | JStr s => Ok (chars s)
  | _ => Raise TypeError
  end.

Definition lower_ascii (c : Ascii.ascii) : Ascii.ascii :=
  let n := Ascii.nat_of_ascii c in
  if (65 <=? n)%nat && (n <=? 90)%nat then Ascii.ascii_of_nat (n + 32) else c.

(** [s.lower()] on the ASCII letters. *)
Fixpoint lower (s : string) : string :=
  match s with
  | EmptyString => EmptyString
  | String c s' => String (lower_ascii c) (lower s')
  end.

(** [s[:1]] *)
Definition first1 (s : string) : string :=
  match s with
  | EmptyString => EmptyString
  | String c _ => String c EmptyString
  end.

End Py.

(** A sub-object of a dict that was mutated in place is seen through
    the dict: [set_field v k x] is [v] after the object stored under
    [k] became [x]. *)
Definition set_field (v : json) (k : string) (x : json) : json :=
  match v with
  | JDict d => JDict (<[k := x]> d)
  | _ => v
  end.

(** The field [k] of a dict, when [v] is a dict that has it. *)
Definition field (v : json) (k : string) : option json :=
  match v with
  | JDict d => d !! k
  | _ => None
  end.

(** [v] is a dict with key [k]. *)
Definition has_key (k : string) (v : json) : Prop := is_Some (field v k).

(* ===================================================================== *)
(** * Snapshot normalizer (migrate_dataset, lines 113-120) *)
(* ===================================================================== *)

Definition revision_timestamp : string := "revision_timestamp".

(** Lines 116-117. *)
Definition strip_organization (dataset : json) : result json :=
  org ← Py.get dataset "organization" JNone;
  b ← Py.contains revision_timestamp (Py.or org (JDict ∅));
  if b : bool then
    org ← Py.getitem dataset "organization";
    org' ← Py.delitem org revision_timestamp;
    Ok (set_field dataset "organization" org')
  else Ok dataset.

(** Lines 119-120: the body of the loop over the resources. *)
Definition strip_resource (res : json) : result json :=
  b ← Py.contains revision_timestamp res;
  if b : bool then Py.delitem res revision_timestamp else Ok res.

(** Lines 118-120.  Only the items of a list are sub-objects of the
    dataset; the keys of a dict and the characters of a string are
    immutable strings, on which [del] can only raise. *)
Definition strip_resources (dataset : json) : result json :=
  rs ← Py.getitem dataset "resources";
  items ← Py.iter rs;
  items' ← mapM strip_resource items;
  Ok match rs with
     | JList _ => set_field dataset "resources" (JList items')
     | _ => dataset
     end.

Definition normalize (dataset : json) : result json :=
  dataset ← strip_organization dataset;
  strip_resources dataset.

(* ===================================================================== *)
(** * Attachment guard (migrate_dataset, line 133) *)
(* ===================================================================== *)

(** ['resources' in activity_obj.data.get('package', {})] *)
Definition is_fully_migrated (data : json) : result bool :=
  package ← Py.get data "package" (JDict ∅);
  Py.contains "resources" package.

(* ===================================================================== *)
(** * Program state, effects and the collaborators *)
(* ===================================================================== *)

(** The [context] dict handed to the ckan.logic actions.  Its ['model']
    and ['session'] entries are module handles that never change and
    are left out; the other keys are ['user'],
    ['include_hidden_activity'], ['for_view'] and ['revision_id']. *)
Abbreviation context := (gmap string json) (only parsing).

(** What the script does to the outside world, in order. *)
Inductive event :=
| EPrint (fmt : string) (args : list json)          (* print(fmt.format( *args)) *)
| EAction (name : string) (ctx : context) (data_dict : json)
                                                    (* logic.get_action(name)(ctx, data_dict) *)
| EUserGet (id : json)                              (* Session.query(User).get(id) *)
| EActivityGet (id : json)                          (* Session.query(Activity).get(id) *)
| ESetData (id : string) (data : json)              (* activity_obj.data = data *)
| EExecute (sql : string)                           (* Session.execute(sql) *)
| ECommit                                           (* Session.commit() *)
| EInput (prompt : string).                         (* input(prompt) *)

Module User.
Record t := { name : json }.
End User.

(** The ckan.logic actions and the user table the script reads.  They
    are deterministic functions of their arguments: none of them reads
    the [data] column of the activity table, the only thing the
    migration writes. *)
Record services := {
  get_site_user : result json;
  package_list : context → json → result (list json);
  package_activity_list : context → json → result (list json);
  package_show : context → json → result json;
  user_get : json → option User.t;
}.

Record state := {
  _context : option context;       (* the module global of line 38 *)
  db : gmap string json;           (* committed [activity.data], by activity id *)
  dirty : gmap string json;        (* [data] set in the session, not yet committed *)
  activity_detail : nat;           (* committed rows of the activity_detail table *)
  delete_pending : bool;           (* an uncommitted DELETE FROM activity_detail *)
  stdin : list string;             (* lines the operator will type *)
  trace : list event;
}.

Definition with_context (c : option context) (s : state) : state :=
  {| _context := c; db := db s; dirty := dirty s;
     activity_detail := activity_detail s; delete_pending := delete_pending s;
     stdin := stdin s; trace := trace s |}.

Definition with_dirty (m : gmap string json) (s : state) : state :=
  {| _context := _context s; db := db s; dirty := m;
     activity_detail := activity_detail s; delete_pending := delete_pending s;
     stdin := stdin s; trace := trace s |}.

Definition with_stdin (l : list string) (s : state) : state :=
  {| _context := _context s; db := db s; dirty := dirty s;
     activity_detail := activity_detail s; delete_pending := delete_pending s;
     stdin := l; trace := trace s |}.

Definition with_delete_pending (b : bool) (s : state) : state :=
  {| _context := _context s; db := db s; dirty := dirty s;
     activity_detail := activity_detail s; delete_pending := b;
     stdin := stdin s; trace := trace s |}.

Definition with_trace (t : list event) (s : state) : state :=
  {| _context := _context s; db := db s; dirty := dirty s;
     activity_detail := activity_detail s; delete_pending := delete_pending s;
     stdin := stdin s; trace := t |}.

(** State and exceptions.  An exception leaves the state as it was when
    it was raised: nothing is rolled back. *)
Definition M (A : Type) : Type := state → result A * state.

#[global] Instance M_ret : MRet M := λ A a s, (Ok a, s).
#[global] Instance M_bind : MBind M := λ A B f m s,
  match m s with
  | (Ok a, s') => f a s'
  | (Raise e, s') => (Raise e, s')
  end.

Definition raise {A} (e : exn) : M A := λ s, (Raise e, s).
Definition lift {A} (r : result A) : M A := λ s, (r, s).
Definition gets {A} (f : state → A) : M A := λ s, (Ok (f s), s).
Definition modify (f : state → state) : M unit := λ s, (Ok tt, f s).
Definition log (e : event) : M unit := modify (λ s, with_trace (trace s ++ [e]) s).
Definition print (fmt : string) (args : list json) : M unit := log (EPrint fmt args).

(** [for i, x in enumerate(l): body], counting from [i]. *)
Fixpoint for_each {A} (body : nat → A → M unit) (i : nat) (l : list A) : M unit :=
  match l with
  | [] => mret tt
  | x :: l' => body i x;; for_each body (S i) l'
  end.

Definition JNat (n : nat) : json := JInt (Z.of_nat n).

(** ** The session

    [model.Session] is the SQLAlchemy session of [ckan.model], which
    is not part of this file.  The design document gives the contract
    the script relies on as [getEventById], [setPayload] and
    [commitIfDirty]; the definitions of this module follow it. *)
Module Session.

(** Modelled from the spec: the payloads as the session sees them,
    its own uncommitted writes first. *)
Definition view (s : state) : gmap string json := dirty s ∪ db s.

(** Modelled from the spec: [Session.query(Activity).get(id)], the
    handle of the row with that id, or [None]. *)
Definition activity_get (id : json) : M (option string) :=
  log (EActivityGet id);;
  gets (λ s, match id with
             | JStr k => match view s !! k with Some _ => Some k | None => None end
             | _ => None
             end).

(** Modelled from the spec: [activity_obj.data], a fresh read of the
    current payload; [None] has no such attribute. *)
Definition get_data (activity_obj : option string) : M json := λ s,
  match activity_obj ≫= (view s !!.) with
  | Some d => (Ok d, s)
  | None => (Raise AttributeError, s)
  end.

(** Modelled from the spec: [activity_obj.data = data], a pending
    write that marks the session dirty. *)
Definition set_data (activity_obj : option string) (data : json) : M unit :=
  match activity_obj with
  | Some k => log (ESetData k data);; modify (λ s, with_dirty (<[k := data]> (dirty s)) s)
  | None => raise AttributeError
  end.

(** Modelled from the spec: [Session.dirty], as a truth value. *)
Definition is_dirty : M bool := gets (λ s, negb (bool_decide (dirty s = ∅))).

(** Modelled from the spec: [Session.commit()] makes every pending
    write durable and leaves the session clean. *)
Definition commit : M unit :=
  log ECommit;;
  modify (λ s,
    {| _context := _context s; db := dirty s ∪ db s; dirty := ∅;
       activity_detail := if delete_pending s then 0 else activity_detail s;
       delete_pending := false; stdin := stdin s; trace := trace s |}).

(** Modelled from the spec: the row count of the legacy detail table,
    [Session.execute('SELECT count( * ) ...').fetchall()[0][0]]. *)
Definition count_activity_detail (sql : string) : M nat :=
  log (EExecute sql);;
  gets (λ s, if delete_pending s then 0 else activity_detail s).

(** Modelled from the spec: the deletion of all rows of the legacy
    detail table, [Session.execute('DELETE FROM ...')], pending until
    the commit. *)
Definition delete_activity_detail (sql : string) : M unit :=
  log (EExecute sql);;
  modify (with_delete_pending true).

End Session.

Definition read_line : M string := λ s,
  match stdin s with
  | line :: rest => (Ok line, with_stdin rest s)
  | [] => (Raise EOFError, s)
  end.

(** [input(prompt)] *)
Definition input (prompt : string) : M string :=
  log (EInput prompt);;
  read_line.

(* ===================================================================== *)
(** * The script *)
(* ===================================================================== *)

Section Script.

Context (logic : services).

(** [logic.get_action(name)(ctx, data_dict)] *)
Definition get_action {A} (name : string) (f : context → json → result A)
    (ctx : context) (data_dict : json) : M A :=
  log (EAction name ctx data_dict);;
  lift (f ctx data_dict).

(** Line 46-49: the cache is filled. *)
Definition fill_context : M unit :=
  user ← get_action "get_site_user" (λ _ _, get_site_user logic)
           {[ "ignore_auth" := JBool true ]} (JDict ∅);
  name ← lift (Py.getitem user "name");
  modify (with_context (Some {[ "user" := name ]})).

(** Lines 41-50.  The function returns the cached dict itself, not a
    copy: a caller's [context] variable is a second name of the
    module global, whose content is read from, and written to, the
    state. *)
Definition get_context : M unit :=
  cached ← gets _context;
  match cached with
  | Some c => if Py.truthy (JDict c) then mret tt else fill_context
  | None => fill_context
  end.

(** The content of the dict that [context] names. *)
Definition context_now (s : state) : context := default ∅ (_context s).

(** [context[k] = v] *)
Definition context_set (k : string) (v : json) : M unit :=
  modify (λ s, with_context (Some (<[k := v]> (context_now s))) s).

(** [logic.get_action(name)(context, data_dict)] *)
Definition context_action {A} (name : string) (f : context → json → result A)
    (data_dict : json) : M A :=
  context ← gets context_now;
  get_action name f context data_dict.

(** Lines 122-123. *)
Definition actor_name (activity : json) : M json :=
  user_id ← lift (Py.getitem activity "user_id");
  log (EUserGet user_id);;
  match user_get logic user_id with
  | Some actor => mret (User.name actor)
  | None => lift (Py.getitem activity "user_id")
  end.

(** Lines 95-137: the body of the loop over the activity stream. *)
Definition migrate_activity (num_activities : nat) (i : nat) (activity : json) : M unit :=
  timestamp ← lift (Py.getitem activity "timestamp");
  print "  activity {}/{} {}" [JNat (i + 1); JNat num_activities; timestamp];;
  revision_id ← lift (Py.getitem activity "revision_id");
  context_set "revision_id" revision_id;;
  object_id ← lift (Py.getitem activity "object_id");
  dataset ← context_action "package_show" (package_show logic)
              (JDict {[ "id" := object_id; "include_tracking" := JBool false ]});
  dataset ← lift (normalize dataset);
  actor_name ← actor_name activity;
  let data := JDict {[ "package" := dataset; "actor" := actor_name ]} in
  id ← lift (Py.getitem activity "id");
  activity_obj ← Session.activity_get id;
  current ← Session.get_data activity_obj;
  recorded ← lift (is_fully_migrated current);
  if recorded : bool then
    print "    Full dataset already recorded - no action" []
  else
    Session.set_data activity_obj data.

(** Lines 138-140. *)
Definition commit_if_dirty : M unit :=
  is_dirty ← Session.is_dirty;
  if is_dirty : bool then
    Session.commit;;
    print "  saved" []
  else mret tt.

(** Lines 62-141.  Lines 65-73 install the revision-aware
    [package_dictize]; [package_show logic] is [package_show] with
    that patch in place. *)
Definition migrate_dataset (dataset_name : json) : M unit :=
  get_context;;
  context_set "include_hidden_activity" (JBool true);;
  package_activity_stream ←
    context_action "package_activity_list" (package_activity_list logic)
      (JDict {[ "id" := dataset_name ]});
  let num_activities := length package_activity_stream in
  (if bool_decide (num_activities = 0) then print "  No activities" [] else mret tt);;
  context_set "for_view" (JBool false);;
  for_each (migrate_activity num_activities) 0 package_activity_stream;;
  commit_if_dirty;;
  print "All {} datasets are migrated" [JNat (length package_activity_stream)].

(** Lines 53-59. *)
Definition migrate_all_datasets : M unit :=
  get_context;;
  dataset_names ← context_action "package_list" (package_list logic) (JDict ∅);
  let num_datasets := length dataset_names in
  for_each (λ i dataset_name,
              print "{}/{} {}" [JNat (i + 1); JNat num_datasets; dataset_name];;
              migrate_dataset dataset_name)
           0 dataset_names.

End Script.

(* ===================================================================== *)
(** * Legacy cleanup (lines 144-165) *)
(* ===================================================================== *)

Definition dquote : string := String (Ascii.ascii_of_nat 34) EmptyString.
Definition newline : string := String (Ascii.ascii_of_nat 10) EmptyString.

Definition sql_count : string :=
  "SELECT count(*) FROM " +:+ dquote +:+ "activity_detail" +:+ dquote +:+ ";".
Definition sql_delete : string :=
  "DELETE FROM " +:+ dquote +:+ "activity_detail" +:+ dquote +:+ ";".

Definition already_emptied : string :=
  newline +:+ "activity_detail table is aleady emptied".

Definition explanation : string :=
  newline +:+ "Now the migration is done, the history of datasets is now stored"
  +:+ newline +:+ "in the activity table. As a result, the contents of the"
  +:+ newline +:+ "activity_detail table will no longer be used after CKAN 2.8.x, and"
  +:+ newline +:+ "you can delete it to save space (this is safely done before or"
  +:+ newline +:+ "after the CKAN upgrade).".

Definition question : string := "Delete activity_detail table content? (y/n):".

Definition wipe_activity_detail : M unit :=
  num_activity_detail_rows ← Session.count_activity_detail sql_count;
  if bool_decide (num_activity_detail_rows = 0) then
    print already_emptied []
  else
    print explanation [];;
    response ← input question;
    if negb (String.eqb (Py.first1 (Py.lower response)) "y") then
      raise (SystemExit 0)
    else
      Session.delete_activity_detail sql_delete;;
      Session.commit;;
      print "activity_detail deleted" [].

(* ===================================================================== *)
(** * Observations on a run *)
(* ===================================================================== *)

Definition is_commit (e : event) : bool :=
  match e with ECommit => true | _ => false end.

Definition is_set_data (e : event) : bool :=
  match e with ESetData _ _ => true | _ => false end.

Definition is_action (name : string) (e : event) : bool :=
  match e with EAction n _ _ => String.eqb n name | _ => false end.

Definition is_input (e : event) : bool :=
  match e with EInput _ => true | _ => false end.

Definition is_execute (sql : string) (e : event) : bool :=
  match e with EExecute q => String.eqb q sql | _ => false end.

Definition count (p : event → bool) (t : list event) : nat :=
  length (filter (λ e, p e = true) t).

(** A process that has just started on the database [d]: nothing is
    cached, the session is clean, nothing was done yet. *)
Definition start (d : gmap string json) (rows : nat) (keys : list string) : state :=
  {| _context := None; db := d; dirty := ∅; activity_detail := rows;
     delete_pending := false; stdin := keys; trace := [] |}.

(* ===================================================================== *)
(** * What one pass of the loop does *)
(* ===================================================================== *)

(** What [migrate_activity] computes for an activity before it looks
    at the activity's stored payload. *)
Record prepared := {
  pr_timestamp : json;
  pr_revision_id : json;
  pr_object_id : json;
  pr_dataset : json;        (* the normalized reconstruction *)
  pr_user_id : json;
  pr_actor : json;
  pr_id : json;
}.

Definition show_args (object_id : json) : json :=
  JDict {[ "id" := object_id; "include_tracking" := JBool false ]}.

Definition resolved_actor (logic : services) (user_id : json) : json :=
  match user_get logic user_id with
  | Some actor => User.name actor
  | None => user_id
  end.

Definition prepare (logic : services) (c : context) (activity : json) : result prepared :=
  timestamp ← Py.getitem activity "timestamp";
  revision_id ← Py.getitem activity "revision_id";
  object_id ← Py.getitem activity "object_id";
  raw ← package_show logic (<["revision_id" := revision_id]> c) (show_args object_id);
  dataset ← normalize raw;
  user_id ← Py.getitem activity "user_id";
  id ← Py.getitem activity "id";
  Ok {| pr_timestamp := timestamp; pr_revision_id := revision_id;
        pr_object_id := object_id; pr_dataset := dataset; pr_user_id := user_id;
        pr_actor := resolved_actor logic user_id; pr_id := id |}.

(** The payload attached to an activity. *)
Definition snapshot (p : prepared) : json :=
  JDict {[ "package" := pr_dataset p; "actor" := pr_actor p ]}.

(** The events of one successful pass through the loop body. *)
Definition activity_events (num_activities i : nat) (c : context) (p : prepared)
    (k : string) (recorded : bool) : list event :=
  [ EPrint "  activity {}/{} {}" [JNat (i + 1); JNat num_activities; pr_timestamp p];
    EAction "package_show" (<["revision_id" := pr_revision_id p]> c)
            (show_args (pr_object_id p));
    EUserGet (pr_user_id p);
    EActivityGet (pr_id p);
    if recorded then EPrint "    Full dataset already recorded - no action" []
    else ESetData k (snapshot p) ].

(** The state after one successful pass through the loop body. *)
Definition after_activity (num_activities i : nat) (p : prepared) (k : string)
    (recorded : bool) (s : state) : state :=
  {| _context := Some (<["revision_id" := pr_revision_id p]> (context_now s));
     db := db s;
     dirty := if recorded then dirty s else <[k := snapshot p]> (dirty s);
     activity_detail := activity_detail s;
     delete_pending := delete_pending s;
     stdin := stdin s;
     trace := trace s ++ activity_events num_activities i (context_now s) p k recorded |}.


(** The entry under [k] is free of the revision timestamp: if it is a
    dict, it has no such key. *)
Definition entry_clean (k : string) (v : json) : Prop :=
  ∀ x, field v k = Some x → ¬ has_key revision_timestamp x.

(** Every item of the list under [k] is free of the revision timestamp. *)
Definition items_clean (k : string) (v : json) : Prop :=
  ∀ l, field v k = Some (JList l) → Forall (λ x, ¬ has_key revision_timestamp x) l.


(* ===================================================================== *)
(** * What one call of [migrate_dataset] does *)
(* ===================================================================== *)

(** The arguments of the [package_activity_list] call. *)
Definition list_args (dataset_name : json) : json := JDict {[ "id" := dataset_name ]}.

(** The context when the activity stream is requested, for a cache in
    the state [s0] that [get_context] left. *)
Definition listing_context (s0 : state) : context :=
  <["include_hidden_activity" := JBool true]> (context_now s0).

(** The context when the loop starts. *)
Definition loop_context (s0 : state) : context :=
  <["for_view" := JBool false]> (listing_context s0).

(** The state when the loop over the stream starts. *)
Definition loop_start (dataset_name : json) (stream : list json) (s0 : state) : state :=
  {| _context := Some (loop_context s0);
     db := db s0; dirty := dirty s0;
     activity_detail := activity_detail s0; delete_pending := delete_pending s0;
     stdin := stdin s0;
     trace := trace s0 ++
              EAction "package_activity_list" (listing_context s0) (list_args dataset_name) ::
              (if bool_decide (length stream = 0) then [EPrint "  No activities" []] else []) |}.

(** The state after the commit gate and the closing message, for the
    state [s2] in which the loop ended. *)
Definition loop_end (stream : list json) (s2 : state) : state :=
  let done := EPrint "All {} datasets are migrated" [JNat (length stream)] in
  if bool_decide (dirty s2 = ∅) then with_trace (trace s2 ++ [done]) s2
  else
    {| _context := _context s2; db := dirty s2 ∪ db s2; dirty := ∅;
       activity_detail := if delete_pending s2 then 0 else activity_detail s2;
       delete_pending := false; stdin := stdin s2;
       trace := trace s2 ++ [ECommit; EPrint "  saved" []; done] |}.

(** The id under which an activity is looked up. *)
Definition activity_id (activity : json) : option json := field activity "id".

(** The activity already carries the full dataset, as the payloads [m]
    have it: the guard of line 133 answers [True] for it. *)
Definition recorded (m : gmap string json) (activity : json) : bool :=
  match activity_id activity with
  | Some (JStr k) =>
      match m !! k with
      | Some current =>
          match is_fully_migrated current with
          | Ok b => b
          | Raise _ => false
          end
      | None => false
      end
  | _ => false
  end.

(** Whatever [m] has recorded in full, [m'] has unchanged. *)
Definition keeps_recorded (m m' : gmap string json) : Prop :=
  ∀ k current,
    m !! k = Some current → is_fully_migrated current = Ok true → m' !! k = Some current.

(** The payload's ['package'] entry is a dict with a ['resources'] key. *)
Definition has_resources_key (data : json) : Prop :=
  ∃ package, field data "package" = Some package ∧ has_key "resources" package.

(** The payload's ['package'] entry has a non-empty ['resources']. *)
Definition has_nonempty_resources (data : json) : Prop :=
  ∃ package resources,
    field data "package" = Some package ∧
    field package "resources" = Some resources ∧
    Py.truthy resources = true.

(** The payload is a dict whose ['package'] entry, if any, is a dict. *)
Definition payload_shaped (data : json) : Prop :=
  ∃ d, data = JDict d ∧ ∀ package, d !! "package" = Some package → ∃ p, package = JDict p.

(** The operator's answer starts with [y] or [Y]. *)
Definition affirmative (response : string) : bool :=
  match response with
  | String c _ => Ascii.eqb c "y"%char || Ascii.eqb c "Y"%char
  | EmptyString => false
  end.

(** The context that [get_context] builds when nothing is cached. *)
Definition site_context (logic : services) : result context :=
  user ← get_site_user logic;
  name ← Py.getitem user "name";
  Ok {[ "user" := name ]}.

(** [_context] holds a dict that [not _context] takes for filled. *)
Definition cached (s : state) : bool :=
  match _context s with
  | Some c => Py.truthy (JDict c)
  | None => false
  end.

Definition site_user_call : event :=
  EAction "get_site_user" {[ "ignore_auth" := JBool true ]} (JDict ∅).

(** The events of the commit gate and of the closing message. *)
Definition loop_end_events (stream : list json) (s2 : state) : list event :=
  (if bool_decide (dirty s2 = ∅) then [] else [ECommit; EPrint "  saved" []]) ++
  [EPrint "All {} datasets are migrated" [JNat (length stream)]].

(* ===================================================================== *)
(** * A small site, to run the script on *)
(* ===================================================================== *)

Module Example.

Definition activity (id revision_id user_id : string) : json :=
  JDict {[ "id" := JStr id; "revision_id" := JStr revision_id;
           "object_id" := JStr "dataset-1"; "timestamp" := JStr "2018-04-20T16:11:45";
           "user_id" := JStr user_id; "activity_type" := JStr "changed package" ]}.

(** Five activities on [dataset-1]; those of [site] are hidden ones. *)
Definition stream : list json :=
  [ activity "a1" "r1" "site"; activity "a2" "r2" "u-alice";
    activity "a3" "r3" "site"; activity "a4" "r4" "u-alice";
    activity "a5" "r5" "U-missing" ].

(** An activity whose revision is gone. *)
Definition stale : json := activity "a6" "r-gone" "u-alice".

(** The dataset as of a revision: the revision shows in its title. *)
Definition dataset_at (revision_id : json) : json :=
  JDict {[ "name" := JStr "dataset-1"; "title" := revision_id;
           "organization" :=
             JDict {[ "name" := JStr "org"; "revision_timestamp" := JStr "2018-04-01" ]};
           "resources" :=
             JList [ JDict {[ "url" := JStr "http://x/1.csv";
                              "revision_timestamp" := JStr "2018-04-02" ]};
                     JDict {[ "url" := JStr "http://x/2.csv" ]} ];
           "tags" :=
             JList [ JDict {[ "name" := JStr "tag";
                              "revision_timestamp" := JStr "2018-04-03" ]} ];
           "extras" :=
             JList [ JDict {[ "key" := JStr "k"; "value" := JStr "v";
                              "revision_timestamp" := JStr "2018-04-04" ]} ] ]}.

(** The same dataset after normalization. *)
Definition normalized_at (revision_id : json) : json :=
  JDict {[ "name" := JStr "dataset-1"; "title" := revision_id;
           "organization" := JDict {[ "name" := JStr "org" ]};
           "resources" :=
             JList [ JDict {[ "url" := JStr "http://x/1.csv" ]};
                     JDict {[ "url" := JStr "http://x/2.csv" ]} ];
           "tags" :=
             JList [ JDict {[ "name" := JStr "tag";
                              "revision_timestamp" := JStr "2018-04-03" ]} ];
           "extras" :=
             JList [ JDict {[ "key" := JStr "k"; "value" := JStr "v";
                              "revision_timestamp" := JStr "2018-04-04" ]} ] ]}.

Definition logic : services :=
  {| get_site_user := Ok (JDict {[ "name" := JStr "site" ]});
     package_list := λ _ _, Ok [JStr "dataset-1"; JStr "dataset-2"];
     package_activity_list := λ _ data_dict,
       match field data_dict "id" with
       | Some (JStr "dataset-1") => Ok stream
       | Some (JStr "dataset-3") => Ok (stream ++ [stale])
       | Some (JStr _) => Ok []
       | _ => Raise NotFound
       end;
     package_show := λ c _,
       match c !! "revision_id" with
       | Some (JStr "r-gone") => Raise NotFound
       | Some revision_id => Ok (dataset_at revision_id)
       | None => Raise NotFound
       end;
     user_get := λ id,
       match id with
       | JStr "u-alice" => Some {| User.name := JStr "alice" |}
       | JStr "site" => Some {| User.name := JStr "site" |}
       | _ => None
       end |}.

(** A payload from before the migration, and one that is complete. *)
Definition legacy : json := JDict {[ "package" := JDict {[ "name" := JStr "dataset-1" ]} ]}.
Definition complete : json :=
  JDict {[ "package" := JDict {[ "name" := JStr "dataset-1"; "resources" := JList [] ]};
           "actor" := JStr "bob" ]}.

(** The activity table: [a2] and [a4] are already migrated. *)
Definition table : gmap string json :=
  {[ "a1" := legacy; "a2" := complete; "a3" := JDict ∅; "a4" := complete;
     "a5" := legacy; "a6" := complete ]}.

Definition s : state := start table 7 [].

(** The same site, where [dataset-3], whose last revision is gone,
    comes second of three. *)
Definition with_stale : services :=
  {| get_site_user := get_site_user logic;
     package_list := λ _ _, Ok [JStr "dataset-1"; JStr "dataset-3"; JStr "dataset-2"];
     package_activity_list := package_activity_list logic;
     package_show := package_show logic;
     user_get := user_get logic |}.

End Example.

(* ===================================================================== *)
(** * The command line (lines 168-196) *)
(* ===================================================================== *)

Module Args.

(** The namespace that [parser.parse_args()] returns. *)
Record t := { config : option string; dataset : option string }.

(** An option as Python has it: [None] when it was not given. *)
Definition value (o : option string) : json :=
  match o with
  | Some v => JStr v
  | None => JNone
  end.

End Args.

(** How the process ends. *)
Inductive ending :=
| Completed
| AssertionError (message : string)
| Uncaught (e : exn).

Definition ending_of (r : result unit) : ending :=
  match r with
  | Ok _ => Completed
  | Raise e => Uncaught e
  end.

(** The exit status of the interpreter for an ending. *)
Definition exit_status (e : ending) : Z :=
  match e with
  | Completed => 0
  | Uncaught (SystemExit code) => code
  | _ => 1
  end.

(** Lines 173-196, after the arguments are parsed.  [load_config] is
    the function of that name of [ckan.lib.cli], or its stand-in of
    lines 179-188. *)
Definition main (logic : services) (load_config : string → result unit) (args : Args.t)
    (s : state) : ending * state :=
  if negb (Py.truthy (Args.value (Args.config args))) then
    (AssertionError "You must supply a --config", s)
  else
    let '(r, s') :=
      (print "Loading config" [];;
       lift (load_config (default "" (Args.config args)));;
       if negb (Py.truthy (Args.value (Args.dataset args))) then
         migrate_all_datasets logic;;
         wipe_activity_detail
       else
         migrate_dataset logic (Args.value (Args.dataset args))) s in
    (ending_of r, s').

(* ===================================================================== *)
(** * What a computation leaves alone *)
(* ===================================================================== *)

(** The rows of activity_detail that a query in the session sees. *)
Definition visible_rows (s : state) : nat :=
  if delete_pending s then 0 else activity_detail s.

(** The events of the session that reach the database or the operator. *)
Definition is_loud (e : event) : bool :=
  match e with
  | ECommit | EExecute _ | EInput _ => true
  | _ => false
  end.

(** The events of the cleanup step. *)
Definition is_cleanup (e : event) : bool :=
  match e with
  | EExecute _ | EInput _ => true
  | _ => false
  end.

(** However [m] ends, it has committed nothing, executed no SQL, read
    no input, and left the tables as they were. *)
Definition quiet {A} (m : M A) : Prop :=
  ∀ s r s', m s = (r, s') →
    db s' = db s ∧ activity_detail s' = activity_detail s ∧
    delete_pending s' = delete_pending s ∧ stdin s' = stdin s ∧
    ∃ t, trace s' = trace s ++ t ∧ count is_loud t = 0.

(** However [m] ends, it has not touched the legacy table nor the
    operator's input. *)
Definition frames {A} (m : M A) : Prop :=
  ∀ s r s', m s = (r, s') →
    visible_rows s' = visible_rows s ∧ stdin s' = stdin s ∧
    ∃ t, trace s' = trace s ++ t ∧ count is_cleanup t = 0.

(** When [m] raises, it has committed nothing. *)
Definition aborts_clean {A} (m : M A) : Prop :=
  ∀ s e s', m s = (Raise e, s') →
    db s' = db s ∧ ∃ t, trace s' = trace s ++ t ∧ count is_commit t = 0.
(* ===================================================================== *)
(** * The normalizer *)
(* ===================================================================== *)

Lemma result_bind_ok {A B} (r : result A) (f : A → result B) b :
  r ≫= f = Ok b ↔ ∃ a, r = Ok a ∧ f a = Ok b.
Proof.
  destruct r as [a|e]; cbn; split.
  - eauto.
  - by intros (? & [= <-] & ?).
  - done.
  - by intros (? & ? & ?).
Qed.

Lemma getitem_ok v k x :
  Py.getitem v k = Ok x ↔ field v k = Some x.
Proof.
  destruct v; cbn; try (split; discriminate).
  destruct (d !! k); split; congruence.
Qed.

Lemma delitem_ok v k v' :
  Py.delitem v k = Ok v' → ∃ d, v = JDict d ∧ v' = JDict (delete k d).
Proof.
  destruct v; cbn; try discriminate.
  destruct (d !! k); [|discriminate]. intros [= <-]. eauto.
Qed.

Lemma delitem_clean v v' :
  Py.delitem v revision_timestamp = Ok v' → ¬ has_key revision_timestamp v'.
Proof.
  intros (d & -> & ->)%delitem_ok. unfold has_key. cbn.
  rewrite lookup_delete_eq. apply is_Some_None.
Qed.

Lemma contains_false_clean v :
  Py.contains revision_timestamp v = Ok false → ¬ has_key revision_timestamp v.
Proof.
  unfold has_key. destruct v; cbn; try (intros _; apply is_Some_None).
  intros [= Hb]. by apply bool_decide_eq_false in Hb.
Qed.

Lemma strip_resource_clean res res' :
  strip_resource res = Ok res' → ¬ has_key revision_timestamp res'.
Proof.
  unfold strip_resource. intros (b & Hb & Hres)%result_bind_ok.
  destruct b.
  - by eapply delitem_clean.
  - injection Hres as <-. by apply contains_false_clean.
Qed.

Lemma mapM_Forall {A B} (f : A → result B) (P : B → Prop) l l' :
  (∀ x y, f x = Ok y → P y) → mapM f l = Ok l' → Forall P l'.
Proof.
  intros Hf. revert l'. induction l as [|x l IH]; intros l'; cbn.
  - intros [= <-]. constructor.
  - intros (y & Hy & (ys & Hys & [= <-])%result_bind_ok)%result_bind_ok.
    constructor; eauto.
Qed.

(** What [strip_organization] does to a dataset it accepts. *)
Lemma strip_organization_ok dataset dataset' :
  strip_organization dataset = Ok dataset' →
  ∃ d, dataset = JDict d ∧ entry_clean "organization" dataset' ∧
       ∀ k, k ≠ "organization" → field dataset' k = d !! k.
Proof.
  unfold strip_organization. destruct dataset as [| | | | |d]; try discriminate.
  cbn [Py.get mbind result_bind].
  intros (b & Hb & Hres)%result_bind_ok. exists d. split; [done|].
  destruct b.
  - apply result_bind_ok in Hres as (org & _ & (org' & Hdel & [= <-])%result_bind_ok).
    split.
    + intros x. cbn. rewrite lookup_insert_eq. intros [= <-].
      by eapply delitem_clean.
    + intros k Hk. cbn. by rewrite lookup_insert_ne.
  - injection Hres as <-. split; [|done].
    intros x Hx. cbn in Hx. rewrite Hx in Hb. cbn in Hb.
    unfold Py.or in Hb. destruct (Py.truthy x) eqn:Ht.
    + by apply contains_false_clean.
    + unfold has_key. destruct x; try apply is_Some_None.
      cbn in Ht. apply negb_false_iff, bool_decide_eq_true in Ht as ->.
      cbn. rewrite lookup_empty. apply is_Some_None.
Qed.

(** What [strip_resources] does to a dataset it accepts. *)
Lemma strip_resources_ok dataset dataset' :
  strip_resources dataset = Ok dataset' →
  ∃ d, dataset = JDict d ∧ has_key "resources" dataset' ∧
       items_clean "resources" dataset' ∧
       ∀ k, k ≠ "resources" → field dataset' k = d !! k.
Proof.
  unfold strip_resources.
  intros (rs & Hrs & (items & Hit & (items' & Hmap & [= <-])%result_bind_ok)%result_bind_ok)%result_bind_ok.
  apply getitem_ok in Hrs.
  destruct dataset as [| | | | |d]; try discriminate. cbn in Hrs.
  exists d. split; [done|].
  destruct rs; try discriminate; cbn.
  - split_and!; [by eexists | | done]. intros l. cbn. by rewrite Hrs.
  - injection Hit as <-. split_and!.
    + unfold has_key. cbn. rewrite lookup_insert_eq. by eexists.
    + intros l'. cbn. rewrite lookup_insert_eq. intros [= <-].
      eapply mapM_Forall; [|done]. apply strip_resource_clean.
    + intros k Hk. by rewrite lookup_insert_ne.
  - split_and!; [by eexists | | done]. intros l. cbn. by rewrite Hrs.
Qed.

Lemma normalize_ok raw dataset :
  normalize raw = Ok dataset →
  ∃ d, raw = JDict d ∧
       has_key "resources" dataset ∧
       entry_clean "organization" dataset ∧
       items_clean "resources" dataset ∧
       ∀ k, k ≠ "organization" → k ≠ "resources" → field dataset k = d !! k.
Proof.
  unfold normalize.
  intros (ds1 & (d & -> & Horg & Hk1)%strip_organization_ok
              & (d1 & -> & Hres & Hcl & Hk2)%strip_resources_ok)%result_bind_ok.
  exists d. split_and!; try done.
  - intros x. rewrite Hk2 by done. apply Horg.
  - intros k ??. rewrite Hk2 by done. by apply Hk1.
Qed.

(* ===================================================================== *)
(** * Running the monad *)
(* ===================================================================== *)

Lemma bind_ok {A B} (m : M A) (f : A → M B) s b s' :
  (m ≫= f) s = (Ok b, s') ↔ ∃ a s1, m s = (Ok a, s1) ∧ f a s1 = (Ok b, s').
Proof.
  unfold mbind, M_bind. destruct (m s) as [[a|e] s1]; split.
  - eauto.
  - by intros (? & ? & [= <- <-] & ?).
  - done.
  - by intros (? & ? & ? & ?).
Qed.

Lemma bind_run {A B} (m : M A) (f : A → M B) s a s1 :
  m s = (Ok a, s1) → (m ≫= f) s = f a s1.
Proof. unfold mbind, M_bind. by intros ->. Qed.

Lemma bind_run_raise {A B} (m : M A) (f : A → M B) s e s1 :
  m s = (Raise e, s1) → (m ≫= f) s = (Raise e, s1).
Proof. unfold mbind, M_bind. by intros ->. Qed.

Lemma lift_ok {A} (r : result A) s a s' :
  lift r s = (Ok a, s') ↔ r = Ok a ∧ s' = s.
Proof. unfold lift. split; [by intros [= -> ->] | by intros [-> ->]]. Qed.

Lemma mret_ok {A} (a b : A) s s' :
  (mret a : M A) s = (Ok b, s') ↔ b = a ∧ s' = s.
Proof. unfold mret, M_ret. split; [by intros [= -> ->] | by intros [-> ->]]. Qed.

Lemma gets_ok {A} (f : state → A) s a s' :
  gets f s = (Ok a, s') ↔ a = f s ∧ s' = s.
Proof. unfold gets. split; [by intros [= <- <-] | by intros [-> ->]]. Qed.

Lemma modify_ok (f : state → state) s u s' :
  modify f s = (Ok u, s') ↔ s' = f s.
Proof. unfold modify. destruct u. split; [by intros [= <-] | by intros ->]. Qed.

Lemma log_ok e s u s' :
  log e s = (Ok u, s') ↔ s' = with_trace (trace s ++ [e]) s.
Proof. unfold log. by rewrite modify_ok. Qed.

Lemma bind_mret {A B} (a : A) (f : A → M B) s : (mret a ≫= f) s = f a s.
Proof. done. Qed.

Lemma bind_modify {B} (g : state → state) (f : unit → M B) s :
  (modify g ≫= f) s = f tt (g s).
Proof. done. Qed.

Lemma bind_log {B} e (f : unit → M B) s :
  (log e ≫= f) s = f tt (with_trace (trace s ++ [e]) s).
Proof. done. Qed.

Lemma bind_gets {A B} (g : state → A) (f : A → M B) s :
  (gets g ≫= f) s = f (g s) s.
Proof. done. Qed.

Lemma bind_lift {A B} (r : result A) (f : A → M B) s a :
  r = Ok a → (lift r ≫= f) s = f a s.
Proof. by intros ->. Qed.

Lemma bind_lift_raise {A B} (r : result A) (f : A → M B) s e :
  r = Raise e → (lift r ≫= f) s = (Raise e, s).
Proof. by intros ->. Qed.

(** Two states are equal, field by field. *)
Ltac state_eq :=
  cbv [with_trace with_context with_dirty with_stdin with_delete_pending
       _context db dirty activity_detail delete_pending stdin trace];
  rewrite <- ?app_assoc; reflexivity.

Lemma count_app p t1 t2 : count p (t1 ++ t2) = count p t1 + count p t2.
Proof. unfold count. by rewrite filter_app, length_app. Qed.

Lemma count_cons p e t : count p (e :: t) = (if p e then 1 else 0) + count p t.
Proof.
  unfold count. rewrite filter_cons. destruct (p e); cbn.
  - rewrite decide_True by done. done.
  - rewrite decide_False by done. done.
Qed.

Lemma count_nil p : count p [] = 0.
Proof. done. Qed.

(* ===================================================================== *)
(** * One activity *)
(* ===================================================================== *)

Section Activity.

Context (logic : services).

Lemma get_action_ok {A} name (f : context → json → result A) c d s a s' :
  get_action name f c d s = (Ok a, s') ↔
  f c d = Ok a ∧ s' = with_trace (trace s ++ [EAction name c d]) s.
Proof.
  unfold get_action. rewrite bind_ok. split.
  - by intros ([] & s1 & ->%log_ok & [-> ->]%lift_ok).
  - intros [Hf ->]. eexists tt, _. by rewrite log_ok, lift_ok.
Qed.

Lemma context_action_ok {A} name (f : context → json → result A) d s a s' :
  context_action name f d s = (Ok a, s') ↔
  f (context_now s) d = Ok a ∧
  s' = with_trace (trace s ++ [EAction name (context_now s) d]) s.
Proof.
  unfold context_action. rewrite bind_ok. split.
  - by intros (c & s1 & [-> ->]%gets_ok & H%get_action_ok).
  - intros H. eexists _, _. by rewrite gets_ok, get_action_ok.
Qed.

Lemma context_action_raises {A B} name (f : context → json → result A) d
    (k : A → M B) s e :
  f (context_now s) d = Raise e →
  (context_action name f d ≫= k) s =
  (Raise e, with_trace (trace s ++ [EAction name (context_now s) d]) s).
Proof.
  intros Hf. unfold context_action, get_action, mbind, M_bind, gets, log, modify, lift.
  cbn [context_now with_trace _context]. by rewrite Hf.
Qed.

Lemma actor_name_ok activity s x s' :
  actor_name logic activity s = (Ok x, s') ↔
  ∃ user_id, Py.getitem activity "user_id" = Ok user_id ∧
             x = resolved_actor logic user_id ∧
             s' = with_trace (trace s ++ [EUserGet user_id]) s.
Proof.
  unfold actor_name, resolved_actor. rewrite bind_ok. split.
  - intros (uid & s1 & [Huid ->]%lift_ok & ([] & s2 & ->%log_ok & H)%bind_ok).
    exists uid. split; [done|].
    destruct (user_get logic uid).
    + by apply mret_ok in H as [-> ->].
    + apply lift_ok in H as [H ->]. rewrite Huid in H. by injection H as ->.
  - intros (uid & Huid & -> & ->). eexists uid, _. rewrite lift_ok. split; [done|].
    apply bind_ok. eexists tt, _. rewrite log_ok. split; [done|].
    destruct (user_get logic uid); [by apply mret_ok | by apply lift_ok].
Qed.

Lemma activity_get_ok id s o s' :
  Session.activity_get id s = (Ok o, s') ↔
  o = match id with
      | JStr k => match Session.view s !! k with Some _ => Some k | None => None end
      | _ => None
      end ∧
  s' = with_trace (trace s ++ [EActivityGet id]) s.
Proof.
  unfold Session.activity_get. rewrite bind_ok. split.
  - by intros ([] & s1 & ->%log_ok & [-> ->]%gets_ok).
  - intros [-> ->]. eexists tt, _. by rewrite log_ok, gets_ok.
Qed.

Lemma get_data_ok o s current s' :
  Session.get_data o s = (Ok current, s') ↔
  ∃ k, o = Some k ∧ Session.view s !! k = Some current ∧ s' = s.
Proof.
  unfold Session.get_data. split.
  - destruct o as [k|]; cbn; [|done].
    destruct (Session.view s !! k) eqn:E; [|done]. intros [= <- <-]. eauto.
  - intros (k & -> & Hk & ->). cbn. by rewrite Hk.
Qed.

Lemma set_data_ok o data s u s' :
  Session.set_data o data s = (Ok u, s') ↔
  ∃ k, o = Some k ∧
       s' = with_dirty (<[k := data]> (dirty s)) (with_trace (trace s ++ [ESetData k data]) s).
Proof.
  unfold Session.set_data. destruct o as [k|]; split.
  - intros ([] & s1 & ->%log_ok & ->%modify_ok)%bind_ok. eauto.
  - intros (? & [= <-] & ->). apply bind_ok. eexists tt, _. by rewrite log_ok, modify_ok.
  - done.
  - by intros (? & ? & ?).
Qed.

Lemma migrate_activity_ok n i activity s s' :
  migrate_activity logic n i activity s = (Ok tt, s') →
  ∃ p k current recorded,
    prepare logic (context_now s) activity = Ok p ∧
    pr_id p = JStr k ∧
    Session.view s !! k = Some current ∧
    is_fully_migrated current = Ok recorded ∧
    s' = after_activity n i p k recorded s.
Proof.
  unfold migrate_activity. intros H.
  apply bind_ok in H as (ts & s1 & [Hts ->]%lift_ok & H).
  apply bind_ok in H as ([] & s1 & ->%log_ok & H).
  apply bind_ok in H as (rev & s1 & [Hrev ->]%lift_ok & H).
  apply bind_ok in H as ([] & s1 & ->%modify_ok & H).
  apply bind_ok in H as (oid & s1 & [Hoid ->]%lift_ok & H).
  apply bind_ok in H as (raw & s1 & [Hshow ->]%context_action_ok & H).
  apply bind_ok in H as (dataset & s1 & [Hnorm ->]%lift_ok & H).
  apply bind_ok in H as (actor & s1 & (uid & Huid & -> & ->)%actor_name_ok & H).
  apply bind_ok in H as (id & s1 & [Hid ->]%lift_ok & H).
  apply bind_ok in H as (o & s1 & [-> ->]%activity_get_ok & H).
  apply bind_ok in H as (current & s1 & (k & Ho & Hk & ->)%get_data_ok & H).
  apply bind_ok in H as (recorded & s1 & [Hrec ->]%lift_ok & H).
  destruct id as [| | |k'| |]; try discriminate.
  assert (k' = k) as ->.
  { destruct (Session.view _ !! k'); congruence. }
  clear Ho. unfold Session.view in Hk, H. cbn in Hk, H. rewrite Hk in H.
  eexists {| pr_timestamp := ts; pr_revision_id := rev; pr_object_id := oid;
             pr_dataset := dataset; pr_user_id := uid;
             pr_actor := resolved_actor logic uid; pr_id := JStr k |},
          k, current, recorded.
  split_and!; [|done|done|done|].
  - unfold prepare. rewrite Hts, Hrev, Hoid. cbn.
    cbn in Hshow. unfold show_args, context_now. rewrite Hshow. cbn.
    by rewrite Hnorm, Huid, Hid.
  - destruct recorded.
    + apply log_ok in H as ->. unfold after_activity, activity_events, show_args.
      cbn. by rewrite <- !app_assoc.
    + apply set_data_ok in H as (k' & [= <-] & ->).
      unfold after_activity, activity_events, show_args, snapshot.
      cbn. by rewrite <- !app_assoc.
Qed.

Lemma prepare_ok c activity p :
  prepare logic c activity = Ok p →
  ∃ raw,
    Py.getitem activity "timestamp" = Ok (pr_timestamp p) ∧
    Py.getitem activity "revision_id" = Ok (pr_revision_id p) ∧
    Py.getitem activity "object_id" = Ok (pr_object_id p) ∧
    package_show logic (<["revision_id" := pr_revision_id p]> c)
      (show_args (pr_object_id p)) = Ok raw ∧
    normalize raw = Ok (pr_dataset p) ∧
    Py.getitem activity "user_id" = Ok (pr_user_id p) ∧
    pr_actor p = resolved_actor logic (pr_user_id p) ∧
    Py.getitem activity "id" = Ok (pr_id p).
Proof.
  unfold prepare.
  intros (ts & Hts & (rev & Hrev & (oid & Hoid & (raw & Hshow & (dataset & Hnorm &
    (uid & Huid & (id & Hid & [= <-])%result_bind_ok)%result_bind_ok)%result_bind_ok
    )%result_bind_ok)%result_bind_ok)%result_bind_ok)%result_bind_ok.
  exists raw. by cbn.
Qed.

Lemma migrate_activity_run n i activity s p k current recorded :
  prepare logic (context_now s) activity = Ok p →
  pr_id p = JStr k →
  Session.view s !! k = Some current →
  is_fully_migrated current = Ok recorded →
  migrate_activity logic n i activity s = (Ok tt, after_activity n i p k recorded s).
Proof.
  intros (raw & Hts & Hrev & Hoid & Hshow & Hnorm & Huid & Hactor & Hid)%prepare_ok
         Hk Hview Hrec.
  unfold migrate_activity.
  apply bind_ok; eexists _, _; split; [by apply lift_ok|].
  apply bind_ok; eexists tt, _; split; [by apply log_ok|].
  apply bind_ok; eexists _, _; split; [by apply lift_ok|].
  apply bind_ok; eexists tt, _; split; [by apply modify_ok|].
  apply bind_ok; eexists _, _; split; [by apply lift_ok|].
  apply bind_ok; eexists _, _; split; [by apply context_action_ok|].
  apply bind_ok; eexists _, _; split; [by apply lift_ok|].
  apply bind_ok; eexists _, _; split; [apply actor_name_ok; by eexists|].
  apply bind_ok; eexists _, _; split; [by apply lift_ok|].
  apply bind_ok; eexists _, _; split; [by apply activity_get_ok|].
  rewrite Hk. unfold Session.view in *. cbn. rewrite Hview.
  apply bind_ok; eexists _, _; split.
  { apply get_data_ok. eexists. split; [done|]. unfold Session.view. cbn. by rewrite Hview. }
  apply bind_ok; eexists _, _; split; [by apply lift_ok|].
  destruct recorded.
  - apply log_ok.
    unfold after_activity, activity_events, with_trace, with_context, show_args,
      context_now.
    cbn. by rewrite Hk, <- !app_assoc.
  - apply set_data_ok. eexists. split; [done|].
    unfold after_activity, activity_events, snapshot, with_trace, with_context,
      with_dirty, show_args, context_now.
    cbn. by rewrite Hk, Hactor, <- !app_assoc.
Qed.

End Activity.

(* ===================================================================== *)
(** * The loop over the activity stream *)
(* ===================================================================== *)

Lemma for_each_nil_ok {A} (body : nat → A → M unit) i s s' :
  for_each body i [] s = (Ok tt, s') ↔ s' = s.
Proof. cbn. unfold mret, M_ret. split; [by intros [= <-] | by intros ->]. Qed.

Lemma for_each_cons_ok {A} (body : nat → A → M unit) i x l s s' :
  for_each body i (x :: l) s = (Ok tt, s') ↔
  ∃ s1, body i x s = (Ok tt, s1) ∧ for_each body (S i) l s1 = (Ok tt, s').
Proof.
  cbn. rewrite bind_ok. split.
  - intros ([] & s1 & ? & ?). eauto.
  - intros (s1 & ? & ?). by exists tt, s1.
Qed.

Lemma for_each_app_run {A B} (body : nat → A → M unit) (f : unit → M B) l1 :
  ∀ i l2 s s1,
    for_each body i l1 s = (Ok tt, s1) →
    (for_each body i (l1 ++ l2) ≫= f) s = (for_each body (i + length l1) l2 ≫= f) s1.
Proof.
  induction l1 as [|x l1 IH]; intros i l2 s s1.
  - intros ->%for_each_nil_ok. cbn. by rewrite Nat.add_0_r.
  - intros (s0 & Hx & Hl)%for_each_cons_ok. cbn.
    unfold mbind at 1, M_bind at 1. unfold mbind at 1, M_bind at 1. rewrite Hx.
    specialize (IH (S i) l2 s0 s1 Hl).
    replace (i + S (length l1)) with (S i + length l1) by lia.
    rewrite <- IH. done.
Qed.

Lemma filter_split_length {A} (p : A → bool) (l : list A) :
  length (filter (λ x, p x = true) l) + length (filter (λ x, p x = false) l) = length l.
Proof.
  induction l as [|x l IH]; [done|].
  rewrite !filter_cons. destruct (p x) eqn:E.
  - rewrite decide_True, decide_False by done. cbn. lia.
  - rewrite decide_False, decide_True by done. cbn. lia.
Qed.

Lemma filter_ext_elem {A} (P Q : A → Prop) `{∀ x, Decision (P x), ∀ x, Decision (Q x)}
    (l : list A) :
  (∀ x, x ∈ l → P x ↔ Q x) → filter P l = filter Q l.
Proof.
  induction l as [|x l IH]; intros HPQ; [done|].
  rewrite !filter_cons.
  rewrite IH by (intros y Hy; apply HPQ; by right).
  destruct (decide (P x)) as [HP|HP].
  - rewrite decide_True; [done|]. apply HPQ; [by left|done].
  - rewrite decide_False; [done|]. intros HQ. apply HP, HPQ; [by left|done].
Qed.

Lemma keeps_recorded_refl m : keeps_recorded m m.
Proof. by intros k current. Qed.

Lemma keeps_recorded_trans m1 m2 m3 :
  keeps_recorded m1 m2 → keeps_recorded m2 m3 → keeps_recorded m1 m3.
Proof. intros H12 H23 k current Hk Hrec. eauto. Qed.

Lemma recorded_true m activity :
  recorded m activity = true ↔
  ∃ k current, activity_id activity = Some (JStr k) ∧ m !! k = Some current ∧
               is_fully_migrated current = Ok true.
Proof.
  unfold recorded. split.
  - destruct (activity_id activity) as [[| | |k| |]|]; try done.
    destruct (m !! k) as [current|] eqn:Hm; [|done].
    destruct (is_fully_migrated current) as [[]|] eqn:E; try done. eauto.
  - intros (k & current & -> & -> & ->). done.
Qed.

Lemma keeps_recorded_true m m' activity :
  keeps_recorded m m' → recorded m activity = true → recorded m' activity = true.
Proof.
  rewrite !recorded_true. intros Hkeep (k & current & ? & ? & ?).
  exists k, current. eauto.
Qed.

Lemma recorded_insert_ne m k data activity :
  activity_id activity ≠ Some (JStr k) →
  recorded (<[k := data]> m) activity = recorded m activity.
Proof.
  unfold recorded. intros Hne.
  destruct (activity_id activity) as [[| | |k'| |]|]; try done.
  rewrite lookup_insert_ne; [done|]. congruence.
Qed.

(** A normalized dataset, attached as a payload, satisfies the guard. *)
Lemma normalized_is_fully_migrated raw dataset actor :
  normalize raw = Ok dataset →
  is_fully_migrated (JDict {[ "package" := dataset; "actor" := actor ]}) = Ok true.
Proof.
  intros (d & -> & Hres & _)%normalize_ok.
  unfold is_fully_migrated. cbn. rewrite lookup_insert_eq. cbn.
  destruct dataset as [| | | | |d']; try by destruct Hres.
  cbn. f_equal. by apply bool_decide_eq_true.
Qed.

Section Loop.

Context (logic : services).

Lemma snapshot_is_fully_migrated c activity p :
  prepare logic c activity = Ok p → is_fully_migrated (snapshot p) = Ok true.
Proof.
  intros (raw & _ & _ & _ & _ & Hnorm & _)%prepare_ok.
  by eapply normalized_is_fully_migrated.
Qed.

(** The context matters to [prepare] only up to its revision id. *)
Lemma prepare_context c c' activity :
  delete "revision_id" c = delete "revision_id" c' →
  prepare logic c activity = prepare logic c' activity.
Proof.
  intros Hc. unfold prepare.
  destruct (Py.getitem activity "timestamp"); [|done]. cbn.
  destruct (Py.getitem activity "revision_id") as [rev|]; [|done]. cbn.
  by rewrite <- (insert_delete_eq c), <- (insert_delete_eq c'), Hc.
Qed.

(** One successful pass, in terms of the activity. *)
Lemma migrate_activity_facts n i activity s s' :
  migrate_activity logic n i activity s = (Ok tt, s') →
  ∃ p k,
    prepare logic (context_now s) activity = Ok p ∧
    pr_id p = JStr k ∧
    activity_id activity = Some (JStr k) ∧
    is_Some (Session.view s !! k) ∧
    s' = after_activity n i p k (recorded (Session.view s) activity) s.
Proof.
  intros (p & k & current & b & Hp & Hk & Hview & Hrec & ->)%migrate_activity_ok.
  exists p, k. pose proof Hp as (raw & _ & _ & _ & _ & _ & _ & _ & Hid)%prepare_ok.
  apply getitem_ok in Hid. rewrite Hk in Hid.
  split_and!; [done..|by eexists|].
  unfold recorded, activity_id. by rewrite Hid, Hview, Hrec.
Qed.

Lemma view_after_activity n i p k b s :
  Session.view (after_activity n i p k b s) =
  if b then Session.view s else <[k := snapshot p]> (Session.view s).
Proof.
  unfold Session.view, after_activity. cbn. destruct b; [done|].
  by rewrite insert_union_l.
Qed.

Lemma context_after_activity n i p k b s :
  delete "revision_id" (context_now (after_activity n i p k b s)) =
  delete "revision_id" (context_now s).
Proof. unfold context_now at 1. cbn. by rewrite delete_insert_eq. Qed.

Lemma count_activity_events n i c p k b :
  count is_commit (activity_events n i c p k b) = 0 ∧
  count (is_action "package_show") (activity_events n i c p k b) = 1 ∧
  count is_set_data (activity_events n i c p k b) = (if b then 0 else 1).
Proof. by destruct b. Qed.

(** What the loop leaves alone. *)
Lemma loop_frame n stream :
  ∀ i s s',
    for_each (migrate_activity logic n) i stream s = (Ok tt, s') →
    db s' = db s ∧ activity_detail s' = activity_detail s ∧
    delete_pending s' = delete_pending s ∧ stdin s' = stdin s ∧
    delete "revision_id" (context_now s') = delete "revision_id" (context_now s).
Proof.
  induction stream as [|a stream IH]; intros i s s'.
  - by intros ->%for_each_nil_ok.
  - intros (s1 & (p & k & _ & _ & _ & _ & ->)%migrate_activity_facts
               & (? & ? & ? & ? & Hc)%IH)%for_each_cons_ok.
    rewrite context_after_activity in Hc. by cbn in *.
Qed.

(** What the loop does, as events. *)
Lemma loop_trace n stream :
  ∀ i s s',
    for_each (migrate_activity logic n) i stream s = (Ok tt, s') →
    ∃ t, trace s' = trace s ++ t ∧
         count is_commit t = 0 ∧
         count (is_action "package_show") t = length stream ∧
         (count is_set_data t = 0 → dirty s' = dirty s) ∧
         (count is_set_data t ≠ 0 → dirty s' ≠ ∅).
Proof.
  induction stream as [|a stream IH]; intros i s s'.
  - intros ->%for_each_nil_ok. exists []. by rewrite app_nil_r.
  - intros (s1 & (p & k & _ & _ & _ & _ & ->)%migrate_activity_facts
               & (t & Ht & Hc & Hshow & Hclean & Hdirty)%IH)%for_each_cons_ok.
    set (b := recorded (Session.view s) a) in *.
    destruct (count_activity_events n i (context_now s) p k b) as (Ec & Es & Ed).
    exists (activity_events n i (context_now s) p k b ++ t).
    rewrite !count_app, Ec, Es, Ed, Hc, Hshow. cbn in Ht.
    split_and!; [by rewrite Ht, app_assoc|done|done|..].
    + destruct b; [|done]. cbn. intros H0. by rewrite Hclean.
    + intros Hne. destruct (decide (count is_set_data t = 0)) as [H0|H0]; [|by auto].
      rewrite Hclean by done. destruct b; cbn in *; [lia|].
      apply insert_non_empty.
Qed.

(** The loop never touches a payload that is recorded in full, and
    leaves every activity of the stream recorded in full. *)
Lemma loop_recorded n stream :
  ∀ i s s',
    for_each (migrate_activity logic n) i stream s = (Ok tt, s') →
    keeps_recorded (Session.view s) (Session.view s') ∧
    Forall (λ a, recorded (Session.view s') a = true) stream.
Proof.
  induction stream as [|a stream IH]; intros i s s'.
  - intros ->%for_each_nil_ok. split; [apply keeps_recorded_refl | constructor].
  - intros (s1 & (p & k & Hp & _ & Hid & [current Hview] & ->)%migrate_activity_facts
               & [Hkeep Hall]%IH)%for_each_cons_ok.
    rewrite view_after_activity in Hkeep.
    destruct (recorded (Session.view s) a) eqn:Hrec.
    + split; [done|]. constructor; [|done]. by eapply keeps_recorded_true.
    + split.
      * eapply keeps_recorded_trans; [|done].
        intros k' current' Hk' Hrec'.
        destruct (decide (k = k')) as [<-|Hne]; [|by rewrite lookup_insert_ne].
        exfalso. unfold recorded in Hrec. rewrite Hid, Hk', Hrec' in Hrec. done.
      * constructor; [|done]. eapply keeps_recorded_true; [done|].
        apply recorded_true. exists k, (snapshot p). rewrite lookup_insert_eq.
        split_and!; [done..|]. by eapply snapshot_is_fully_migrated.
Qed.

(** Payloads of activities that are not in the stream do not change. *)
Lemma loop_view_other n stream k :
  ∀ i s s',
    for_each (migrate_activity logic n) i stream s = (Ok tt, s') →
    Some (JStr k) ∉ activity_id <$> stream →
    Session.view s' !! k = Session.view s !! k.
Proof.
  induction stream as [|a stream IH]; intros i s s'.
  - by intros ->%for_each_nil_ok.
  - intros (s1 & (p & k' & _ & _ & Hid & _ & ->)%migrate_activity_facts
               & Hrest)%for_each_cons_ok Hnot.
    rewrite fmap_cons, not_elem_of_cons in Hnot. destruct Hnot as [Hne Hnot].
    rewrite (IH _ _ _ Hrest Hnot), view_after_activity.
    destruct (recorded _ a); [done|]. rewrite lookup_insert_ne; [done|]. congruence.
Qed.

(** With distinct ids, the loop sets the payload of exactly the
    activities that were not recorded in full when it started. *)
Lemma loop_sets n stream :
  ∀ i s s' t,
    for_each (migrate_activity logic n) i stream s = (Ok tt, s') →
    NoDup (activity_id <$> stream) →
    trace s' = trace s ++ t →
    count is_set_data t =
    length (filter (λ a, recorded (Session.view s) a = false) stream).
Proof.
  induction stream as [|a stream IH]; intros i s s' t.
  - intros ->%for_each_nil_ok _ Ht.
    assert (t = []) as ->; [|done].
    apply (app_inv_head (trace s)). by rewrite app_nil_r.
  - intros (s1 & (p & k & _ & _ & Hid & _ & ->)%migrate_activity_facts
               & Hrest)%for_each_cons_ok Hnodup Ht.
    rewrite fmap_cons in Hnodup. apply NoDup_cons in Hnodup as [Hnotin Hnodup].
    destruct (loop_trace _ _ _ _ _ Hrest) as (t' & Ht' & _).
    specialize (IH _ _ _ t' Hrest Hnodup Ht').
    set (b := recorded (Session.view s) a) in *.
    assert (t = activity_events n i (context_now s) p k b ++ t') as ->.
    { apply (app_inv_head (trace s)). rewrite <- Ht, Ht'. cbn. by rewrite <- app_assoc. }
    destruct (count_activity_events n i (context_now s) p k b) as (_ & _ & Ed).
    rewrite count_app, Ed, IH, filter_cons.
    rewrite view_after_activity.
    assert (filter (λ a0, recorded (if b then Session.view s
                                    else <[k:=snapshot p]> (Session.view s)) a0 = false) stream
            = filter (λ a0, recorded (Session.view s) a0 = false) stream) as ->.
    { apply filter_ext_elem. intros a' Ha'. destruct b; [done|].
      rewrite recorded_insert_ne; [done|].
      intros Heq. apply Hnotin. rewrite Hid, <- Heq. by apply list_elem_of_fmap_2. }
    fold b. destruct b.
    + by rewrite decide_False.
    + by rewrite decide_True.
Qed.

Lemma insert_revision_id (c c' : gmap string json) (r : json) :
  delete "revision_id" c = delete "revision_id" c' →
  <["revision_id" := r]> c = <["revision_id" := r]> c'.
Proof. intros Hc. by rewrite <- (insert_delete_eq c), <- (insert_delete_eq c'), Hc. Qed.

(** With distinct ids, every activity of the stream has been
    reconstructed as of its own revision, and every one that was not
    recorded in full now carries that reconstruction. *)
Lemma loop_payloads n stream :
  ∀ i s s' t,
    for_each (migrate_activity logic n) i stream s = (Ok tt, s') →
    NoDup (activity_id <$> stream) →
    trace s' = trace s ++ t →
    ∀ activity, activity ∈ stream →
      ∃ p k,
        prepare logic (context_now s) activity = Ok p ∧
        activity_id activity = Some (JStr k) ∧
        EAction "package_show" (<["revision_id" := pr_revision_id p]> (context_now s))
                (show_args (pr_object_id p)) ∈ t ∧
        (recorded (Session.view s) activity = false →
         Session.view s' !! k = Some (snapshot p)).
Proof.
  induction stream as [|a stream IH]; intros i s s' t.
  - intros _ _ _ activity Hin. by apply elem_of_nil in Hin.
  - intros (s1 & (p & k & Hp & _ & Hid & _ & ->)%migrate_activity_facts
               & Hrest)%for_each_cons_ok Hnodup Ht activity Hin.
    rewrite fmap_cons in Hnodup. apply NoDup_cons in Hnodup as [Hnotin Hnodup].
    destruct (loop_trace _ _ _ _ _ Hrest) as (t' & Ht' & _).
    set (b := recorded (Session.view s) a) in *.
    assert (t = activity_events n i (context_now s) p k b ++ t') as ->.
    { apply (app_inv_head (trace s)). rewrite <- Ht, Ht'. cbn. by rewrite <- app_assoc. }
    apply elem_of_cons in Hin as [-> | Hin].
    + exists p, k. split_and!; [done..| |].
      * rewrite elem_of_app. left. unfold activity_events.
        rewrite !elem_of_cons. auto.
      * intros Hb. rewrite Hid in Hnotin.
        rewrite (loop_view_other _ _ _ _ _ _ Hrest Hnotin), view_after_activity.
        unfold b. rewrite Hb. apply lookup_insert_eq.
    + destruct (IH _ _ _ t' Hrest Hnodup Ht' activity Hin)
        as (p' & k' & Hp' & Hid' & Hcall & Hset).
      pose proof (context_after_activity n i p k b s) as Hc.
      exists p', k'. split_and!; [|done| |].
      * by rewrite <- (prepare_context _ _ _ Hc).
      * rewrite elem_of_app. right.
        by rewrite <- (insert_revision_id _ _ _ Hc).
      * intros Hrec. apply Hset. rewrite view_after_activity.
        destruct b; [done|]. rewrite recorded_insert_ne; [done|].
        intros Heq. apply Hnotin. rewrite Hid, <- Heq. by apply list_elem_of_fmap_2.
Qed.

(** The loop, run again where every activity of the stream is
    already recorded in full, goes the same way and sets nothing. *)
Lemma loop_replay n stream :
  ∀ i s s' t,
    for_each (migrate_activity logic n) i stream s = (Ok tt, s') →
    _context t = _context s →
    Forall (λ a, recorded (Session.view t) a = true) stream →
    ∃ t',
      for_each (migrate_activity logic n) i stream t = (Ok tt, t') ∧
      _context t' = _context s' ∧ db t' = db t ∧ dirty t' = dirty t ∧
      ∃ tr, trace t' = trace t ++ tr ∧
            count is_set_data tr = 0 ∧ count is_commit tr = 0.
Proof.
  induction stream as [|a stream IH]; intros i s s' t.
  - intros ->%for_each_nil_ok Hc _. exists t. split_and!; try done.
    exists []. by rewrite app_nil_r.
  - intros (s1 & (p & k & Hp & Hk & Hid & _ & ->)%migrate_activity_facts
               & Hrest)%for_each_cons_ok Hc Hall.
    apply Forall_cons in Hall as [Ha Hall].
    pose proof Ha as (k' & current & Hid' & Hview & Hfull)%recorded_true.
    rewrite Hid in Hid'. injection Hid' as <-.
    assert (Hcn : context_now t = context_now s) by (unfold context_now; by rewrite Hc).
    rewrite <- Hcn in Hp.
    pose proof (migrate_activity_run logic n i a t p k current true Hp Hk Hview Hfull)
      as Hstep.
    edestruct (IH (S i) _ _ (after_activity n i p k true t) Hrest)
      as (t' & Hloop & Hc' & Hdb & Hd & tr & Htr & Hs & Hcm).
    { cbn. by rewrite Hcn. }
    { by rewrite view_after_activity. }
    exists t'. split_and!; [|done..|].
    + apply for_each_cons_ok. eauto.
    + destruct (count_activity_events n i (context_now t) p k true) as (Ec & _ & Ed).
      exists (activity_events n i (context_now t) p k true ++ tr).
      rewrite !count_app, Ec, Ed, Hs, Hcm, Htr. cbn. by rewrite <- app_assoc.
Qed.

(** A reconstruction that fails stops the pass, before the stored
    payload is looked at. *)
Lemma migrate_activity_show_raises n i activity s timestamp revision_id object_id e :
  field activity "timestamp" = Some timestamp →
  field activity "revision_id" = Some revision_id →
  field activity "object_id" = Some object_id →
  package_show logic (<["revision_id" := revision_id]> (context_now s))
    (show_args object_id) = Raise e →
  migrate_activity logic n i activity s =
  (Raise e,
   {| _context := Some (<["revision_id" := revision_id]> (context_now s));
      db := db s; dirty := dirty s; activity_detail := activity_detail s;
      delete_pending := delete_pending s; stdin := stdin s;
      trace := trace s ++
        [ EPrint "  activity {}/{} {}" [JNat (i + 1); JNat n; timestamp];
          EAction "package_show" (<["revision_id" := revision_id]> (context_now s))
            (show_args object_id) ] |}).
Proof.
  intros Hts%getitem_ok Hrev%getitem_ok Hoid%getitem_ok Hshow.
  unfold migrate_activity, print, context_set.
  rewrite (bind_lift _ _ _ _ Hts), bind_log.
  rewrite (bind_lift _ _ _ _ Hrev), bind_modify.
  rewrite (bind_lift _ _ _ _ Hoid).
  erewrite context_action_raises.
  2:{ cbn [context_now with_context with_trace _context default]. exact Hshow. }
  f_equal. cbv [context_now]. state_eq.
Qed.

(** So does a normalization that fails. *)
Lemma migrate_activity_normalize_raises n i activity s timestamp revision_id object_id
    raw e :
  field activity "timestamp" = Some timestamp →
  field activity "revision_id" = Some revision_id →
  field activity "object_id" = Some object_id →
  package_show logic (<["revision_id" := revision_id]> (context_now s))
    (show_args object_id) = Ok raw →
  normalize raw = Raise e →
  migrate_activity logic n i activity s =
  (Raise e,
   {| _context := Some (<["revision_id" := revision_id]> (context_now s));
      db := db s; dirty := dirty s; activity_detail := activity_detail s;
      delete_pending := delete_pending s; stdin := stdin s;
      trace := trace s ++
        [ EPrint "  activity {}/{} {}" [JNat (i + 1); JNat n; timestamp];
          EAction "package_show" (<["revision_id" := revision_id]> (context_now s))
            (show_args object_id) ] |}).
Proof.
  intros Hts%getitem_ok Hrev%getitem_ok Hoid%getitem_ok Hshow Hnorm.
  unfold migrate_activity, print, context_set.
  rewrite (bind_lift _ _ _ _ Hts), bind_log.
  rewrite (bind_lift _ _ _ _ Hrev), bind_modify.
  rewrite (bind_lift _ _ _ _ Hoid).
  erewrite bind_run.
  2:{ apply context_action_ok. split; [|reflexivity].
      cbn [context_now with_context with_trace _context default]. exact Hshow. }
  rewrite (bind_lift_raise _ _ _ _ Hnorm).
  f_equal. cbv [context_now]. state_eq.
Qed.

End Loop.

(* ===================================================================== *)
(** * One dataset *)
(* ===================================================================== *)

Section Dataset.

Context (logic : services).

Lemma fill_context_ok s u s0 :
  fill_context logic s = (Ok u, s0) ↔
  ∃ c, site_context logic = Ok c ∧
       s0 = with_context (Some c) (with_trace (trace s ++ [site_user_call]) s).
Proof.
  unfold fill_context, site_context. rewrite bind_ok. split.
  - intros (user & s1 & [Huser ->]%get_action_ok
                 & (name & s2 & [Hname ->]%lift_ok & ->%modify_ok)%bind_ok).
    eexists. split; [|done]. by rewrite Huser; cbn; rewrite Hname.
  - intros (c & (user & Huser & (name & Hname & [= <-])%result_bind_ok)%result_bind_ok & ->).
    eexists user, _. rewrite get_action_ok. split; [done|].
    apply bind_ok. eexists name, _. by rewrite lift_ok, modify_ok.
Qed.

Lemma get_context_ok s s0 :
  get_context logic s = (Ok tt, s0) ↔
  if cached s then s0 = s
  else ∃ c, site_context logic = Ok c ∧
            s0 = with_context (Some c) (with_trace (trace s ++ [site_user_call]) s).
Proof.
  unfold get_context, cached. rewrite bind_gets.
  destruct (_context s) as [c|]; [destruct (Py.truthy (JDict c))|].
  - rewrite mret_ok. split; [by intros [_ ->] | by intros ->].
  - apply fill_context_ok.
  - apply fill_context_ok.
Qed.

(** [get_context] touches nothing but the cache and the log. *)
Lemma get_context_frame s s0 :
  get_context logic s = (Ok tt, s0) →
  db s0 = db s ∧ dirty s0 = dirty s ∧ activity_detail s0 = activity_detail s ∧
  delete_pending s0 = delete_pending s ∧ stdin s0 = stdin s ∧
  ∃ t0, trace s0 = trace s ++ t0 ∧ (t0 = [] ∨ t0 = [site_user_call]).
Proof.
  rewrite get_context_ok. destruct (cached s).
  - intros ->. split_and!; try done. exists []. rewrite app_nil_r. auto.
  - intros (c & _ & ->). split_and!; try done. eexists. split; [done|]. auto.
Qed.

Lemma loop_end_facts stream s2 :
  db (loop_end stream s2) = Session.view s2 ∧
  dirty (loop_end stream s2) = ∅ ∧
  _context (loop_end stream s2) = _context s2 ∧
  stdin (loop_end stream s2) = stdin s2 ∧
  trace (loop_end stream s2) = trace s2 ++ loop_end_events stream s2.
Proof.
  unfold loop_end, loop_end_events, Session.view.
  destruct (bool_decide (dirty s2 = ∅)) eqn:E; cbn; [|done].
  apply bool_decide_eq_true in E. rewrite E. by rewrite (left_id_L ∅ (∪)).
Qed.

Lemma count_loop_end_events stream s2 :
  count is_set_data (loop_end_events stream s2) = 0 ∧
  count (is_action "package_show") (loop_end_events stream s2) = 0 ∧
  count is_commit (loop_end_events stream s2) =
    (if bool_decide (dirty s2 = ∅) then 0 else 1).
Proof. unfold loop_end_events. by destruct (bool_decide (dirty s2 = ∅)). Qed.

Lemma commit_if_dirty_run s :
  commit_if_dirty s =
  (Ok tt,
   if bool_decide (dirty s = ∅) then s
   else {| _context := _context s; db := dirty s ∪ db s; dirty := ∅;
           activity_detail := if delete_pending s then 0 else activity_detail s;
           delete_pending := false; stdin := stdin s;
           trace := trace s ++ [ECommit; EPrint "  saved" []] |}).
Proof.
  unfold commit_if_dirty, Session.is_dirty, Session.commit, print, log, modify, gets.
  unfold mbind, M_bind, mret, M_ret. cbn. destruct (bool_decide (dirty s = ∅)); cbn; [done|].
  unfold with_trace. cbn. by rewrite <- app_assoc.
Qed.

(** The part of [migrate_dataset] that follows the loop. *)
Lemma loop_end_run stream s2 :
  (commit_if_dirty;; print "All {} datasets are migrated" [JNat (length stream)]) s2
  = (Ok tt, loop_end stream s2).
Proof.
  erewrite bind_run by apply commit_if_dirty_run.
  unfold print, log, modify, loop_end, with_trace.
  unfold mbind, M_bind. cbn.
  destruct (bool_decide (dirty s2 = ∅)); cbn; [done|].
  by rewrite <- app_assoc.
Qed.

(** [migrate_dataset], once the context and the stream are known. *)
Lemma migrate_dataset_unfold dataset_name s s0 stream :
  get_context logic s = (Ok tt, s0) →
  package_activity_list logic (listing_context s0) (list_args dataset_name) = Ok stream →
  migrate_dataset logic dataset_name s =
  (for_each (migrate_activity logic (length stream)) 0 stream;;
   commit_if_dirty;;
   print "All {} datasets are migrated" [JNat (length stream)])
    (loop_start dataset_name stream s0).
Proof.
  intros Hctx Hlist. unfold migrate_dataset, context_set.
  erewrite bind_run by done.
  rewrite bind_modify.
  erewrite bind_run.
  2:{ apply context_action_ok. split; [|done]. exact Hlist. }
  cbn zeta. unfold print.
  destruct (bool_decide (length stream = 0)) eqn:Hn.
  - rewrite bind_log, bind_modify.
    unfold loop_start. rewrite Hn. unfold with_trace, with_context. cbn.
    by rewrite <- app_assoc.
  - rewrite bind_mret, bind_modify.
    unfold loop_start. rewrite Hn. by unfold with_trace, with_context.
Qed.

Lemma migrate_dataset_ok dataset_name s s' :
  migrate_dataset logic dataset_name s = (Ok tt, s') →
  ∃ s0 stream s2,
    get_context logic s = (Ok tt, s0) ∧
    package_activity_list logic (listing_context s0) (list_args dataset_name) = Ok stream ∧
    for_each (migrate_activity logic (length stream)) 0 stream
      (loop_start dataset_name stream s0) = (Ok tt, s2) ∧
    s' = loop_end stream s2.
Proof.
  intros H. pose proof H as H0. unfold migrate_dataset in H0.
  apply bind_ok in H0 as ([] & s0 & Hctx & H0).
  apply bind_ok in H0 as ([] & s1 & ->%modify_ok & H0).
  apply bind_ok in H0 as (stream & s1 & [Hlist _]%context_action_ok & _).
  exists s0, stream.
  rewrite (migrate_dataset_unfold _ _ _ _ Hctx Hlist) in H.
  apply bind_ok in H as ([] & s2 & Hloop & H).
  rewrite loop_end_run in H. injection H as <-. eauto.
Qed.

(** The events of a call of [migrate_dataset] that returns. *)
Lemma migrate_dataset_trace dataset_name s s0 stream s' :
  get_context logic s = (Ok tt, s0) →
  package_activity_list logic (listing_context s0) (list_args dataset_name) = Ok stream →
  migrate_dataset logic dataset_name s = (Ok tt, s') →
  ∃ s2 t0 t1 t2,
    for_each (migrate_activity logic (length stream)) 0 stream
      (loop_start dataset_name stream s0) = (Ok tt, s2) ∧
    s' = loop_end stream s2 ∧
    trace s' = trace s ++ t0 ++ t1 ++ t2 ++ loop_end_events stream s2 ∧
    trace s2 = trace (loop_start dataset_name stream s0) ++ t2 ∧
    (t0 = [] ∨ t0 = [site_user_call]) ∧
    t1 = EAction "package_activity_list" (listing_context s0) (list_args dataset_name) ::
         (if bool_decide (length stream = 0) then [EPrint "  No activities" []] else []) ∧
    count is_commit t2 = 0 ∧
    count (is_action "package_show") t2 = length stream ∧
    (count is_set_data t2 = 0 → dirty s2 = dirty s) ∧
    (count is_set_data t2 ≠ 0 → dirty s2 ≠ ∅).
Proof.
  intros Hctx Hlist H.
  rewrite (migrate_dataset_unfold _ _ _ _ Hctx Hlist) in H.
  apply bind_ok in H as ([] & s2 & Hloop & H).
  rewrite loop_end_run in H. injection H as <-.
  destruct (get_context_frame _ _ Hctx) as (_ & Hd & _ & _ & _ & t0 & Ht0 & Hcase).
  destruct (loop_trace _ _ _ _ _ _ Hloop) as (t2 & Ht2 & Hc & Hs & Hclean & Hdirty).
  destruct (loop_end_facts stream s2) as (_ & _ & _ & _ & Hend).
  eexists s2, t0, _, t2. split_and!; try done.
  - rewrite Hend, Ht2. cbn. rewrite Ht0. by rewrite <- !app_assoc.
  - intros H0. rewrite Hclean by done. done.
Qed.

(** A call that returns leaves the session clean, and, in the
    committed table, every payload that was recorded in full as it
    was and every activity of its stream recorded in full. *)
Lemma migrate_dataset_keeps dataset_name s s' :
  migrate_dataset logic dataset_name s = (Ok tt, s') →
  dirty s' = ∅ ∧ keeps_recorded (Session.view s) (db s').
Proof.
  intros (s0 & stream & s2 & Hctx & Hlist & Hloop & ->)%migrate_dataset_ok.
  destruct (loop_end_facts stream s2) as (Hdb' & Hd' & _).
  destruct (get_context_frame _ _ Hctx) as (Hdb & Hd & _).
  destruct (loop_recorded _ _ _ _ _ _ Hloop) as [Hkeep _].
  split; [done|]. rewrite Hdb'.
  unfold Session.view in *. cbn in Hkeep. by rewrite Hdb, Hd in Hkeep.
Qed.

(** [get_context] depends on the state through the cache only. *)
Lemma get_context_replay s s0 t :
  get_context logic s = (Ok tt, s0) →
  _context t = _context s →
  ∃ t0, get_context logic t = (Ok tt, t0) ∧
        _context t0 = _context s0 ∧ db t0 = db t ∧ dirty t0 = dirty t ∧
        ∃ tr, trace t0 = trace t ++ tr ∧
              count is_set_data tr = 0 ∧ count is_commit tr = 0.
Proof.
  intros Hs Hc. apply get_context_ok in Hs.
  assert (Hcached : cached t = cached s) by (unfold cached; by rewrite Hc).
  destruct (cached s) eqn:E.
  - subst s0. exists t. rewrite get_context_ok, Hcached. split_and!; try done.
    exists []. by rewrite app_nil_r.
  - destruct Hs as (c & Hsite & ->). eexists. rewrite get_context_ok, Hcached.
    split; [by eexists|]. split_and!; try done. by eexists.
Qed.

(** A second call, where everything the first call recorded is
    still recorded, goes the same way, sets nothing and commits
    nothing. *)
Lemma migrate_dataset_replay dataset_name s s' t :
  migrate_dataset logic dataset_name s = (Ok tt, s') →
  _context t = _context s →
  dirty t = ∅ →
  keeps_recorded (db s') (db t) →
  ∃ t', migrate_dataset logic dataset_name t = (Ok tt, t') ∧
        _context t' = _context s' ∧ db t' = db t ∧ dirty t' = ∅ ∧
        ∃ tr, trace t' = trace t ++ tr ∧
              count is_set_data tr = 0 ∧ count is_commit tr = 0.
Proof.
  intros (s0 & stream & s2 & Hctx & Hlist & Hloop & ->)%migrate_dataset_ok Hc Hclean Hkeep.
  destruct (get_context_replay _ _ _ Hctx Hc)
    as (t0 & Hctx' & Hc0 & Hdb0 & Hd0 & tr0 & Htr0 & Hs0 & Hcm0).
  assert (Hlc : listing_context t0 = listing_context s0).
  { unfold listing_context, context_now. by rewrite Hc0. }
  rewrite <- Hlc in Hlist.
  destruct (loop_end_facts stream s2) as (Hdb' & _ & Hc' & _).
  destruct (loop_recorded _ _ _ _ _ _ Hloop) as [_ Hall].
  destruct (loop_replay logic (length stream) stream 0 _ _
              (loop_start dataset_name stream t0) Hloop)
    as (t2 & Hloop' & Hc2 & Hdb2 & Hd2 & tr2 & Htr2 & Hs2 & Hcm2).
  { unfold loop_start, loop_context. cbn. by rewrite Hlc. }
  { eapply Forall_impl; [exact Hall|]. intros a Ha. cbn beta in *.
    eapply keeps_recorded_true; [|exact Ha].
    rewrite <- Hdb'. unfold Session.view. cbn. rewrite Hd0, Hdb0, Hclean.
    by rewrite (left_id_L ∅ (∪)). }
  assert (Hrun : migrate_dataset logic dataset_name t = (Ok tt, loop_end stream t2)).
  { rewrite (migrate_dataset_unfold _ _ _ _ Hctx' Hlist).
    erewrite bind_run by exact Hloop'. apply loop_end_run. }
  assert (Hdirty : dirty t2 = ∅) by (rewrite Hd2; cbn; congruence).
  destruct (loop_end_facts stream t2) as (Hdb3 & Hd3 & Hc3 & _ & Htr3).
  destruct (count_loop_end_events stream t2) as (He1 & _ & He2).
  rewrite bool_decide_eq_true_2 in He2 by done.
  exists (loop_end stream t2). split_and!; [done| | |done|].
  - by rewrite Hc3, Hc2, Hc'.
  - rewrite Hdb3. unfold Session.view. rewrite Hdirty, Hdb2. cbn.
    by rewrite (left_id_L ∅ (∪)).
  - eexists. rewrite Htr3, Htr2. cbn [trace loop_start]. rewrite Htr0.
    rewrite <- !app_assoc. split; [done|].
    rewrite !count_app, Hs0, Hcm0, Hs2, Hcm2, He1, He2.
    by destruct (bool_decide (length stream = 0)).
Qed.

(** The loop of [migrate_all_datasets]. *)
Lemma all_datasets_keeps num dataset_names :
  ∀ i s s',
    for_each (λ i dataset_name,
                print "{}/{} {}" [JNat (i + 1); JNat num; dataset_name];;
                migrate_dataset logic dataset_name) i dataset_names s = (Ok tt, s') →
    dirty s = ∅ →
    dirty s' = ∅ ∧ keeps_recorded (db s) (db s').
Proof.
  induction dataset_names as [|name names IH]; intros i s s'.
  - intros ->%for_each_nil_ok Hclean. split; [done|apply keeps_recorded_refl].
  - intros (s1 & ([] & sp & ->%log_ok & [Hd1 Hkeep1]%migrate_dataset_keeps)%bind_ok
               & Hrest)%for_each_cons_ok Hclean.
    destruct (IH _ _ _ Hrest Hd1) as [Hd' Hkeep']. split; [done|].
    eapply keeps_recorded_trans; [|exact Hkeep'].
    unfold Session.view in Hkeep1. cbn in Hkeep1.
    by rewrite Hclean, (left_id_L ∅ (∪)) in Hkeep1.
Qed.

Lemma all_datasets_replay num dataset_names :
  ∀ i s s' t,
    for_each (λ i dataset_name,
                print "{}/{} {}" [JNat (i + 1); JNat num; dataset_name];;
                migrate_dataset logic dataset_name) i dataset_names s = (Ok tt, s') →
    dirty s = ∅ →
    _context t = _context s →
    dirty t = ∅ →
    keeps_recorded (db s') (db t) →
    ∃ t',
      for_each (λ i dataset_name,
                  print "{}/{} {}" [JNat (i + 1); JNat num; dataset_name];;
                  migrate_dataset logic dataset_name) i dataset_names t = (Ok tt, t') ∧
      db t' = db t ∧ dirty t' = ∅ ∧
      ∃ tr, trace t' = trace t ++ tr ∧
            count is_set_data tr = 0 ∧ count is_commit tr = 0.
Proof.
  induction dataset_names as [|name names IH]; intros i s s' t.
  - intros ->%for_each_nil_ok _ _ Hclean _. exists t.
    rewrite for_each_nil_ok. split_and!; try done. exists []. by rewrite app_nil_r.
  - intros (s1 & ([] & sp & ->%log_ok & Hrun)%bind_ok & Hrest)%for_each_cons_ok
           Hclean Hc Hclean' Hkeep.
    destruct (migrate_dataset_keeps _ _ _ Hrun) as [Hd1 _].
    destruct (all_datasets_keeps _ _ _ _ _ Hrest Hd1) as [_ Hkeep1].
    set (e := EPrint "{}/{} {}" [JNat (i + 1); JNat num; name]) in *.
    destruct (migrate_dataset_replay name _ _ (with_trace (trace t ++ [e]) t) Hrun)
      as (t1 & Hrun' & Hc1 & Hdb1 & Hdt1 & tr1 & Htr1 & Hs1 & Hcm1); [done|done|..].
    { eapply keeps_recorded_trans; [exact Hkeep1|exact Hkeep]. }
    destruct (IH _ _ _ t1 Hrest Hd1) as (t' & Hloop' & Hdb' & Hd' & tr & Htr & Hs & Hcm);
      [done|done|by rewrite Hdb1|].
    exists t'. split_and!; [|by rewrite Hdb', Hdb1|done|].
    + apply for_each_cons_ok. exists t1. split; [|done].
      apply bind_ok. exists tt, (with_trace (trace t ++ [e]) t).
      split; [by apply log_ok|done].
    + exists ([e] ++ tr1 ++ tr). rewrite Htr, Htr1. cbn [trace with_trace].
      rewrite <- !app_assoc. split; [done|].
      by rewrite !count_app, Hs1, Hcm1, Hs, Hcm.
Qed.

End Dataset.

(* ===================================================================== *)
(** * The cleanup step *)
(* ===================================================================== *)

Lemma lower_first_is_y (c : ascii) :
  String.eqb (String (Py.lower_ascii c) EmptyString) "y"
  = (Ascii.eqb c "y"%char || Ascii.eqb c "Y"%char).
Proof. by destruct c as [[] [] [] [] [] [] [] []]. Qed.

(** The test of line 160 accepts exactly the affirmative answers. *)
Lemma first1_lower_affirmative response :
  String.eqb (Py.first1 (Py.lower response)) "y" = affirmative response.
Proof. destruct response as [|c rest]; [done|]. cbn. apply lower_first_is_y. Qed.

(** The rows of activity_detail that a SELECT in the session sees. *)
Lemma count_activity_detail_run {B} sql (f : nat → M B) s :
  (Session.count_activity_detail sql ≫= f) s =
  f (if delete_pending s then 0 else activity_detail s)
    (with_trace (trace s ++ [EExecute sql]) s).
Proof. done. Qed.

Lemma delete_activity_detail_run {B} sql (f : unit → M B) s :
  (Session.delete_activity_detail sql ≫= f) s =
  f tt (with_delete_pending true (with_trace (trace s ++ [EExecute sql]) s)).
Proof. done. Qed.

Lemma commit_run {B} (f : unit → M B) s :
  (Session.commit ≫= f) s =
  f tt {| _context := _context s; db := dirty s ∪ db s; dirty := ∅;
          activity_detail := if delete_pending s then 0 else activity_detail s;
          delete_pending := false; stdin := stdin s;
          trace := trace s ++ [ECommit] |}.
Proof. done. Qed.

Lemma input_run {B} prompt (f : string → M B) s line rest :
  stdin s = line :: rest →
  (input prompt ≫= f) s =
  f line (with_stdin rest (with_trace (trace s ++ [EInput prompt]) s)).
Proof.
  intros Hin. unfold input, read_line, mbind, M_bind, log, modify.
  cbn [with_trace stdin]. by rewrite Hin.
Qed.

Lemma wipe_activity_detail_clean s :
  (if delete_pending s then 0 else activity_detail s) = 0 →
  wipe_activity_detail s =
  (Ok tt, with_trace (trace s ++ [EExecute sql_count; EPrint already_emptied []]) s).
Proof.
  intros Hrows. unfold wipe_activity_detail.
  rewrite count_activity_detail_run, Hrows.
  rewrite bool_decide_eq_true_2 by done.
  unfold print, log, modify. state_eq.
Qed.

Lemma wipe_activity_detail_asked s response rest :
  (if delete_pending s then 0 else activity_detail s) ≠ 0 →
  stdin s = response :: rest →
  wipe_activity_detail s =
  if affirmative response then
    (Ok tt,
     {| _context := _context s; db := dirty s ∪ db s; dirty := ∅;
        activity_detail := 0; delete_pending := false; stdin := rest;
        trace := trace s ++ [EExecute sql_count; EPrint explanation []; EInput question;
                             EExecute sql_delete; ECommit;
                             EPrint "activity_detail deleted" []] |})
  else
    (Raise (SystemExit 0),
     with_stdin rest
       (with_trace (trace s ++ [EExecute sql_count; EPrint explanation []; EInput question]) s)).
Proof.
  intros Hrows Hin. unfold wipe_activity_detail.
  rewrite count_activity_detail_run.
  rewrite bool_decide_eq_false_2 by done.
  unfold print. rewrite bind_log.
  rewrite (input_run _ _ _ response rest) by done.
  rewrite first1_lower_affirmative.
  destruct (affirmative response); cbn [negb].
  - rewrite delete_activity_detail_run, commit_run.
    unfold log, modify. state_eq.
  - unfold raise. state_eq.
Qed.

(* ===================================================================== *)
(** * Computations that commit nothing *)
(* ===================================================================== *)

Lemma count_le (p q : event → bool) t :
  (∀ e, p e = true → q e = true) → count p t ≤ count q t.
Proof.
  intros Hpq. induction t as [|e t IH]; [done|].
  rewrite !count_cons. destruct (p e) eqn:E.
  - rewrite (Hpq _ E). lia.
  - destruct (q e); lia.
Qed.

Lemma count_loud_commit t : count is_loud t = 0 → count is_commit t = 0.
Proof.
  intros H. pose proof (count_le is_commit is_loud t) as Hle.
  assert (count is_commit t ≤ count is_loud t); [|lia].
  apply Hle. by intros [].
Qed.

Lemma count_loud_cleanup t : count is_loud t = 0 → count is_cleanup t = 0.
Proof.
  intros H. pose proof (count_le is_cleanup is_loud t) as Hle.
  assert (count is_cleanup t ≤ count is_loud t); [|lia].
  apply Hle. by intros [].
Qed.

Lemma count_zero_elem p t e : count p t = 0 → e ∈ t → p e = false.
Proof.
  induction t as [|x t IH]; intros H Hin; [by apply elem_of_nil in Hin|].
  rewrite count_cons in H. apply elem_of_cons in Hin as [-> | Hin].
  - destruct (p x); [lia|done].
  - apply IH; [|done]. destruct (p x); lia.
Qed.

Lemma quiet_mret {A} (a : A) : quiet (mret a : M A).
Proof.
  intros s r s' [= <- <-]. split_and!; try done. exists []. by rewrite app_nil_r.
Qed.

Lemma quiet_lift {A} (r : result A) : quiet (lift r).
Proof.
  intros s r' s' [= <- <-]. split_and!; try done. exists []. by rewrite app_nil_r.
Qed.

Lemma quiet_raise {A} e : quiet (raise e : M A).
Proof.
  intros s r' s' [= <- <-]. split_and!; try done. exists []. by rewrite app_nil_r.
Qed.

Lemma quiet_gets {A} (f : state → A) : quiet (gets f).
Proof.
  intros s r' s' [= <- <-]. split_and!; try done. exists []. by rewrite app_nil_r.
Qed.

Lemma quiet_log e : is_loud e = false → quiet (log e).
Proof.
  intros He s r' s' [= <- <-]. split_and!; try done. exists [e].
  split; [done|]. by rewrite count_cons, He.
Qed.

Lemma quiet_with_context (f : state → option (gmap string json)) :
  quiet (modify (λ s, with_context (f s) s)).
Proof.
  intros s r' s' [= <- <-]. split_and!; try done. exists []. by rewrite app_nil_r.
Qed.

Lemma quiet_with_dirty (f : state → gmap string json) :
  quiet (modify (λ s, with_dirty (f s) s)).
Proof.
  intros s r' s' [= <- <-]. split_and!; try done. exists []. by rewrite app_nil_r.
Qed.

Lemma quiet_bind {A B} (m : M A) (f : A → M B) :
  quiet m → (∀ a, quiet (f a)) → quiet (m ≫= f).
Proof.
  intros Hm Hf s r s'. unfold mbind, M_bind.
  destruct (m s) as [[a|e] s1] eqn:E.
  - intros Hrun.
    destruct (Hm _ _ _ E) as (Hdb & Had & Hdp & Hin & t1 & Ht1 & Hc1).
    destruct (Hf a _ _ _ Hrun) as (Hdb' & Had' & Hdp' & Hin' & t2 & Ht2 & Hc2).
    split_and!; try congruence.
    exists (t1 ++ t2). rewrite Ht2, Ht1, count_app, Hc1, Hc2.
    by rewrite <- app_assoc.
  - intros [= <- <-]. exact (Hm _ _ _ E).
Qed.

Lemma quiet_for_each {A} (body : nat → A → M unit) l :
  (∀ i x, quiet (body i x)) → ∀ i, quiet (for_each body i l).
Proof.
  intros Hbody. induction l as [|x l IH]; intros i; cbn.
  - apply quiet_mret.
  - apply quiet_bind; [apply Hbody|]. intros _. apply IH.
Qed.

Create HintDb quiet.
#[local] Hint Resolve quiet_mret quiet_lift quiet_raise quiet_gets quiet_with_context
  quiet_with_dirty : quiet.

Ltac quiet_step :=
  first
    [ apply quiet_bind; [|intros ?]
    | apply quiet_log; reflexivity
    | solve [eauto with quiet] ].

Section Quiet.

Context (logic : services).

Lemma quiet_get_action {A} name (f : context → json → result A) c d :
  quiet (get_action name f c d).
Proof. unfold get_action. repeat quiet_step. Qed.

Lemma quiet_context_action {A} name (f : context → json → result A) d :
  quiet (context_action name f d).
Proof.
  unfold context_action. apply quiet_bind; [apply quiet_gets|].
  intros c. apply quiet_get_action.
Qed.

Lemma quiet_get_context : quiet (get_context logic).
Proof.
  assert (Hfill : quiet (fill_context logic)).
  { unfold fill_context. apply quiet_bind; [apply quiet_get_action|]. intros user.
    apply quiet_bind; [apply quiet_lift|]. intros name.
    apply (quiet_with_context (λ _, Some {[ "user" := name ]})). }
  unfold get_context. apply quiet_bind; [apply quiet_gets|].
  intros [c|]; [|done]. destruct (Py.truthy (JDict c)); [apply quiet_mret|done].
Qed.

Lemma quiet_context_set k v : quiet (context_set k v).
Proof.
  unfold context_set.
  apply (quiet_with_context (λ s, Some (<[k := v]> (context_now s)))).
Qed.

Lemma quiet_actor_name activity : quiet (actor_name logic activity).
Proof.
  unfold actor_name. apply quiet_bind; [apply quiet_lift|]. intros user_id.
  apply quiet_bind; [by apply quiet_log|]. intros _.
  destruct (user_get logic user_id); [apply quiet_mret|apply quiet_lift].
Qed.

Lemma quiet_activity_get id : quiet (Session.activity_get id).
Proof.
  unfold Session.activity_get. apply quiet_bind; [by apply quiet_log|].
  intros _. apply quiet_gets.
Qed.

Lemma quiet_get_data o : quiet (Session.get_data o).
Proof.
  intros s r s'. unfold Session.get_data.
  destruct (o ≫= _); intros [= <- <-]; (split_and!; try done);
    exists []; by rewrite app_nil_r.
Qed.

Lemma quiet_set_data o data : quiet (Session.set_data o data).
Proof.
  unfold Session.set_data. destruct o as [k|]; [|apply quiet_raise].
  apply quiet_bind; [by apply quiet_log|]. intros _.
  apply (quiet_with_dirty (λ s, <[k := data]> (dirty s))).
Qed.

(** One pass of the loop commits nothing, however it ends. *)
Lemma quiet_migrate_activity n i activity : quiet (migrate_activity logic n i activity).
Proof.
  unfold migrate_activity, print.
  apply quiet_bind; [apply quiet_lift|]. intros timestamp.
  apply quiet_bind; [by apply quiet_log|]. intros _.
  apply quiet_bind; [apply quiet_lift|]. intros revision_id.
  apply quiet_bind; [apply quiet_context_set|]. intros _.
  apply quiet_bind; [apply quiet_lift|]. intros object_id.
  apply quiet_bind; [apply quiet_context_action|]. intros raw.
  apply quiet_bind; [apply quiet_lift|]. intros dataset.
  apply quiet_bind; [apply quiet_actor_name|]. intros actor.
  apply quiet_bind; [apply quiet_lift|]. intros id.
  apply quiet_bind; [apply quiet_activity_get|]. intros o.
  apply quiet_bind; [apply quiet_get_data|]. intros current.
  apply quiet_bind; [apply quiet_lift|]. intros [].
  - by apply quiet_log.
  - apply quiet_set_data.
Qed.

Lemma aborts_clean_bind {A B} (m : M A) (f : A → M B) :
  quiet m → (∀ a, aborts_clean (f a)) → aborts_clean (m ≫= f).
Proof.
  intros Hm Hf s e s'. unfold mbind, M_bind.
  destruct (m s) as [[a|e1] s1] eqn:E.
  - intros Hrun.
    destruct (Hm _ _ _ E) as (Hdb & _ & _ & _ & t1 & Ht1 & Hc1%count_loud_commit).
    destruct (Hf a _ _ _ Hrun) as (Hdb' & t2 & Ht2 & Hc2).
    split; [congruence|].
    exists (t1 ++ t2). rewrite Ht2, Ht1, count_app, Hc1, Hc2.
    by rewrite <- app_assoc.
  - intros [= <- <-].
    destruct (Hm _ _ _ E) as (Hdb & _ & _ & _ & t1 & Ht1 & Hc1%count_loud_commit).
    eauto.
Qed.

(** [migrate_dataset] commits as its last step: when it raises,
    nothing was committed. *)
Lemma aborts_clean_migrate_dataset name : aborts_clean (migrate_dataset logic name).
Proof.
  unfold migrate_dataset, print.
  apply aborts_clean_bind; [apply quiet_get_context|]. intros _.
  apply aborts_clean_bind; [apply quiet_context_set|]. intros _.
  apply aborts_clean_bind; [apply quiet_context_action|]. intros stream.
  cbn zeta.
  apply aborts_clean_bind.
  { destruct (bool_decide _); [by apply quiet_log|apply quiet_mret]. }
  intros _.
  apply aborts_clean_bind; [apply quiet_context_set|]. intros _.
  apply aborts_clean_bind.
  { apply quiet_for_each. intros i x. apply quiet_migrate_activity. }
  intros _ s e s' Hrun.
  pose proof (loop_end_run stream s) as Hend. unfold print in Hend.
  rewrite Hend in Hrun. discriminate.
Qed.

Lemma frames_of_quiet {A} (m : M A) : quiet m → frames m.
Proof.
  intros Hm s r s' Hrun.
  destruct (Hm _ _ _ Hrun) as (_ & Had & Hdp & Hin & t & Ht & Hc%count_loud_cleanup).
  unfold visible_rows. rewrite Had, Hdp. eauto.
Qed.

Lemma frames_bind {A B} (m : M A) (f : A → M B) :
  frames m → (∀ a, frames (f a)) → frames (m ≫= f).
Proof.
  intros Hm Hf s r s'. unfold mbind, M_bind.
  destruct (m s) as [[a|e] s1] eqn:E.
  - intros Hrun.
    destruct (Hm _ _ _ E) as (Hv & Hin & t1 & Ht1 & Hc1).
    destruct (Hf a _ _ _ Hrun) as (Hv' & Hin' & t2 & Ht2 & Hc2).
    split_and!; try congruence.
    exists (t1 ++ t2). rewrite Ht2, Ht1, count_app, Hc1, Hc2.
    by rewrite <- app_assoc.
  - intros [= <- <-]. exact (Hm _ _ _ E).
Qed.

Lemma frames_for_each {A} (body : nat → A → M unit) l :
  (∀ i x, frames (body i x)) → ∀ i, frames (for_each body i l).
Proof.
  intros Hbody. induction l as [|x l IH]; intros i; cbn.
  - apply frames_of_quiet, quiet_mret.
  - apply frames_bind; [apply Hbody|]. intros _. apply IH.
Qed.

Lemma frames_loop_end (stream : list json) :
  frames (commit_if_dirty;;
          print "All {} datasets are migrated" [JNat (length stream)]).
Proof.
  intros s r s' Hrun. rewrite loop_end_run in Hrun. injection Hrun as <- <-.
  destruct (loop_end_facts stream s) as (_ & _ & _ & Hin & Ht).
  split_and!; [|done|].
  - unfold loop_end, visible_rows. destruct (bool_decide (dirty s = ∅)); [done|].
    cbn. by destruct (delete_pending s).
  - eexists. split; [exact Ht|]. unfold loop_end_events.
    by destruct (bool_decide (dirty s = ∅)).
Qed.

(** [migrate_dataset] never touches the legacy table nor the input. *)
Lemma frames_migrate_dataset name : frames (migrate_dataset logic name).
Proof.
  unfold migrate_dataset.
  apply frames_bind; [apply frames_of_quiet, quiet_get_context|]. intros _.
  apply frames_bind; [apply frames_of_quiet, quiet_context_set|]. intros _.
  apply frames_bind; [apply frames_of_quiet, quiet_context_action|]. intros stream.
  cbn zeta.
  apply frames_bind.
  { apply frames_of_quiet. unfold print.
    destruct (bool_decide _); [by apply quiet_log|apply quiet_mret]. }
  intros _.
  apply frames_bind; [apply frames_of_quiet, quiet_context_set|]. intros _.
  apply frames_bind.
  { apply frames_of_quiet, quiet_for_each. intros i x. apply quiet_migrate_activity. }
  intros _. apply frames_loop_end.
Qed.

Lemma frames_migrate_all_datasets : frames (migrate_all_datasets logic).
Proof.
  unfold migrate_all_datasets.
  apply frames_bind; [apply frames_of_quiet, quiet_get_context|]. intros _.
  apply frames_bind; [apply frames_of_quiet, quiet_context_action|]. intros names.
  cbn zeta. apply frames_for_each. intros i name.
  apply frames_bind; [apply frames_of_quiet; by apply quiet_log|].
  intros _. apply frames_migrate_dataset.
Qed.

End Quiet.

(* ===================================================================== *)
(** * The properties of the design document *)
(* ===================================================================== *)

Lemma Example_ids :
  activity_id <$> Example.stream =
  [Some (JStr "a1"); Some (JStr "a2"); Some (JStr "a3"); Some (JStr "a4"); Some (JStr "a5")].
Proof. vm_compute. reflexivity. Qed.

Lemma Example_ids_distinct : NoDup (activity_id <$> Example.stream).
Proof.
  rewrite Example_ids.
  repeat (apply NoDup_cons; split; [rewrite ?not_elem_of_cons, elem_of_nil; naive_solver|]).
  apply NoDup_nil. done.
Qed.

Section Claims.

Context (logic : services).

(** C7.  For a dataset whose activity stream is empty, a call of
    [migrate_dataset] that starts with a clean session returns
    normally; it makes no [package_show] call and no commit, it
    prints the [No activities] notice, and it leaves the activity
    table as it was. *)
Theorem empty_dataset_is_noop dataset_name s s0 :
  get_context logic s = (Ok tt, s0) →
  package_activity_list logic (listing_context s0) (list_args dataset_name) = Ok [] →
  dirty s = ∅ →
  ∃ s' t,
    migrate_dataset logic dataset_name s = (Ok tt, s') ∧
    trace s' = trace s ++ t ∧
    count (is_action "package_show") t = 0 ∧
    count is_commit t = 0 ∧
    EPrint "  No activities" [] ∈ t ∧
    db s' = db s ∧ dirty s' = ∅.
Proof.
  intros Hctx Hlist Hclean.
  assert (Hrun : migrate_dataset logic dataset_name s
                 = (Ok tt, loop_end [] (loop_start dataset_name [] s0))).
  { rewrite (migrate_dataset_unfold _ _ _ _ _ Hctx Hlist). cbn [for_each].
    rewrite bind_mret. apply loop_end_run. }
  destruct (migrate_dataset_trace _ _ _ _ _ _ Hctx Hlist Hrun)
    as (s2 & t0 & t1 & t2 & ->%for_each_nil_ok & _ & Ht & Ht2 & Ht0 & -> & _).
  assert (t2 = []) as ->.
  { apply (app_inv_head (trace (loop_start dataset_name [] s0))). by rewrite app_nil_r. }
  destruct (get_context_frame _ _ _ Hctx) as (Hdb & Hd & _).
  destruct (count_loop_end_events [] (loop_start dataset_name [] s0)) as (_ & Hs & Hc).
  assert (Hd0 : dirty (loop_start dataset_name [] s0) = ∅) by (cbn; congruence).
  rewrite bool_decide_eq_true_2 in Hc by done.
  destruct (loop_end_facts [] (loop_start dataset_name [] s0)) as (Hdb' & Hd' & _).
  eexists _, _. split; [exact Hrun|]. split; [exact Ht|].
  rewrite !count_app, Hs, Hc. split_and!.
  - by destruct Ht0 as [-> | ->].
  - by destruct Ht0 as [-> | ->].
  - rewrite !elem_of_app. right. left. cbn.
    rewrite bool_decide_eq_true_2 by done. rewrite !elem_of_cons. auto.
  - rewrite Hdb'. unfold Session.view. rewrite Hd0. cbn. by rewrite (left_id_L ∅ (∪)).
  - done.
Qed.

(** C4.  A call of [migrate_dataset] that returns, on a stream of [n]
    activities with distinct ids of which [k] were recorded in full
    when it started, sets exactly [n - k] payloads and commits at
    most once; it commits exactly once when [n - k > 0]. *)
Theorem commit_batching dataset_name s s0 stream s' :
  get_context logic s = (Ok tt, s0) →
  package_activity_list logic (listing_context s0) (list_args dataset_name) = Ok stream →
  NoDup (activity_id <$> stream) →
  migrate_dataset logic dataset_name s = (Ok tt, s') →
  let n := length stream in
  let k := length (filter (λ a, recorded (Session.view s) a = true) stream) in
  ∃ t, trace s' = trace s ++ t ∧
       count is_set_data t = n - k ∧
       count is_commit t ≤ 1 ∧
       (n - k > 0 → count is_commit t = 1).
Proof.
  intros Hctx Hlist Hnodup Hrun n k.
  destruct (migrate_dataset_trace _ _ _ _ _ _ Hctx Hlist Hrun)
    as (s2 & t0 & t1 & t2 & Hloop & -> & Ht & Ht2 & Ht0 & -> & Hc2 & _ & _ & Hdirty).
  destruct (get_context_frame _ _ _ Hctx) as (Hdb & Hd & _).
  pose proof (loop_sets _ _ _ _ _ _ _ Hloop Hnodup Ht2) as Hsets.
  assert (Hview : Session.view (loop_start dataset_name stream s0) = Session.view s).
  { unfold Session.view. cbn. by rewrite Hdb, Hd. }
  rewrite Hview in Hsets.
  pose proof (filter_split_length (recorded (Session.view s)) stream) as Hsplit.
  destruct (count_loop_end_events stream s2) as (He1 & _ & He2).
  eexists. split; [exact Ht|].
  assert (Hs0 : count is_set_data t0 = 0 ∧ count is_commit t0 = 0).
  { by destruct Ht0 as [-> | ->]. }
  destruct Hs0 as [Hs0 Hc0].
  assert (Hs1 :
    let t1 := EAction "package_activity_list" (listing_context s0) (list_args dataset_name)
              :: (if bool_decide (length stream = 0)
                  then [EPrint "  No activities" []] else []) in
    count is_set_data t1 = 0 ∧ count is_commit t1 = 0).
  { by destruct (bool_decide (length stream = 0)). }
  destruct Hs1 as [Hs1 Hc1].
  rewrite !count_app, Hs0, Hc0, Hs1, Hc1, Hc2, He1, He2, Hsets.
  fold n in Hsplit. fold k in Hsplit. clearbody n k.
  split_and!; [lia | destruct (bool_decide (dirty s2 = ∅)); lia |].
  intros Hpos. rewrite bool_decide_eq_false_2; [done|].
  apply Hdirty. rewrite Hsets. lia.
Qed.

(** C1, as amended.  The guard answers [True] for a payload exactly
    when the payload's ['package'] entry has a ['resources'] key,
    whatever is stored under it, an empty list included.  A pass of
    the loop leaves the payload of an activity alone when the guard
    answers [True], and replaces it by the new snapshot when the
    guard answers [False]. *)
Theorem guard_is_key_presence n i activity s s' k current :
  migrate_activity logic n i activity s = (Ok tt, s') →
  activity_id activity = Some (JStr k) →
  Session.view s !! k = Some current →
  payload_shaped current →
  ∃ full p,
    is_fully_migrated current = Ok full ∧
    (full = true ↔ has_resources_key current) ∧
    prepare logic (context_now s) activity = Ok p ∧
    Session.view s' !! k = Some (if full then current else snapshot p) ∧
    ∃ t, trace s' = trace s ++ t ∧ count is_set_data t = (if full then 0 else 1).
Proof.
  intros (p & k' & current' & full & Hp & Hk & Hview & Hfull & ->)%migrate_activity_ok
         Hid Hcur (d & -> & Hshape).
  pose proof Hp as (raw & _ & _ & _ & _ & _ & _ & _ & Hid')%prepare_ok.
  apply getitem_ok in Hid'. unfold activity_id in Hid.
  rewrite Hid, Hk in Hid'. injection Hid' as ->.
  rewrite Hcur in Hview. injection Hview as <-.
  exists full, p. split_and!; [done| |done|..].
  - unfold is_fully_migrated, has_resources_key in *. cbn in *.
    destruct (d !! "package") as [package|] eqn:Hpkg; cbn in *.
    + destruct (Hshape package eq_refl) as [pk ->]. cbn in Hfull.
      injection Hfull as <-. rewrite bool_decide_eq_true. split.
      * intros Hsome. by exists (JDict pk).
      * by intros (package & [= <-] & Hsome).
    + rewrite lookup_empty in Hfull. injection Hfull as <-. split; [done|].
      by intros (package & [=] & _).
  - rewrite view_after_activity. destruct full; [done|]. by rewrite lookup_insert_eq.
  - eexists. split; [done|].
    by destruct (count_activity_events n i (context_now s) p k' full) as (_ & _ & ->).
Qed.

(** C6.  The payload attached to an activity has, as its actor, the
    name of the user the activity's [user_id] finds, and the
    [user_id] itself when it finds none; resolving the actor returns
    normally in either case. *)
Theorem actor_fallback n i activity s s' user_id k :
  migrate_activity logic n i activity s = (Ok tt, s') →
  field activity "user_id" = Some user_id →
  activity_id activity = Some (JStr k) →
  recorded (Session.view s) activity = false →
  let actor := match user_get logic user_id with
               | Some user => User.name user
               | None => user_id
               end in
  (∃ data, Session.view s' !! k = Some data ∧
           ESetData k data ∈ trace s' ∧
           field data "actor" = Some actor) ∧
  ∀ s1, actor_name logic activity s1 =
        (Ok actor, with_trace (trace s1 ++ [EUserGet user_id]) s1).
Proof.
  intros (p & k' & Hp & Hk & Hid & _ & ->)%migrate_activity_facts Huid Hid' Hrec actor.
  rewrite Hid in Hid'. injection Hid' as ->. rewrite Hrec.
  pose proof Hp as (raw & _ & _ & _ & _ & _ & Huid' & Hactor & _)%prepare_ok.
  apply getitem_ok in Huid'. rewrite Huid in Huid'. injection Huid' as Huid'.
  split.
  - exists (snapshot p). rewrite view_after_activity, lookup_insert_eq.
    split_and!; [done| |].
    + unfold after_activity, activity_events. cbn.
      rewrite !elem_of_app, !elem_of_cons. auto 10.
    + unfold snapshot. cbn. rewrite lookup_insert_ne by done.
      rewrite lookup_singleton_eq. by rewrite Hactor, <- Huid'.
  - intros s1. apply actor_name_ok. exists user_id.
    split; [by apply getitem_ok|done].
Qed.


(** C5.  [migrate_dataset] asks for the activity stream with
    ['include_hidden_activity'] set.  When it returns, on a stream
    with distinct ids, every activity of the stream, whoever its user
    is, has been reconstructed by a [package_show] call as of its own
    ['revision_id'], is recorded in full in the committed table, and,
    unless it was recorded in full before the call, carries the
    normalized result of that very reconstruction. *)
Theorem hidden_activities_included dataset_name s s0 stream s' :
  get_context logic s = (Ok tt, s0) →
  package_activity_list logic (listing_context s0) (list_args dataset_name) = Ok stream →
  NoDup (activity_id <$> stream) →
  migrate_dataset logic dataset_name s = (Ok tt, s') →
  listing_context s0 !! "include_hidden_activity" = Some (JBool true) ∧
  ∃ t, trace s' = trace s ++ t ∧
    EAction "package_activity_list" (listing_context s0) (list_args dataset_name) ∈ t ∧
    ∀ activity, activity ∈ stream →
      ∃ k revision_id object_id user_id raw dataset,
        activity_id activity = Some (JStr k) ∧
        field activity "revision_id" = Some revision_id ∧
        field activity "object_id" = Some object_id ∧
        field activity "user_id" = Some user_id ∧
        EAction "package_show" (<["revision_id" := revision_id]> (loop_context s0))
                (show_args object_id) ∈ t ∧
        package_show logic (<["revision_id" := revision_id]> (loop_context s0))
          (show_args object_id) = Ok raw ∧
        normalize raw = Ok dataset ∧
        recorded (db s') activity = true ∧
        (recorded (Session.view s) activity = false →
         db s' !! k = Some (JDict {[ "package" := dataset;
                                     "actor" := resolved_actor logic user_id ]})).
Proof.
  intros Hctx Hlist Hnodup Hrun.
  split; [apply lookup_insert_eq|].
  destruct (migrate_dataset_trace _ _ _ _ _ _ Hctx Hlist Hrun)
    as (s2 & t0 & t1 & t2 & Hloop & -> & Ht & Ht2 & _ & -> & _).
  destruct (get_context_frame _ _ _ Hctx) as (Hdb & Hd & _).
  destruct (loop_end_facts stream s2) as (Hdb' & _).
  destruct (loop_recorded _ _ _ _ _ _ Hloop) as [_ Hall].
  eexists. split; [exact Ht|]. split.
  { rewrite !elem_of_app, !elem_of_cons. auto. }
  intros activity Hin.
  destruct (loop_payloads _ _ _ _ _ _ _ Hloop Hnodup Ht2 activity Hin)
    as (p & k & Hp & Hid & Hcall & Hset).
  change (context_now (loop_start dataset_name stream s0)) with (loop_context s0)
    in Hp, Hcall.
  destruct (prepare_ok _ _ _ _ Hp)
    as (raw & _ & Hrev%getitem_ok & Hoid%getitem_ok & Hshow & Hnorm
            & Huid%getitem_ok & Hactor & _).
  exists k, (pr_revision_id p), (pr_object_id p), (pr_user_id p), raw, (pr_dataset p).
  split_and!; try done.
  - rewrite !elem_of_app. auto.
  - rewrite Hdb'. by eapply Forall_forall in Hall.
  - intros Hrec. rewrite Hdb', <- Hactor. apply Hset.
    unfold Session.view in *. cbn. by rewrite Hdb, Hd.
Qed.

(** C9.  The loop body reconstructs the dataset, normalizes it and
    resolves the actor before it looks at the stored payload.  So for
    an activity that is already recorded in full when its turn comes:
    a pass that returns has made the [package_show] call and the user
    lookup first and has set nothing; a normalization that fails
    stops the pass before the payload is looked up; and when the
    [package_show] call raises [NotFound], [migrate_dataset] raises
    [NotFound] right after that call, with nothing committed. *)
Theorem reconstruction_precedes_guard dataset_name s s0 before activity after s1
    timestamp revision_id object_id :
  let stream := before ++ activity :: after in
  let call := EAction "package_show"
                (<["revision_id" := revision_id]> (context_now s1))
                (show_args object_id) in
  get_context logic s = (Ok tt, s0) →
  package_activity_list logic (listing_context s0) (list_args dataset_name) = Ok stream →
  for_each (migrate_activity logic (length stream)) 0 before
    (loop_start dataset_name stream s0) = (Ok tt, s1) →
  recorded (Session.view s1) activity = true →
  field activity "timestamp" = Some timestamp →
  field activity "revision_id" = Some revision_id →
  field activity "object_id" = Some object_id →
  (∀ s2,
     migrate_activity logic (length stream) (length before) activity s1 = (Ok tt, s2) →
     ∃ progress user_id id,
       trace s2 = trace s1 ++
         [ progress; call; EUserGet user_id; EActivityGet id;
           EPrint "    Full dataset already recorded - no action" [] ] ∧
       dirty s2 = dirty s1 ∧ db s2 = db s1) ∧
  (∀ raw e,
     package_show logic (<["revision_id" := revision_id]> (context_now s1))
       (show_args object_id) = Ok raw →
     normalize raw = Raise e →
     ∃ s2 progress,
       migrate_activity logic (length stream) (length before) activity s1 = (Raise e, s2) ∧
       trace s2 = trace s1 ++ [progress; call]) ∧
  (package_show logic (<["revision_id" := revision_id]> (context_now s1))
     (show_args object_id) = Raise NotFound →
   ∃ s' progress,
     migrate_dataset logic dataset_name s = (Raise NotFound, s') ∧
     trace s' = trace s1 ++ [progress; call] ∧
     db s' = db s ∧
     count is_commit (trace s') = count is_commit (trace s)).
Proof.
  intros stream call Hctx Hlist Hbefore Hrec Hts Hrev Hoid. subst stream.
  split; [|split].
  - intros s2 (p & k & Hp & _ & _ & _ & ->)%migrate_activity_facts.
    rewrite Hrec.
    destruct (prepare_ok _ _ _ _ Hp) as (_ & _ & Hrev'%getitem_ok & Hoid'%getitem_ok & _).
    rewrite Hrev in Hrev'. injection Hrev' as Hrev'.
    rewrite Hoid in Hoid'. injection Hoid' as Hoid'.
    eexists _, _, _. split; [|done]. cbn. unfold call. by rewrite Hrev', Hoid'.
  - intros raw e Hshow Hnorm. eexists _, _.
    split; [by eapply migrate_activity_normalize_raises | reflexivity].
  - intros Hshow.
    pose proof (migrate_activity_show_raises logic
                  (length (before ++ activity :: after)) (length before)
                  activity s1 _ _ _ _ Hts Hrev Hoid Hshow) as Hraise.
    eexists _, _. split_and!.
    + rewrite (migrate_dataset_unfold _ _ _ _ _ Hctx Hlist).
      rewrite (for_each_app_run _ _ _ _ _ _ _ Hbefore).
      apply bind_run_raise. cbn [for_each]. apply bind_run_raise.
      rewrite Nat.add_0_l. exact Hraise.
    + done.
    + destruct (loop_frame _ _ _ _ _ _ Hbefore) as (Hdb1 & _).
      destruct (get_context_frame _ _ _ Hctx) as (Hdb0 & _).
      cbn. by rewrite Hdb1.
    + destruct (loop_trace _ _ _ _ _ _ Hbefore) as (t & Ht & Hc & _).
      destruct (get_context_frame _ _ _ Hctx) as (_ & _ & _ & _ & _ & t0 & Ht0 & Hcase).
      cbn [trace]. rewrite Ht. cbn [trace loop_start]. rewrite Ht0.
      rewrite !count_app, Hc.
      assert (count is_commit t0 = 0) as -> by (by destruct Hcase as [-> | ->]).
      destruct (bool_decide (length (before ++ activity :: after) = 0));
        rewrite !count_cons, !count_nil; cbn [is_commit]; lia.
Qed.


(** C2.  Run the migration, over all datasets or over one, in a
    fresh process on any activity table, and let it return.  Then
    everything it set is committed, and a second run in a fresh
    process on the resulting table returns too, leaves the table as
    the first run left it, sets no payload and commits nothing. *)
Theorem migration_is_idempotent (run : M unit) table rows keys s1 rows' keys' :
  run = migrate_all_datasets logic ∨ (∃ name, run = migrate_dataset logic name) →
  run (start table rows keys) = (Ok tt, s1) →
  dirty s1 = ∅ ∧
  ∃ s2, run (start (db s1) rows' keys') = (Ok tt, s2) ∧
        db s2 = db s1 ∧ dirty s2 = ∅ ∧
        count is_set_data (trace s2) = 0 ∧ count is_commit (trace s2) = 0.
Proof.
  intros [-> | [name ->]] Hrun.
  - unfold migrate_all_datasets in Hrun.
    apply bind_ok in Hrun as ([] & sa & Hctx & Hrun).
    apply bind_ok in Hrun as (names & sb & [Hlist ->]%context_action_ok & Hloop).
    destruct (get_context_frame _ _ _ Hctx) as (_ & Hda & _).
    destruct (all_datasets_keeps _ _ _ _ _ _ Hloop) as [Hd1 _]; [done|].
    split; [done|].
    destruct (get_context_replay _ _ _ (start (db s1) rows' keys') Hctx)
      as (ta & Hctx' & Hca & Hdba & Hdta & tra & Htra & Hsa & Hcma); [done|].
    assert (Hcn : context_now ta = context_now sa) by (unfold context_now; by rewrite Hca).
    set (e := EAction "package_list" (context_now ta) (JDict ∅)).
    destruct (all_datasets_replay _ _ _ _ _ _ (with_trace (trace ta ++ [e]) ta) Hloop)
      as (s2 & Hloop' & Hdb2 & Hd2 & tr & Htr & Hs & Hcm); [done|done|done|..].
    { cbn. rewrite Hdba. apply keeps_recorded_refl. }
    exists s2. split_and!; [|by rewrite Hdb2|done|..].
    + unfold migrate_all_datasets.
      erewrite bind_run by exact Hctx'.
      erewrite bind_run; [exact Hloop'|].
      apply context_action_ok. split; [by rewrite Hcn|done].
    + rewrite Htr. cbn [trace with_trace]. rewrite Htra. cbn [trace start app].
      by rewrite !count_app, Hsa, Hs.
    + rewrite Htr. cbn [trace with_trace]. rewrite Htra. cbn [trace start app].
      by rewrite !count_app, Hcma, Hcm.
  - destruct (migrate_dataset_keeps _ _ _ _ Hrun) as [Hd1 _]. split; [done|].
    destruct (migrate_dataset_replay _ _ _ _ (start (db s1) rows' keys') Hrun)
      as (s2 & Hrun' & _ & Hdb2 & Hd2 & tr & Htr & Hs & Hcm); [done|done|..].
    { apply keeps_recorded_refl. }
    exists s2. by rewrite Htr.
Qed.


End Claims.

(** A run of C7's statement: [dataset-2] has no activities. *)
Lemma empty_dataset_is_noop_witness :
  ∃ s' t,
    migrate_dataset Example.logic (JStr "dataset-2") Example.s = (Ok tt, s') ∧
    trace s' = trace Example.s ++ t ∧
    count (is_action "package_show") t = 0 ∧
    count is_commit t = 0 ∧
    EPrint "  No activities" [] ∈ t ∧
    db s' = db Example.s ∧ dirty s' = ∅.
Proof.
  apply (empty_dataset_is_noop Example.logic (JStr "dataset-2") Example.s
           (get_context Example.logic Example.s).2).
  - vm_compute. reflexivity.
  - vm_compute. reflexivity.
  - reflexivity.
Defined.

(** A run of C4's statement: five activities, two of them recorded. *)
Lemma commit_batching_witness :
  ∃ t, trace (migrate_dataset Example.logic (JStr "dataset-1") Example.s).2
       = trace Example.s ++ t ∧
       count is_set_data t = 5 - 2 ∧
       count is_commit t ≤ 1 ∧
       (5 - 2 > 0 → count is_commit t = 1).
Proof.
  apply (commit_batching Example.logic (JStr "dataset-1") Example.s
           (get_context Example.logic Example.s).2 Example.stream).
  - vm_compute. reflexivity.
  - vm_compute. reflexivity.
  - apply Example_ids_distinct.
  - vm_compute. reflexivity.
Defined.

(** C3, as amended.  A normalized dataset has no revision timestamp
    in its organization nor in any of its resources; its tags and its
    extras are the reconstructed ones, untouched. *)
Theorem normalize_strips_organization_and_resources raw dataset :
  normalize raw = Ok dataset →
  entry_clean "organization" dataset ∧
  items_clean "resources" dataset ∧
  field dataset "tags" = field raw "tags" ∧
  field dataset "extras" = field raw "extras".
Proof.
  intros (d & -> & _ & Horg & Hres & Hother)%normalize_ok.
  split_and!; [done|done|..]; by apply Hother.
Qed.

Lemma normalize_strips_organization_and_resources_witness :
  entry_clean "organization" (Example.normalized_at (JStr "r1")) ∧
  items_clean "resources" (Example.normalized_at (JStr "r1")) ∧
  field (Example.normalized_at (JStr "r1")) "tags"
    = field (Example.dataset_at (JStr "r1")) "tags" ∧
  field (Example.normalized_at (JStr "r1")) "extras"
    = field (Example.dataset_at (JStr "r1")) "extras".
Proof.
  apply (normalize_strips_organization_and_resources (Example.dataset_at (JStr "r1"))).
  vm_compute. reflexivity.
Defined.

(** C3 as stated fails: the revision timestamps of the tags and of the
    extras are still there after normalization. *)
Lemma normalize_keeps_tag_and_extra_timestamps :
  ∃ dataset,
    normalize (Example.dataset_at (JStr "r1")) = Ok dataset ∧
    ¬ items_clean "tags" dataset ∧
    ¬ items_clean "extras" dataset.
Proof.
  exists (Example.normalized_at (JStr "r1")). split; [by vm_compute|].
  split; intros Hclean.
  - specialize (Hclean _ eq_refl). apply Forall_cons in Hclean as [Hno _].
    apply Hno. by eexists.
  - specialize (Hclean _ eq_refl). apply Forall_cons in Hclean as [Hno _].
    apply Hno. by eexists.
Qed.

(** C10.  On a dataset whose ['organization'] entry is missing or is
    [None], the organization step of the normalizer returns normally
    and changes nothing; normalization is then the resource step. *)
Theorem normalize_without_organization d :
  d !! "organization" = None ∨ d !! "organization" = Some JNone →
  strip_organization (JDict d) = Ok (JDict d) ∧
  normalize (JDict d) = strip_resources (JDict d).
Proof.
  intros Horg.
  assert (Hstrip : strip_organization (JDict d) = Ok (JDict d)).
  { unfold strip_organization. cbn. by destruct Horg as [-> | ->]. }
  split; [done|]. unfold normalize. by rewrite Hstrip.
Qed.

Lemma normalize_without_organization_witness :
  strip_organization (JDict {[ "organization" := JNone; "resources" := JList [] ]})
    = Ok (JDict {[ "organization" := JNone; "resources" := JList [] ]}) ∧
  normalize (JDict {[ "organization" := JNone; "resources" := JList [] ]})
    = strip_resources (JDict {[ "organization" := JNone; "resources" := JList [] ]}).
Proof.
  apply (normalize_without_organization {[ "organization" := JNone; "resources" := JList [] ]}).
  right. vm_compute. reflexivity.
Defined.

(** A run of C1's statement: the first activity of the example, whose
    payload has no resources key. *)
Lemma guard_is_key_presence_witness :
  ∃ full p,
    is_fully_migrated Example.legacy = Ok full ∧
    (full = true ↔ has_resources_key Example.legacy) ∧
    prepare Example.logic (context_now Example.s) (Example.activity "a1" "r1" "site") = Ok p ∧
    Session.view
      (migrate_activity Example.logic 5 0 (Example.activity "a1" "r1" "site") Example.s).2
      !! "a1" = Some (if full then Example.legacy else snapshot p) ∧
    ∃ t, trace (migrate_activity Example.logic 5 0
                  (Example.activity "a1" "r1" "site") Example.s).2
         = trace Example.s ++ t ∧
         count is_set_data t = (if full then 0 else 1).
Proof.
  apply (guard_is_key_presence Example.logic 5 0 (Example.activity "a1" "r1" "site")
           Example.s).
  - vm_compute. reflexivity.
  - vm_compute. reflexivity.
  - vm_compute. reflexivity.
  - eexists. split; [reflexivity|]. intros package Hpackage.
    rewrite lookup_singleton_eq in Hpackage. injection Hpackage as <-. by eexists.
Defined.

(** C1 as stated fails: the payload of [a2] has an empty resources
    list; the guard answers [True] for it and the migration of its
    dataset leaves it as it is. *)
Lemma guard_accepts_empty_resources :
  let s' := (migrate_dataset Example.logic (JStr "dataset-1") Example.s).2 in
  field Example.complete "package" ≫= (λ package, field package "resources")
    = Some (JList []) ∧
  ¬ has_nonempty_resources Example.complete ∧
  is_fully_migrated Example.complete = Ok true ∧
  Session.view Example.s !! "a2" = Some Example.complete ∧
  migrate_dataset Example.logic (JStr "dataset-1") Example.s = (Ok tt, s') ∧
  db s' !! "a2" = Some Example.complete ∧
  count is_set_data (trace s') = 3.
Proof.
  split_and!.
  - by vm_compute.
  - intros (package & resources & Hpackage & Hresources & Htruthy).
    vm_compute in Hpackage. injection Hpackage as <-.
    vm_compute in Hresources. injection Hresources as <-. done.
  - by vm_compute.
  - by vm_compute.
  - by vm_compute.
  - by vm_compute.
  - by vm_compute.
Qed.

(** A run of C6's statement: the user of [a5] does not exist. *)
Lemma actor_fallback_witness :
  let activity := Example.activity "a5" "r5" "U-missing" in
  let s' := (migrate_activity Example.logic 5 4 activity Example.s).2 in
  (∃ data, Session.view s' !! "a5" = Some data ∧
           ESetData "a5" data ∈ trace s' ∧
           field data "actor" = Some (JStr "U-missing")) ∧
  ∀ s1, actor_name Example.logic activity s1 =
        (Ok (JStr "U-missing"), with_trace (trace s1 ++ [EUserGet (JStr "U-missing")]) s1).
Proof.
  intros activity s'.
  apply (actor_fallback Example.logic 5 4 activity Example.s s' (JStr "U-missing") "a5").
  - vm_compute. reflexivity.
  - vm_compute. reflexivity.
  - vm_compute. reflexivity.
  - vm_compute. reflexivity.
Defined.

(** C8.  The cleanup step, given an answer on standard input.  When
    the session sees no row in activity_detail it says so and returns:
    no prompt, no delete, no commit.  Otherwise it prompts once; on an
    answer that starts with [y] or [Y] it deletes the rows, commits
    once and returns; on any other answer it raises [SystemExit(0)],
    having deleted and committed nothing. *)
Theorem cleanup_gating s response rest :
  stdin s = response :: rest →
  let rows := if delete_pending s then 0 else activity_detail s in
  ∃ r s' t,
    wipe_activity_detail s = (r, s') ∧ trace s' = trace s ++ t ∧
    if bool_decide (rows = 0) then
      r = Ok tt ∧ EPrint already_emptied [] ∈ t ∧
      count is_input t = 0 ∧ count (is_execute sql_delete) t = 0 ∧
      count is_commit t = 0 ∧
      activity_detail s' = activity_detail s ∧ delete_pending s' = delete_pending s
    else
      count is_input t = 1 ∧
      if affirmative response then
        r = Ok tt ∧ count (is_execute sql_delete) t = 1 ∧ count is_commit t = 1 ∧
        activity_detail s' = 0 ∧ delete_pending s' = false
      else
        r = Raise (SystemExit 0) ∧ count (is_execute sql_delete) t = 0 ∧
        count is_commit t = 0 ∧
        activity_detail s' = activity_detail s ∧ delete_pending s' = delete_pending s.
Proof.
  intros Hin rows. case_bool_decide as Hrows.
  - rewrite (wipe_activity_detail_clean s Hrows).
    eexists _, _, _. split; [done|]. split; [done|].
    split_and!; try done. rewrite !elem_of_cons. auto.
  - rewrite (wipe_activity_detail_asked s response rest Hrows Hin).
    destruct (affirmative response); eexists _, _, _; (split; [done|]); by split.
Qed.

(** A run of C8's statement: seven rows, and the operator types [Yes]. *)
Lemma cleanup_gating_witness :
  ∃ r s' t,
    wipe_activity_detail (start Example.table 7 ["Yes"]) = (r, s') ∧ trace s' = [] ++ t ∧
    count is_input t = 1 ∧
    r = Ok tt ∧ count (is_execute sql_delete) t = 1 ∧ count is_commit t = 1 ∧
    activity_detail s' = 0 ∧ delete_pending s' = false.
Proof.
  apply (cleanup_gating (start Example.table 7 ["Yes"]) "Yes" []).
  reflexivity.
Defined.

(** A run of C2's statement: the whole example site, twice. *)
Lemma migration_is_idempotent_witness :
  let s1 := (migrate_all_datasets Example.logic Example.s).2 in
  dirty s1 = ∅ ∧
  ∃ s2, migrate_all_datasets Example.logic (start (db s1) 7 []) = (Ok tt, s2) ∧
        db s2 = db s1 ∧ dirty s2 = ∅ ∧
        count is_set_data (trace s2) = 0 ∧ count is_commit (trace s2) = 0.
Proof.
  intros s1.
  apply (migration_is_idempotent Example.logic (migrate_all_datasets Example.logic)
           Example.table 7 [] s1 7 []).
  - left. reflexivity.
  - vm_compute. reflexivity.
Defined.

(** A run of C5's statement: [a1] and [a3] are hidden activities. *)
Lemma hidden_activities_included_witness :
  let name := JStr "dataset-1" in
  let s0 := (get_context Example.logic Example.s).2 in
  let s' := (migrate_dataset Example.logic name Example.s).2 in
  listing_context s0 !! "include_hidden_activity" = Some (JBool true) ∧
  ∃ t, trace s' = trace Example.s ++ t ∧
    EAction "package_activity_list" (listing_context s0) (list_args name) ∈ t ∧
    ∀ activity, activity ∈ Example.stream →
      ∃ k revision_id object_id user_id raw dataset,
        activity_id activity = Some (JStr k) ∧
        field activity "revision_id" = Some revision_id ∧
        field activity "object_id" = Some object_id ∧
        field activity "user_id" = Some user_id ∧
        EAction "package_show" (<["revision_id" := revision_id]> (loop_context s0))
                (show_args object_id) ∈ t ∧
        package_show Example.logic (<["revision_id" := revision_id]> (loop_context s0))
          (show_args object_id) = Ok raw ∧
        normalize raw = Ok dataset ∧
        recorded (db s') activity = true ∧
        (recorded (Session.view Example.s) activity = false →
         db s' !! k = Some (JDict {[ "package" := dataset;
                                     "actor" := resolved_actor Example.logic user_id ]})).
Proof.
  intros name s0 s'.
  apply (hidden_activities_included Example.logic name Example.s s0 Example.stream s').
  - vm_compute. reflexivity.
  - vm_compute. reflexivity.
  - apply Example_ids_distinct.
  - vm_compute. reflexivity.
Defined.

(** A run of C9's statement: in [dataset-3] the last activity is
    recorded in full and its revision is gone. *)
Lemma reconstruction_precedes_guard_witness :
  let name := JStr "dataset-3" in
  let stream := Example.stream ++ [Example.stale] in
  let s0 := (get_context Example.logic Example.s).2 in
  let s1 := (for_each (migrate_activity Example.logic 6) 0 Example.stream
               (loop_start name stream s0)).2 in
  let call := EAction "package_show" (<["revision_id" := JStr "r-gone"]> (context_now s1))
                (show_args (JStr "dataset-1")) in
  (∀ s2,
     migrate_activity Example.logic 6 5 Example.stale s1 = (Ok tt, s2) →
     ∃ progress user_id id,
       trace s2 = trace s1 ++
         [ progress; call; EUserGet user_id; EActivityGet id;
           EPrint "    Full dataset already recorded - no action" [] ] ∧
       dirty s2 = dirty s1 ∧ db s2 = db s1) ∧
  (∀ raw e,
     package_show Example.logic (<["revision_id" := JStr "r-gone"]> (context_now s1))
       (show_args (JStr "dataset-1")) = Ok raw →
     normalize raw = Raise e →
     ∃ s2 progress,
       migrate_activity Example.logic 6 5 Example.stale s1 = (Raise e, s2) ∧
       trace s2 = trace s1 ++ [progress; call]) ∧
  (package_show Example.logic (<["revision_id" := JStr "r-gone"]> (context_now s1))
     (show_args (JStr "dataset-1")) = Raise NotFound →
   ∃ s' progress,
     migrate_dataset Example.logic name Example.s = (Raise NotFound, s') ∧
     trace s' = trace s1 ++ [progress; call] ∧
     db s' = db Example.s ∧
     count is_commit (trace s') = count is_commit (trace Example.s)).
Proof.
  intros name stream s0 s1 call.
  apply (reconstruction_precedes_guard Example.logic name Example.s s0
           Example.stream Example.stale [] s1 (JStr "2018-04-20T16:11:45")
           (JStr "r-gone") (JStr "dataset-1")).
  - vm_compute. reflexivity.
  - vm_compute. reflexivity.
  - vm_compute. reflexivity.
  - vm_compute. reflexivity.
  - vm_compute. reflexivity.
  - vm_compute. reflexivity.
  - vm_compute. reflexivity.
Defined.

(* ===================================================================== *)
(** * More on the normalizer (lines 113-120) *)
(* ===================================================================== *)

Lemma strip_resource_fixed res res' :
  strip_resource res = Ok res' → strip_resource res' = Ok res'.
Proof.
  unfold strip_resource. intros (b & Hb & Hres)%result_bind_ok.
  destruct b.
  - apply delitem_ok in Hres as (d & -> & ->). cbn.
    rewrite bool_decide_eq_false_2; [done|].
    rewrite lookup_delete_eq. apply is_Some_None.
  - injection Hres as <-. by rewrite Hb.
Qed.

Lemma mapM_fixed {A} (f : A → result A) l l' :
  (∀ x y, f x = Ok y → f y = Ok y) → mapM f l = Ok l' → mapM f l' = Ok l'.
Proof.
  intros Hf. revert l'. induction l as [|x l IH]; intros l'; cbn.
  - by intros [= <-].
  - intros (y & Hy & (ys & Hys & [= <-])%result_bind_ok)%result_bind_ok.
    cbn. rewrite (Hf _ _ Hy). cbn. by rewrite (IH _ Hys).
Qed.

(** What [strip_resource] does to an item it accepts. *)
Lemma strip_resource_effect res res' :
  strip_resource res = Ok res' →
  res' = res ∨ ∃ d, res = JDict d ∧ res' = JDict (delete revision_timestamp d).
Proof.
  unfold strip_resource. intros (b & Hb & Hres)%result_bind_ok.
  destruct b.
  - right. by apply delitem_ok.
  - left. by injection Hres.
Qed.

Lemma mapM_Forall2 {A B} (f : A → result B) (R : A → B → Prop) l l' :
  (∀ x y, f x = Ok y → R x y) → mapM f l = Ok l' → Forall2 R l l'.
Proof.
  intros Hf. revert l'. induction l as [|x l IH]; intros l'; cbn.
  - intros [= <-]. constructor.
  - intros (y & Hy & (ys & Hys & [= <-])%result_bind_ok)%result_bind_ok.
    constructor; eauto.
Qed.

(** The test of line 116, on the dict [d]. *)
Lemma strip_organization_test dataset d' :
  strip_organization dataset = Ok (JDict d') →
  Py.contains revision_timestamp
    (Py.or (default JNone (d' !! "organization")) (JDict ∅)) = Ok false.
Proof.
  unfold strip_organization. destruct dataset as [| | | | |d]; try discriminate.
  cbn [Py.get mbind result_bind].
  intros (b & Hb & Hres)%result_bind_ok. destruct b.
  - apply result_bind_ok in Hres as (org & _ & (org' & Hdel & [= <-])%result_bind_ok).
    apply delitem_ok in Hdel as (od & -> & ->).
    rewrite lookup_insert_eq. cbn. unfold Py.or.
    destruct (Py.truthy (JDict (delete revision_timestamp od))); cbn.
    + rewrite bool_decide_eq_false_2; [done|].
      rewrite lookup_delete_eq. apply is_Some_None.
    + rewrite bool_decide_eq_false_2; [done|].
      rewrite lookup_empty. apply is_Some_None.
  - by injection Hres as <-.
Qed.

Lemma strip_organization_noop d :
  Py.contains revision_timestamp
    (Py.or (default JNone (d !! "organization")) (JDict ∅)) = Ok false →
  strip_organization (JDict d) = Ok (JDict d).
Proof. intros Htest. unfold strip_organization. cbn. by rewrite Htest. Qed.

Lemma strip_resources_fixed dataset dataset' :
  strip_resources dataset = Ok dataset' → strip_resources dataset' = Ok dataset'.
Proof.
  intros H. pose proof H as H0. unfold strip_resources in H0.
  apply result_bind_ok in H0 as (rs & Hrs & H0).
  apply result_bind_ok in H0 as (items & Hit & H0).
  apply result_bind_ok in H0 as (items' & Hmap & [= <-]).
  apply getitem_ok in Hrs.
  destruct dataset as [| | | | |d]; try discriminate. cbn in Hrs.
  destruct rs; try done.
  injection Hit as <-.
  unfold strip_resources. cbn. rewrite lookup_insert_eq. cbn.
  rewrite (mapM_fixed _ _ _ strip_resource_fixed Hmap). cbn.
  by rewrite insert_insert_eq.
Qed.

(** X1.  Normalizing a normalized dataset returns it unchanged. *)
Theorem normalize_idempotent raw dataset :
  normalize raw = Ok dataset → normalize dataset = Ok dataset.
Proof.
  unfold normalize. intros (ds1 & Horg & Hres)%result_bind_ok.
  pose proof Hres as (d1 & -> & [rs Hrs] & _ & Hother)%strip_resources_ok.
  destruct dataset as [| | | | |d2]; try discriminate.
  pose proof (strip_organization_test _ _ Horg) as Htest.
  rewrite <- (Hother "organization") in Htest by done. cbn in Htest.
  rewrite (strip_organization_noop _ Htest). cbn [mbind result_bind].
  by eapply strip_resources_fixed.
Qed.

Lemma normalize_idempotent_witness :
  normalize (Example.normalized_at (JStr "r1")) = Ok (Example.normalized_at (JStr "r1")).
Proof.
  apply (normalize_idempotent (Example.dataset_at (JStr "r1"))).
  vm_compute. reflexivity.
Defined.

(** X2.  Normalization removes revision timestamps and nothing else:
    the organization and each resource are either unchanged or the
    same dict without its ['revision_timestamp'] key, the resources
    keep their number and order, and every other entry of the dataset
    is as reconstructed. *)
Theorem normalize_only_removes_timestamps raw dataset :
  normalize raw = Ok dataset →
  (∀ k, k ≠ "organization" → k ≠ "resources" → field dataset k = field raw k) ∧
  (∀ org, field raw "organization" = Some org →
     field dataset "organization" = Some org ∨
     ∃ d, org = JDict d ∧
          field dataset "organization" = Some (JDict (delete revision_timestamp d))) ∧
  (field raw "organization" = None → field dataset "organization" = None) ∧
  (∀ l, field raw "resources" = Some (JList l) →
     ∃ l', field dataset "resources" = Some (JList l') ∧
           Forall2 (λ res res',
                      res' = res ∨
                      ∃ d, res = JDict d ∧ res' = JDict (delete revision_timestamp d))
                   l l').
Proof.
  intros Hnorm. pose proof Hnorm as (d & -> & _ & _ & _ & Hother)%normalize_ok.
  unfold normalize in Hnorm. apply result_bind_ok in Hnorm as (ds1 & Horg & Hres).
  pose proof Hres as (d1 & -> & _ & _ & Hk2)%strip_resources_ok.
  split_and!.
  - done.
  - intros org Hraw. rewrite Hk2 by done. cbn in Hraw.
    unfold strip_organization in Horg. cbn in Horg. rewrite Hraw in Horg. cbn in Horg.
    apply result_bind_ok in Horg as (b & Hb & Horg). destruct b.
    + apply result_bind_ok in Horg as (org' & Hdel & [= <-]).
      right. apply delitem_ok in Hdel as (od & -> & ->).
      exists od. by rewrite lookup_insert_eq.
    + left. by injection Horg as <-.
  - intros Hraw. rewrite Hk2 by done. cbn in Hraw.
    unfold strip_organization in Horg. cbn in Horg. rewrite Hraw in Horg. cbn in Horg.
    by injection Horg as <-.
  - intros l Hraw.
    assert (Hd1 : d1 !! "resources" = Some (JList l)).
    { destruct (strip_organization_ok _ _ Horg) as (d0 & [= <-] & _ & Hk1).
      specialize (Hk1 "resources"). cbn in Hk1. rewrite Hk1 by done. exact Hraw. }
    unfold strip_resources in Hres. cbn in Hres. rewrite Hd1 in Hres. cbn in Hres.
    apply result_bind_ok in Hres as (items' & Hmap & [= <-]).
    exists items'. cbn. rewrite lookup_insert_eq. split; [done|].
    eapply mapM_Forall2; [|exact Hmap]. apply strip_resource_effect.
Qed.

Lemma normalize_only_removes_timestamps_witness :
  let raw := Example.dataset_at (JStr "r1") in
  let dataset := Example.normalized_at (JStr "r1") in
  (∀ k, k ≠ "organization" → k ≠ "resources" → field dataset k = field raw k) ∧
  (∀ org, field raw "organization" = Some org →
     field dataset "organization" = Some org ∨
     ∃ d, org = JDict d ∧
          field dataset "organization" = Some (JDict (delete revision_timestamp d))) ∧
  (field raw "organization" = None → field dataset "organization" = None) ∧
  (∀ l, field raw "resources" = Some (JList l) →
     ∃ l', field dataset "resources" = Some (JList l') ∧
           Forall2 (λ res res',
                      res' = res ∨
                      ∃ d, res = JDict d ∧ res' = JDict (delete revision_timestamp d))
                   l l').
Proof.
  intros raw dataset.
  apply (normalize_only_removes_timestamps raw dataset).
  vm_compute. reflexivity.
Defined.

(** X3.  A dataset dict without a ['resources'] key is never accepted
    by the normalizer; when it has no organization either, the error
    is the [KeyError] of line 118. *)
Theorem normalize_missing_resources d :
  d !! "resources" = None →
  (∀ dataset, normalize (JDict d) ≠ Ok dataset) ∧
  (d !! "organization" = None → normalize (JDict d) = Raise (KeyError "resources")).
Proof.
  intros Hnone. split.
  - intros dataset Hnorm. unfold normalize in Hnorm.
    apply result_bind_ok in Hnorm as (ds1 & Horg & Hres).
    destruct (strip_organization_ok _ _ Horg) as (d0 & [= <-] & _ & Hk1).
    unfold strip_resources in Hres.
    apply result_bind_ok in Hres as (rs & Hrs%getitem_ok & _).
    rewrite Hk1 in Hrs by done. congruence.
  - intros Horg. unfold normalize. rewrite strip_organization_noop.
    + unfold strip_resources. cbn. by rewrite Hnone.
    + rewrite Horg. cbn. rewrite bool_decide_eq_false_2; [done|].
      rewrite lookup_empty. apply is_Some_None.
Qed.

Lemma normalize_missing_resources_witness :
  (∀ dataset, normalize (JDict {[ "name" := JStr "dataset-1" ]}) ≠ Ok dataset) ∧
  (({[ "name" := JStr "dataset-1" ]} : gmap string json) !! "organization" = None →
   normalize (JDict {[ "name" := JStr "dataset-1" ]}) = Raise (KeyError "resources")).
Proof.
  apply (normalize_missing_resources {[ "name" := JStr "dataset-1" ]}).
  vm_compute. reflexivity.
Defined.

(* ===================================================================== *)
(** * More on the context cache (lines 38-50) *)
(* ===================================================================== *)

Lemma cached_singleton (s : state) (name : json) :
  cached (with_context (Some {[ "user" := name ]}) s) = true.
Proof.
  unfold cached. cbn. apply negb_true_iff, bool_decide_eq_false_2.
  apply insert_non_empty.
Qed.

(** X4.  [get_context] caches: a call that returns leaves the cache
    filled, and a call on a filled cache changes nothing, so that the
    site user is looked up once. *)
Theorem get_context_caches logic s s0 :
  get_context logic s = (Ok tt, s0) →
  cached s0 = true ∧
  get_context logic s0 = (Ok tt, s0) ∧
  (cached s = true → s0 = s).
Proof.
  intros Hrun. pose proof Hrun as H. rewrite get_context_ok in H.
  assert (Hc : cached s0 = true).
  { destruct (cached s) eqn:E; [by subst|].
    destruct H as (c & (user & _ & (name & _ & [= <-])%result_bind_ok)%result_bind_ok & ->).
    apply (cached_singleton _ name). }
  split_and!; [done| |].
  - apply get_context_ok. by rewrite Hc.
  - intros E. by rewrite E in H.
Qed.

Lemma get_context_caches_witness :
  let s0 := (get_context Example.logic Example.s).2 in
  cached s0 = true ∧
  get_context Example.logic s0 = (Ok tt, s0) ∧
  (cached Example.s = true → s0 = Example.s).
Proof.
  intros s0. apply (get_context_caches Example.logic Example.s s0).
  vm_compute. reflexivity.
Defined.

(** X5.  A site-user lookup that fails, or whose answer has no
    ['name'], is not cached: [get_context] raises and [_context] stays
    as it was, so that the next call tries again. *)
Theorem get_context_failure_is_not_cached logic s e :
  cached s = false →
  site_context logic = Raise e →
  ∃ s', get_context logic s = (Raise e, s') ∧
        _context s' = _context s ∧ cached s' = false ∧
        trace s' = trace s ++ [site_user_call].
Proof.
  intros Hc Hsite.
  assert (Hfill : fill_context logic s
                  = (Raise e, with_trace (trace s ++ [site_user_call]) s)).
  { unfold fill_context, get_action. unfold site_context in Hsite.
    unfold mbind at 1, M_bind at 1. unfold mbind at 1, M_bind at 1.
    unfold log at 1, modify at 1, lift at 1.
    destruct (get_site_user logic) as [user|e']; cbn in Hsite.
    - rewrite bind_lift_raise with (e := e); [done|].
      destruct (Py.getitem user "name"); cbn in Hsite; [discriminate Hsite | by injection Hsite as <-].
    - by injection Hsite as <-. }
  exists (with_trace (trace s ++ [site_user_call]) s). split; [|done].
  unfold get_context. rewrite bind_gets. unfold cached in Hc.
  destruct (_context s) as [c|]; [|done]. by rewrite Hc.
Qed.

Lemma get_context_failure_is_not_cached_witness :
  let logic := {| get_site_user := Ok (JDict {[ "id" := JStr "site-id" ]});
                  package_list := package_list Example.logic;
                  package_activity_list := package_activity_list Example.logic;
                  package_show := package_show Example.logic;
                  user_get := user_get Example.logic |} in
  ∃ s', get_context logic Example.s = (Raise (KeyError "name"), s') ∧
        _context s' = _context Example.s ∧ cached s' = false ∧
        trace s' = trace Example.s ++ [site_user_call].
Proof.
  intros logic. apply (get_context_failure_is_not_cached logic Example.s).
  - reflexivity.
  - vm_compute. reflexivity.
Defined.

(* ===================================================================== *)
(** * More on one dataset (lines 62-141) *)
(* ===================================================================== *)

(** X6.  The migration never overwrites: a payload for which the guard
    answers [True] before a run that returns, over all datasets or over
    one, is in the committed table, unchanged, after it. *)
Theorem migration_never_overwrites logic (run : M unit) s s' k current :
  run = migrate_all_datasets logic ∨ (∃ name, run = migrate_dataset logic name) →
  dirty s = ∅ →
  run s = (Ok tt, s') →
  db s !! k = Some current →
  is_fully_migrated current = Ok true →
  db s' !! k = Some current.
Proof.
  intros [-> | [name ->]] Hclean Hrun Hk Hfull.
  - unfold migrate_all_datasets in Hrun.
    apply bind_ok in Hrun as ([] & sa & Hctx & Hrun).
    apply bind_ok in Hrun as (names & sb & [Hlist ->]%context_action_ok & Hloop).
    destruct (get_context_frame _ _ _ Hctx) as (Hdba & Hda & _).
    destruct (all_datasets_keeps _ _ _ _ _ _ Hloop) as [_ Hkeep].
    { cbn. congruence. }
    apply Hkeep; [|done]. cbn. by rewrite Hdba.
  - destruct (migrate_dataset_keeps _ _ _ _ Hrun) as [_ Hkeep].
    apply Hkeep; [|done]. unfold Session.view.
    by rewrite Hclean, (left_id_L ∅ (∪)).
Qed.

Lemma migration_never_overwrites_witness :
  db (migrate_all_datasets Example.logic Example.s).2 !! "a2" = Some Example.complete.
Proof.
  apply (migration_never_overwrites Example.logic (migrate_all_datasets Example.logic)
           Example.s).
  - by left.
  - reflexivity.
  - vm_compute. reflexivity.
  - vm_compute. reflexivity.
  - vm_compute. reflexivity.
Defined.

(** X7.  A call of [migrate_dataset] that returns changes the payload
    of no activity outside the stream of its dataset. *)
Theorem migrate_dataset_touches_only_its_stream logic dataset_name s s0 stream s' k :
  get_context logic s = (Ok tt, s0) →
  package_activity_list logic (listing_context s0) (list_args dataset_name) = Ok stream →
  migrate_dataset logic dataset_name s = (Ok tt, s') →
  Some (JStr k) ∉ activity_id <$> stream →
  db s' !! k = Session.view s !! k.
Proof.
  intros Hctx Hlist Hrun Hnot.
  destruct (migrate_dataset_trace _ _ _ _ _ _ Hctx Hlist Hrun)
    as (s2 & _ & _ & _ & Hloop & -> & _).
  destruct (get_context_frame _ _ _ Hctx) as (Hdb & Hd & _).
  destruct (loop_end_facts stream s2) as (-> & _).
  rewrite (loop_view_other _ _ _ _ _ _ _ Hloop Hnot).
  unfold Session.view. cbn. by rewrite Hdb, Hd.
Qed.

Lemma migrate_dataset_touches_only_its_stream_witness :
  db (migrate_dataset Example.logic (JStr "dataset-1") Example.s).2 !! "a6"
  = Session.view Example.s !! "a6".
Proof.
  apply (migrate_dataset_touches_only_its_stream Example.logic (JStr "dataset-1")
           Example.s (get_context Example.logic Example.s).2 Example.stream).
  - vm_compute. reflexivity.
  - vm_compute. reflexivity.
  - vm_compute. reflexivity.
  - rewrite Example_ids, !not_elem_of_cons, elem_of_nil. naive_solver.
Defined.

Lemma loop_context_after logic n front :
  ∀ i s s' final revision_id,
    for_each (migrate_activity logic n) i (front ++ [final]) s = (Ok tt, s') →
    field final "revision_id" = Some revision_id →
    _context s' = Some (<["revision_id" := revision_id]> (context_now s)).
Proof.
  induction front as [|a front IH]; intros i s s' final revision_id.
  - intros (s1 & (p & k & Hp & _ & _ & _ & ->)%migrate_activity_facts
               & ->%for_each_nil_ok)%for_each_cons_ok Hrev.
    destruct (prepare_ok _ _ _ _ Hp) as (_ & _ & Hrev'%getitem_ok & _).
    rewrite Hrev in Hrev'. injection Hrev' as ->. done.
  - rewrite <- app_comm_cons.
    intros (s1 & (p & k & _ & _ & _ & _ & ->)%migrate_activity_facts
               & Hrest)%for_each_cons_ok Hrev.
    rewrite (IH _ _ _ _ _ Hrest Hrev). unfold context_now at 1. cbn.
    by rewrite insert_insert_eq.
Qed.

(** X8.  [migrate_dataset] writes to the cached context and does not
    restore it: after a call that returns, [_context] still has the
    hidden-activity flag set, ['for_view'] set to [False], and the revision id of
    the last activity of the stream; every other entry is as
    [get_context] had it. *)
Theorem migrate_dataset_leaves_context logic dataset_name s s0 front final revision_id s' :
  get_context logic s = (Ok tt, s0) →
  package_activity_list logic (listing_context s0) (list_args dataset_name)
    = Ok (front ++ [final]) →
  field final "revision_id" = Some revision_id →
  migrate_dataset logic dataset_name s = (Ok tt, s') →
  context_now s' !! "include_hidden_activity" = Some (JBool true) ∧
  context_now s' !! "for_view" = Some (JBool false) ∧
  context_now s' !! "revision_id" = Some revision_id ∧
  ∀ k, k ≠ "include_hidden_activity" → k ≠ "for_view" → k ≠ "revision_id" →
       context_now s' !! k = context_now s0 !! k.
Proof.
  intros Hctx Hlist Hrev Hrun.
  destruct (migrate_dataset_trace _ _ _ _ _ _ Hctx Hlist Hrun)
    as (s2 & _ & _ & _ & Hloop & -> & _).
  destruct (loop_end_facts (front ++ [final]) s2) as (_ & _ & Hc & _).
  pose proof (loop_context_after _ _ _ _ _ _ _ _ Hloop Hrev) as Hc2.
  unfold context_now at 1 2 3 4. rewrite Hc, Hc2. cbn.
  unfold loop_context, listing_context.
  split_and!.
  - rewrite !lookup_insert_ne by done. apply lookup_insert_eq.
  - rewrite lookup_insert_ne by done. apply lookup_insert_eq.
  - apply lookup_insert_eq.
  - intros k ???. by rewrite !lookup_insert_ne by done.
Qed.

Lemma migrate_dataset_leaves_context_witness :
  let s0 := (get_context Example.logic Example.s).2 in
  let s' := (migrate_dataset Example.logic (JStr "dataset-1") Example.s).2 in
  context_now s' !! "include_hidden_activity" = Some (JBool true) ∧
  context_now s' !! "for_view" = Some (JBool false) ∧
  context_now s' !! "revision_id" = Some (JStr "r5") ∧
  ∀ k, k ≠ "include_hidden_activity" → k ≠ "for_view" → k ≠ "revision_id" →
       context_now s' !! k = context_now s0 !! k.
Proof.
  intros s0 s'.
  apply (migrate_dataset_leaves_context Example.logic (JStr "dataset-1") Example.s s0
           (take 4 Example.stream) (Example.activity "a5" "r5" "U-missing")).
  - vm_compute. reflexivity.
  - vm_compute. reflexivity.
  - vm_compute. reflexivity.
  - vm_compute. reflexivity.
Defined.

(** X9.  All or nothing: when [migrate_dataset] raises, whatever the
    exception and wherever it comes from, the committed table is as
    it was and no commit was issued. *)
Theorem migrate_dataset_raise_commits_nothing logic dataset_name s e s' :
  migrate_dataset logic dataset_name s = (Raise e, s') →
  db s' = db s ∧ ∃ t, trace s' = trace s ++ t ∧ count is_commit t = 0.
Proof. apply aborts_clean_migrate_dataset. Qed.

Lemma migrate_dataset_raise_commits_nothing_witness :
  let s' := (migrate_dataset Example.logic (JStr "dataset-3") Example.s).2 in
  db s' = db Example.s ∧ ∃ t, trace s' = trace Example.s ++ t ∧ count is_commit t = 0.
Proof.
  intros s'.
  apply (migrate_dataset_raise_commits_nothing Example.logic (JStr "dataset-3")
           Example.s NotFound).
  vm_compute. reflexivity.
Defined.

(* ===================================================================== *)
(** * More on the whole run (lines 53-59) *)
(* ===================================================================== *)

(** The loop of [migrate_all_datasets]. *)
Local Abbreviation pass logic num :=
  (λ (i : nat) (dataset_name : json),
     print "{}/{} {}" [JNat (i + 1); JNat num; dataset_name];;
     migrate_dataset logic dataset_name).

Lemma for_each_app {A} (body : nat → A → M unit) l1 :
  ∀ i l2 s s1,
    for_each body i l1 s = (Ok tt, s1) →
    for_each body i (l1 ++ l2) s = for_each body (i + length l1) l2 s1.
Proof.
  induction l1 as [|x l1 IH]; intros i l2 s s1.
  - intros ->%for_each_nil_ok. cbn. by rewrite Nat.add_0_r.
  - intros (s0 & Hx & Hl)%for_each_cons_ok. cbn.
    erewrite bind_run by exact Hx.
    replace (i + S (length l1)) with (S i + length l1) by lia.
    by apply IH.
Qed.

(** X10.  The run stops at the first dataset that raises: the
    exception goes through, no later dataset is visited, the failing
    dataset has committed nothing, and the datasets before it stay
    committed. *)
Theorem migrate_all_datasets_stops_at_failure logic s s0 before dataset_name after s1 e s2 :
  let names := before ++ dataset_name :: after in
  let listed := with_trace (trace s0 ++ [EAction "package_list" (context_now s0) (JDict ∅)]) s0 in
  let progress := EPrint "{}/{} {}" [JNat (length before + 1); JNat (length names);
                                     dataset_name] in
  dirty s = ∅ →
  get_context logic s = (Ok tt, s0) →
  package_list logic (context_now s0) (JDict ∅) = Ok names →
  for_each (pass logic (length names)) 0 before listed = (Ok tt, s1) →
  migrate_dataset logic dataset_name (with_trace (trace s1 ++ [progress]) s1)
    = (Raise e, s2) →
  migrate_all_datasets logic s = (Raise e, s2) ∧
  db s2 = db s1 ∧ dirty s1 = ∅ ∧
  ∃ t, trace s2 = trace s1 ++ progress :: t ∧ count is_commit t = 0.
Proof.
  intros names listed progress Hclean Hctx Hlist Hbefore Hraise.
  destruct (aborts_clean_migrate_dataset _ _ _ _ _ Hraise) as (Hdb & t & Ht & Hc).
  destruct (get_context_frame _ _ _ Hctx) as (_ & Hd0 & _).
  destruct (all_datasets_keeps _ _ _ _ _ _ Hbefore) as [Hd1 _].
  { cbn. congruence. }
  split_and!; [|done|done|].
  - unfold migrate_all_datasets.
    erewrite bind_run by exact Hctx.
    erewrite bind_run by (by apply context_action_ok).
    cbn zeta. fold names. unfold names at 2.
    rewrite (for_each_app _ _ _ _ _ _ Hbefore). cbn [for_each].
    apply bind_run_raise. unfold print. rewrite Nat.add_0_l, bind_log. exact Hraise.
  - exists t. split; [|done]. rewrite Ht. cbn. by rewrite <- app_assoc.
Qed.

Lemma migrate_all_datasets_stops_at_failure_witness :
  let logic := {| get_site_user := get_site_user Example.logic;
                  package_list := λ _ _, Ok [JStr "dataset-1"; JStr "dataset-3";
                                             JStr "dataset-2"];
                  package_activity_list := package_activity_list Example.logic;
                  package_show := package_show Example.logic;
                  user_get := user_get Example.logic |} in
  let s0 := (get_context logic Example.s).2 in
  let listed :=
    with_trace (trace s0 ++ [EAction "package_list" (context_now s0) (JDict ∅)]) s0 in
  let s1 := (for_each (pass logic 3) 0 [JStr "dataset-1"] listed).2 in
  let progress := EPrint "{}/{} {}" [JNat 2; JNat 3; JStr "dataset-3"] in
  let s2 := (migrate_dataset logic (JStr "dataset-3")
               (with_trace (trace s1 ++ [progress]) s1)).2 in
  migrate_all_datasets logic Example.s = (Raise NotFound, s2) ∧
  db s2 = db s1 ∧ dirty s1 = ∅ ∧
  ∃ t, trace s2 = trace s1 ++ progress :: t ∧ count is_commit t = 0.
Proof.
  intros logic s0 listed s1 progress s2.
  apply (migrate_all_datasets_stops_at_failure logic Example.s s0 [JStr "dataset-1"]
           (JStr "dataset-3") [JStr "dataset-2"] s1 NotFound s2).
  - reflexivity.
  - vm_compute. reflexivity.
  - vm_compute. reflexivity.
  - vm_compute. reflexivity.
  - vm_compute. reflexivity.
Defined.

(** Events of a kind that the loop body never emits. *)
Lemma loop_count_none logic (p : event → bool) n stream :
  (∀ i c pr k b, count p (activity_events n i c pr k b) = 0) →
  ∀ i s s' t,
    for_each (migrate_activity logic n) i stream s = (Ok tt, s') →
    trace s' = trace s ++ t →
    count p t = 0.
Proof.
  intros Hp. induction stream as [|a stream IH]; intros i s s' t.
  - intros ->%for_each_nil_ok Ht.
    assert (t = []) as ->; [|done].
    apply (app_inv_head (trace s)). by rewrite app_nil_r.
  - intros (s1 & (pr & k & _ & _ & _ & _ & ->)%migrate_activity_facts
               & Hrest)%for_each_cons_ok Ht.
    destruct (loop_trace _ _ _ _ _ _ Hrest) as (t' & Ht' & _).
    set (b := recorded (Session.view s) a) in *.
    assert (t = activity_events n i (context_now s) pr k b ++ t') as ->.
    { apply (app_inv_head (trace s)). rewrite <- Ht, Ht'. cbn. by rewrite <- app_assoc. }
    rewrite count_app, Hp. by rewrite (IH _ _ _ _ Hrest Ht').
Qed.

Lemma cached_Some (s : state) c : _context s = Some c → c ≠ ∅ → cached s = true.
Proof.
  intros Hc Hne. unfold cached. rewrite Hc. cbn.
  by apply negb_true_iff, bool_decide_eq_false_2.
Qed.

Lemma loop_keeps_cached logic n stream :
  ∀ i s s',
    for_each (migrate_activity logic n) i stream s = (Ok tt, s') →
    cached s = true → cached s' = true.
Proof.
  induction stream as [|a stream IH]; intros i s s'.
  - by intros ->%for_each_nil_ok.
  - intros (s1 & (pr & k & _ & _ & _ & _ & ->)%migrate_activity_facts
               & Hrest)%for_each_cons_ok _.
    apply (IH _ _ _ Hrest). eapply cached_Some; [done|]. apply insert_non_empty.
Qed.

(** The events of a call of [migrate_dataset] that returns, sorted. *)
Lemma migrate_dataset_events logic dataset_name s s' :
  migrate_dataset logic dataset_name s = (Ok tt, s') →
  ∃ s0 stream t,
    get_context logic s = (Ok tt, s0) ∧
    package_activity_list logic (listing_context s0) (list_args dataset_name) = Ok stream ∧
    Forall (λ a, recorded (db s') a = true) stream ∧
    cached s' = true ∧
    trace s' = trace s ++ t ∧
    count (is_action "package_activity_list") t = 1 ∧
    count (is_action "package_list") t = 0 ∧
    count is_commit t ≤ 1 ∧
    (cached s = true → count (is_action "get_site_user") t = 0) ∧
    count (is_action "get_site_user") t ≤ 1 ∧
    ∀ c d, EAction "package_activity_list" c d ∈ t →
           c = listing_context s0 ∧ d = list_args dataset_name.
Proof.
  intros Hrun.
  pose proof Hrun as (s0 & stream & s2' & Hctx & Hlist & _)%migrate_dataset_ok.
  destruct (migrate_dataset_trace _ _ _ _ _ _ Hctx Hlist Hrun)
    as (s2 & t0 & t1 & t2 & Hloop & -> & Ht & Ht2 & Ht0 & -> & Hc2 & _).
  destruct (loop_recorded _ _ _ _ _ _ Hloop) as [_ Hall].
  destruct (loop_end_facts stream s2) as (Hdb' & _ & Hc' & _).
  destruct (count_loop_end_events stream s2) as (_ & _ & He).
  assert (Hpal : count (is_action "package_activity_list") t2 = 0).
  { eapply loop_count_none; [|exact Hloop|exact Ht2]. intros. by destruct b. }
  assert (Hpl : count (is_action "package_list") t2 = 0).
  { eapply loop_count_none; [|exact Hloop|exact Ht2]. intros. by destruct b. }
  assert (Hgsu : count (is_action "get_site_user") t2 = 0).
  { eapply loop_count_none; [|exact Hloop|exact Ht2]. intros. by destruct b. }
  set (call := EAction "package_activity_list" (listing_context s0)
                 (list_args dataset_name)) in *.
  set (t1 := call :: (if bool_decide (length stream = 0)
                      then [EPrint "  No activities" []] else [])) in *.
  assert (Ht1 : count (is_action "package_activity_list") t1 = 1 ∧
                count (is_action "package_list") t1 = 0 ∧
                count is_commit t1 = 0 ∧
                count (is_action "get_site_user") t1 = 0).
  { unfold t1. by destruct (bool_decide (length stream = 0)). }
  destruct Ht1 as (Ht1a & Ht1b & Ht1c & Ht1d).
  assert (Hend : count (is_action "package_activity_list") (loop_end_events stream s2) = 0 ∧
                 count (is_action "package_list") (loop_end_events stream s2) = 0 ∧
                 count (is_action "get_site_user") (loop_end_events stream s2) = 0).
  { unfold loop_end_events. by destruct (bool_decide (dirty s2 = ∅)). }
  destruct Hend as (Hea & Heb & Hec).
  assert (Ht0' : count (is_action "package_activity_list") t0 = 0 ∧
                 count (is_action "package_list") t0 = 0 ∧
                 count is_commit t0 = 0 ∧
                 count (is_action "get_site_user") t0 ≤ 1).
  { destruct Ht0 as [-> | ->]; split_and!; try done. cbn. lia. }
  destruct Ht0' as (Ht0a & Ht0b & Ht0c & Ht0d).
  exists s0, stream, (t0 ++ t1 ++ t2 ++ loop_end_events stream s2).
  split_and!; [done|done|..].
  - rewrite Hdb'. done.
  - unfold cached. rewrite Hc'. fold (cached s2).
    eapply loop_keeps_cached; [exact Hloop|].
    eapply cached_Some; [done|]. apply insert_non_empty.
  - done.
  - rewrite !count_app. lia.
  - rewrite !count_app. lia.
  - rewrite !count_app, He. destruct (bool_decide (dirty s2 = ∅)); lia.
  - intros Hcached. rewrite !count_app, Ht1d, Hgsu, Hec.
    apply get_context_ok in Hctx. rewrite Hcached in Hctx. subst s0.
    destruct (get_context_frame logic s s) as (_ & _ & _ & _ & _ & t0' & Ht0' & _).
    { apply get_context_ok. by rewrite Hcached. }
    destruct Ht0 as [-> | ->]; [done|].
    exfalso. clear -Ht Ht2 Hloop Hc'.
    destruct (loop_end_facts stream s2) as (_ & _ & _ & _ & Hend).
    rewrite Hend, Ht2 in Ht. cbn [trace loop_start] in Ht.
    rewrite <- !app_assoc in Ht. apply app_inv_head in Ht.
    cbn in Ht. discriminate.
  - rewrite !count_app. lia.
  - intros c d Hin. rewrite !elem_of_app in Hin.
    destruct Hin as [Hin | [Hin | [Hin | Hin]]].
    + apply (count_zero_elem _ _ _ Ht0a) in Hin. done.
    + unfold t1 in Hin. apply elem_of_cons in Hin as [[= -> ->] | Hin]; [done|].
      destruct (bool_decide (length stream = 0)); [|by apply elem_of_nil in Hin].
      apply elem_of_cons in Hin as [Hin | Hin]; [discriminate | by apply elem_of_nil in Hin].
    + apply (count_zero_elem _ _ _ Hpal) in Hin. done.
    + apply (count_zero_elem _ _ _ Hea) in Hin. done.
Qed.

Lemma all_datasets_events logic num names :
  ∀ i s s',
    for_each (pass logic num) i names s = (Ok tt, s') →
    cached s = true →
    ∃ t, trace s' = trace s ++ t ∧
         count (is_action "package_activity_list") t = length names ∧
         count (is_action "package_list") t = 0 ∧
         count (is_action "get_site_user") t = 0 ∧
         count is_commit t ≤ length names ∧
         ∀ c d stream,
           EAction "package_activity_list" c d ∈ t →
           package_activity_list logic c d = Ok stream →
           Forall (λ a, recorded (db s') a = true) stream.
Proof.
  induction names as [|name names IH]; intros i s s'.
  - intros ->%for_each_nil_ok _. exists []. rewrite app_nil_r.
    split_and!; try done. intros c d stream Hin. by apply elem_of_nil in Hin.
  - intros (s1 & ([] & sp & ->%log_ok & Hrun)%bind_ok & Hrest)%for_each_cons_ok Hcached.
    destruct (migrate_dataset_events _ _ _ _ Hrun)
      as (s0 & stream & t1 & Hctx & Hlist & Hall & Hc1 & Ht1 & Hpal & Hpl & Hcm & Hgsu & _
             & Hcall).
    destruct (migrate_dataset_keeps _ _ _ _ Hrun) as [Hd1 _].
    destruct (all_datasets_keeps _ _ _ _ _ _ Hrest Hd1) as [_ Hkeep].
    destruct (IH _ _ _ Hrest Hc1) as (t2 & Ht2 & Hpal2 & Hpl2 & Hgsu2 & Hcm2 & Hrec2).
    set (e := EPrint "{}/{} {}" [JNat (i + 1); JNat num; name]) in *.
    exists ([e] ++ t1 ++ t2).
    assert (He : count is_commit [e] = 0) by done.
    rewrite !count_app, Hpal, Hpl, Hgsu, He by done. rewrite Hpal2, Hpl2, Hgsu2.
    split_and!; try done.
    + rewrite Ht2, Ht1. cbn [trace with_trace]. by rewrite <- !app_assoc.
    + cbn [length]. lia.
    + intros c d stream' Hin Hlist'. rewrite !elem_of_app in Hin.
      destruct Hin as [Hin | [Hin | Hin]].
      * apply elem_of_cons in Hin as [Hin | Hin]; [discriminate|by apply elem_of_nil in Hin].
      * destruct (Hcall _ _ Hin) as [-> ->]. rewrite Hlist in Hlist'.
        injection Hlist' as <-.
        eapply Forall_impl; [exact Hall|]. intros a Ha. cbn beta in *.
        by eapply keeps_recorded_true.
      * by eapply Hrec2.
Qed.

(** X11.  A run over all datasets that returns has asked for the list
    of datasets once and for one activity stream per dataset, has
    committed at most once per dataset, and has looked the site user
    up at most once. *)
Theorem migrate_all_datasets_counts logic s s0 names s' :
  get_context logic s = (Ok tt, s0) →
  package_list logic (context_now s0) (JDict ∅) = Ok names →
  migrate_all_datasets logic s = (Ok tt, s') →
  ∃ t, trace s' = trace s ++ t ∧
       count (is_action "package_list") t = 1 ∧
       count (is_action "package_activity_list") t = length names ∧
       count is_commit t ≤ length names ∧
       count (is_action "get_site_user") t ≤ 1.
Proof.
  intros Hctx Hlist Hrun. unfold migrate_all_datasets in Hrun.
  erewrite bind_run in Hrun by exact Hctx.
  erewrite bind_run in Hrun by (by apply context_action_ok).
  cbn zeta in Hrun.
  destruct (get_context_caches _ _ _ Hctx) as (Hcached & _).
  destruct (all_datasets_events _ _ _ _ _ _ Hrun)
    as (t & Ht & Hpal & Hpl & Hgsu & Hcm & _); [done|].
  destruct (get_context_frame _ _ _ Hctx) as (_ & _ & _ & _ & _ & t0 & Ht0 & Hcase).
  set (e := EAction "package_list" (context_now s0) (JDict ∅)) in *.
  exists (t0 ++ [e] ++ t).
  assert (H0 : count (is_action "package_list") t0 = 0 ∧
               count (is_action "package_activity_list") t0 = 0 ∧
               count is_commit t0 = 0 ∧
               count (is_action "get_site_user") t0 ≤ 1).
  { destruct Hcase as [-> | ->]; split_and!; try done. cbn. lia. }
  destruct H0 as (H0a & H0b & H0c & H0d).
  assert (He : count (is_action "package_list") [e] = 1 ∧
               count (is_action "package_activity_list") [e] = 0 ∧
               count is_commit [e] = 0 ∧
               count (is_action "get_site_user") [e] = 0) by done.
  destruct He as (Hea & Heb & Hec & Hed).
  rewrite !count_app, Hpal, Hpl, Hgsu, H0a, H0b, H0c, Hea, Heb, Hec, Hed.
  split_and!; [|lia..].
  rewrite Ht. cbn [trace with_trace]. rewrite Ht0. by rewrite <- !app_assoc.
Qed.

Lemma migrate_all_datasets_counts_witness :
  ∃ t, trace (migrate_all_datasets Example.logic Example.s).2 = trace Example.s ++ t ∧
       count (is_action "package_list") t = 1 ∧
       count (is_action "package_activity_list") t = 2 ∧
       count is_commit t ≤ 2 ∧
       count (is_action "get_site_user") t ≤ 1.
Proof.
  apply (migrate_all_datasets_counts Example.logic Example.s
           (get_context Example.logic Example.s).2 [JStr "dataset-1"; JStr "dataset-2"]).
  - vm_compute. reflexivity.
  - vm_compute. reflexivity.
  - vm_compute. reflexivity.
Defined.

(** X12.  After a run over all datasets that returns, every activity
    of every stream the run was given is recorded in full in the
    committed table. *)
Theorem migrate_all_datasets_complete logic s s' :
  migrate_all_datasets logic s = (Ok tt, s') →
  ∃ t, trace s' = trace s ++ t ∧
       ∀ c d stream,
         EAction "package_activity_list" c d ∈ t →
         package_activity_list logic c d = Ok stream →
         Forall (λ a, recorded (db s') a = true) stream.
Proof.
  intros Hrun. unfold migrate_all_datasets in Hrun.
  apply bind_ok in Hrun as ([] & s0 & Hctx & Hrun).
  apply bind_ok in Hrun as (names & sb & [Hlist ->]%context_action_ok & Hloop).
  destruct (get_context_caches _ _ _ Hctx) as (Hcached & _).
  destruct (all_datasets_events _ _ _ _ _ _ Hloop)
    as (t & Ht & _ & _ & _ & _ & Hrec); [done|].
  destruct (get_context_frame _ _ _ Hctx) as (_ & _ & _ & _ & _ & t0 & Ht0 & Hcase).
  exists (t0 ++ [EAction "package_list" (context_now s0) (JDict ∅)] ++ t). split.
  - rewrite Ht. cbn [trace with_trace]. rewrite Ht0. by rewrite <- !app_assoc.
  - intros c d stream Hin. rewrite !elem_of_app in Hin.
    destruct Hin as [Hin | [Hin | Hin]].
    + destruct Hcase as [-> | ->]; [by apply elem_of_nil in Hin|].
      apply elem_of_cons in Hin as [Hin | Hin]; [discriminate|by apply elem_of_nil in Hin].
    + apply elem_of_cons in Hin as [Hin | Hin]; [discriminate|by apply elem_of_nil in Hin].
    + by apply Hrec.
Qed.

Lemma migrate_all_datasets_complete_witness :
  let s' := (migrate_all_datasets Example.logic Example.s).2 in
  ∃ t, trace s' = trace Example.s ++ t ∧
       ∀ c d stream,
         EAction "package_activity_list" c d ∈ t →
         package_activity_list Example.logic c d = Ok stream →
         Forall (λ a, recorded (db s') a = true) stream.
Proof.
  intros s'. apply (migrate_all_datasets_complete Example.logic Example.s s').
  vm_compute. reflexivity.
Defined.

(* ===================================================================== *)
(** * More on the cleanup step (lines 144-165) *)
(* ===================================================================== *)

(** X13.  After a cleanup that the operator confirmed, the session
    sees no row, whatever else was pending in the session is
    committed with the deletion, and a second cleanup only reports
    that the table is empty: it neither prompts nor deletes. *)
Theorem wipe_activity_detail_twice s response rest :
  visible_rows s ≠ 0 →
  stdin s = response :: rest →
  affirmative response = true →
  ∃ s1,
    wipe_activity_detail s = (Ok tt, s1) ∧
    visible_rows s1 = 0 ∧ db s1 = dirty s ∪ db s ∧ dirty s1 = ∅ ∧
    wipe_activity_detail s1
    = (Ok tt, with_trace (trace s1 ++ [EExecute sql_count; EPrint already_emptied []]) s1).
Proof.
  intros Hrows Hin Hyes.
  rewrite (wipe_activity_detail_asked s response rest Hrows Hin), Hyes.
  eexists. split; [done|]. split_and!; try done.
  by apply wipe_activity_detail_clean.
Qed.

Lemma wipe_activity_detail_twice_witness :
  ∃ s1,
    wipe_activity_detail (start Example.table 7 ["y"; "n"]) = (Ok tt, s1) ∧
    visible_rows s1 = 0 ∧ db s1 = ∅ ∪ Example.table ∧ dirty s1 = ∅ ∧
    wipe_activity_detail s1
    = (Ok tt, with_trace (trace s1 ++ [EExecute sql_count; EPrint already_emptied []]) s1).
Proof.
  apply (wipe_activity_detail_twice (start Example.table 7 ["y"; "n"]) "y" ["n"]).
  - discriminate.
  - reflexivity.
  - reflexivity.
Defined.

Lemma input_at_eof {B} prompt (f : string → M B) s :
  stdin s = [] →
  (input prompt ≫= f) s = (Raise EOFError, with_trace (trace s ++ [EInput prompt]) s).
Proof.
  intros Hin. unfold input, read_line, mbind, M_bind, log, modify.
  cbn [with_trace stdin]. by rewrite Hin.
Qed.

(** X14.  When the table has rows and standard input is at its end,
    the prompt raises [EOFError]: nothing is deleted and nothing is
    committed. *)
Theorem wipe_activity_detail_at_eof s :
  visible_rows s ≠ 0 →
  stdin s = [] →
  ∃ s',
    wipe_activity_detail s = (Raise EOFError, s') ∧
    trace s' = trace s ++ [EExecute sql_count; EPrint explanation []; EInput question] ∧
    visible_rows s' = visible_rows s ∧ db s' = db s ∧ dirty s' = dirty s.
Proof.
  intros Hrows Hin. unfold wipe_activity_detail.
  rewrite count_activity_detail_run.
  rewrite bool_decide_eq_false_2 by done.
  unfold print. rewrite bind_log.
  rewrite input_at_eof by done.
  eexists. split; [done|]. split_and!; try done.
  cbn [trace with_trace]. by rewrite <- !app_assoc.
Qed.

Lemma wipe_activity_detail_at_eof_witness :
  ∃ s',
    wipe_activity_detail Example.s = (Raise EOFError, s') ∧
    trace s' = trace Example.s
               ++ [EExecute sql_count; EPrint explanation []; EInput question] ∧
    visible_rows s' = visible_rows Example.s ∧ db s' = db Example.s ∧
    dirty s' = dirty Example.s.
Proof.
  apply (wipe_activity_detail_at_eof Example.s).
  - discriminate.
  - reflexivity.
Defined.

(* ===================================================================== *)
(** * The command line (lines 168-196) *)
(* ===================================================================== *)

Lemma truthy_value_Some o :
  Py.truthy (Args.value o) = true → ∃ v, o = Some v ∧ v ≠ "".
Proof.
  destruct o as [v|]; [|done]. cbn. intros Hv%negb_true_iff.
  exists v. split; [done|]. intros ->. done.
Qed.

(** X15.  Without a [--config], or with an empty one, the script stops
    on its assertion before it has done anything: nothing is printed,
    nothing is loaded, and the exit status is 1. *)
Theorem main_requires_config logic load_config args s :
  Args.config args = None ∨ Args.config args = Some "" →
  main logic load_config args s = (AssertionError "You must supply a --config", s) ∧
  exit_status (main logic load_config args s).1 = 1%Z.
Proof.
  intros Hconfig.
  assert (Hmain : main logic load_config args s
                  = (AssertionError "You must supply a --config", s)).
  { unfold main. by destruct Hconfig as [-> | ->]. }
  by rewrite Hmain.
Qed.

Lemma main_requires_config_witness :
  let args := {| Args.config := Some ""; Args.dataset := Some "dataset-1" |} in
  main Example.logic (λ _, Ok tt) args Example.s
  = (AssertionError "You must supply a --config", Example.s) ∧
  exit_status (main Example.logic (λ _, Ok tt) args Example.s).1 = 1%Z.
Proof.
  intros args. apply (main_requires_config Example.logic (λ _, Ok tt) args Example.s).
  by right.
Defined.

Lemma main_loaded logic load_config args s config :
  Args.config args = Some config → config ≠ "" →
  load_config config = Ok tt →
  main logic load_config args s =
  let '(r, s') :=
    (if negb (Py.truthy (Args.value (Args.dataset args))) then
       migrate_all_datasets logic;; wipe_activity_detail
     else migrate_dataset logic (Args.value (Args.dataset args)))
      (with_trace (trace s ++ [EPrint "Loading config" []]) s) in
  (ending_of r, s').
Proof.
  intros Hconfig Hne Hload. unfold main. rewrite Hconfig. cbn [Args.value Py.truthy].
  rewrite (proj2 (String.eqb_neq config "")) by done. cbn [negb default].
  unfold print. rewrite bind_log. by rewrite (bind_lift _ _ _ _ Hload).
Qed.

(** X16.  With [--dataset], the script migrates that dataset and
    stops: however the migration ends, the cleanup step has not run,
    no SQL was executed, nothing was read from standard input and the
    legacy table is as it was. *)
Theorem main_single_dataset_skips_cleanup logic load_config args s config name :
  Args.config args = Some config → config ≠ "" →
  load_config config = Ok tt →
  Args.dataset args = Some name → name ≠ "" →
  ∃ r s',
    migrate_dataset logic (JStr name)
      (with_trace (trace s ++ [EPrint "Loading config" []]) s) = (r, s') ∧
    main logic load_config args s = (ending_of r, s') ∧
    visible_rows s' = visible_rows s ∧ stdin s' = stdin s ∧
    ∃ t, trace s' = trace s ++ t ∧ count is_cleanup t = 0.
Proof.
  intros Hconfig Hne Hload Hdataset Hname.
  rewrite (main_loaded _ _ _ _ _ Hconfig Hne Hload), Hdataset.
  cbn [Args.value Py.truthy]. rewrite (proj2 (String.eqb_neq name "")) by done.
  cbn [negb].
  destruct (migrate_dataset logic (JStr name) _) as [r s'] eqn:Hrun.
  exists r, s'. split_and!; [done|done|..].
  - by destruct (frames_migrate_dataset _ _ _ _ _ Hrun) as (Hv & _).
  - by destruct (frames_migrate_dataset _ _ _ _ _ Hrun) as (_ & Hin & _).
  - destruct (frames_migrate_dataset _ _ _ _ _ Hrun) as (_ & _ & t & Ht & Hc).
    exists (EPrint "Loading config" [] :: t). cbn [trace with_trace] in Ht.
    rewrite Ht, <- app_assoc. split; [done|]. by rewrite count_cons.
Qed.

Lemma main_single_dataset_skips_cleanup_witness :
  let args := {| Args.config := Some "ckan.ini"; Args.dataset := Some "dataset-1" |} in
  ∃ r s',
    migrate_dataset Example.logic (JStr "dataset-1")
      (with_trace (trace Example.s ++ [EPrint "Loading config" []]) Example.s) = (r, s') ∧
    main Example.logic (λ _, Ok tt) args Example.s = (ending_of r, s') ∧
    visible_rows s' = visible_rows Example.s ∧ stdin s' = stdin Example.s ∧
    ∃ t, trace s' = trace Example.s ++ t ∧ count is_cleanup t = 0.
Proof.
  intros args.
  apply (main_single_dataset_skips_cleanup Example.logic (λ _, Ok tt) args Example.s
           "ckan.ini" "dataset-1"); done.
Defined.

(** X17.  Without [--dataset], a migration that raises ends the
    script with that exception: the cleanup step is not reached, no
    SQL was executed, nothing was read from standard input and the
    legacy table is as it was. *)
Theorem main_failed_migration_skips_cleanup logic load_config args s config e s' :
  Args.config args = Some config → config ≠ "" →
  load_config config = Ok tt →
  Args.dataset args = None ∨ Args.dataset args = Some "" →
  migrate_all_datasets logic (with_trace (trace s ++ [EPrint "Loading config" []]) s)
    = (Raise e, s') →
  main logic load_config args s = (Uncaught e, s') ∧
  visible_rows s' = visible_rows s ∧ stdin s' = stdin s ∧
  ∃ t, trace s' = trace s ++ t ∧ count is_cleanup t = 0.
Proof.
  intros Hconfig Hne Hload Hdataset Hrun.
  rewrite (main_loaded _ _ _ _ _ Hconfig Hne Hload).
  assert (Hd : negb (Py.truthy (Args.value (Args.dataset args))) = true).
  { by destruct Hdataset as [-> | ->]. }
  rewrite Hd. rewrite (bind_run_raise _ _ _ _ _ Hrun).
  destruct (frames_migrate_all_datasets _ _ _ _ Hrun) as (Hv & Hin & t & Ht & Hc).
  split_and!; [done..|].
  exists (EPrint "Loading config" [] :: t). cbn [trace with_trace] in Ht.
  rewrite Ht, <- app_assoc. split; [done|]. by rewrite count_cons.
Qed.

Lemma main_failed_migration_skips_cleanup_witness :
  let args := {| Args.config := Some "ckan.ini"; Args.dataset := None |} in
  let s' := (migrate_all_datasets Example.with_stale
               (with_trace (trace Example.s ++ [EPrint "Loading config" []]) Example.s)).2 in
  main Example.with_stale (λ _, Ok tt) args Example.s = (Uncaught NotFound, s') ∧
  visible_rows s' = visible_rows Example.s ∧ stdin s' = stdin Example.s ∧
  ∃ t, trace s' = trace Example.s ++ t ∧ count is_cleanup t = 0.
Proof.
  intros args s'.
  apply (main_failed_migration_skips_cleanup Example.with_stale (λ _, Ok tt) args Example.s
           "ckan.ini" NotFound s').
  - reflexivity.
  - discriminate.
  - reflexivity.
  - by left.
  - vm_compute. reflexivity.
Defined.

(** X18.  Without [--dataset], when the migration returns and the
    legacy table has rows, the operator's first line decides: on [y]
    or [Y] the rows are deleted and the script completes; on anything
    else it raises [SystemExit(0)] and the rows stay.  The exit status
    is 0 either way. *)
Theorem main_cleanup_exit_status logic load_config args s config s1 response rest :
  Args.config args = Some config → config ≠ "" →
  load_config config = Ok tt →
  Args.dataset args = None ∨ Args.dataset args = Some "" →
  migrate_all_datasets logic (with_trace (trace s ++ [EPrint "Loading config" []]) s)
    = (Ok tt, s1) →
  visible_rows s ≠ 0 →
  stdin s = response :: rest →
  ∃ ending s',
    main logic load_config args s = (ending, s') ∧
    exit_status ending = 0%Z ∧
    ending = (if affirmative response then Completed else Uncaught (SystemExit 0)) ∧
    visible_rows s' = (if affirmative response then 0 else visible_rows s).
Proof.
  intros Hconfig Hne Hload Hdataset Hrun Hrows Hin.
  rewrite (main_loaded _ _ _ _ _ Hconfig Hne Hload).
  assert (Hd : negb (Py.truthy (Args.value (Args.dataset args))) = true).
  { by destruct Hdataset as [-> | ->]. }
  rewrite Hd. rewrite (bind_run _ _ _ _ _ Hrun).
  destruct (frames_migrate_all_datasets _ _ _ _ Hrun) as (Hv & Hin1 & _).
  cbn [stdin with_trace] in Hin1. rewrite Hin in Hin1.
  change (visible_rows (with_trace (trace s ++ [EPrint "Loading config" []]) s))
    with (visible_rows s) in Hv.
  rewrite <- Hv in Hrows |- *.
  rewrite (wipe_activity_detail_asked s1 response rest Hrows Hin1).
  destruct (affirmative response); eexists _, _; split_and!; done.
Qed.

Lemma main_cleanup_exit_status_witness :
  let args := {| Args.config := Some "ckan.ini"; Args.dataset := None |} in
  let s := start Example.table 7 ["no"] in
  ∃ ending s',
    main Example.logic (λ _, Ok tt) args s = (ending, s') ∧
    exit_status ending = 0%Z ∧
    ending = Uncaught (SystemExit 0) ∧
    visible_rows s' = visible_rows s.
Proof.
  intros args s.
  apply (main_cleanup_exit_status Example.logic (λ _, Ok tt) args s "ckan.ini"
           (migrate_all_datasets Example.logic
              (with_trace (trace s ++ [EPrint "Loading config" []]) s)).2 "no" []).
  - reflexivity.
  - discriminate.
  - reflexivity.
  - by left.
  - vm_compute. reflexivity.
  - discriminate.
  - reflexivity.
Defined.

(* ===================================================================== *)
(** * More on the loop over the stream (lines 95-137) *)
(* ===================================================================== *)

(** X19.  On a dataset whose activities are all recorded in full, a
    call of [migrate_dataset] that starts with a clean session and
    returns has set no payload, has not committed, and leaves the
    committed table as it was. *)
Theorem migrate_dataset_noop_when_recorded logic dataset_name s s0 stream s' :
  get_context logic s = (Ok tt, s0) →
  package_activity_list logic (listing_context s0) (list_args dataset_name) = Ok stream →
  Forall (λ a, recorded (db s) a = true) stream →
  dirty s = ∅ →
  migrate_dataset logic dataset_name s = (Ok tt, s') →
  db s' = db s ∧
  ∃ t, trace s' = trace s ++ t ∧ count is_set_data t = 0 ∧ count is_commit t = 0.
Proof.
  intros Hctx Hlist Hall Hclean Hrun.
  destruct (migrate_dataset_trace _ _ _ _ _ _ Hctx Hlist Hrun)
    as (s2 & t0 & t1 & t2 & Hloop & -> & Ht & Ht2 & Ht0 & -> & _).
  destruct (get_context_frame _ _ _ Hctx) as (Hdb0 & Hd0 & _).
  destruct (loop_replay _ _ _ _ _ _ (loop_start dataset_name stream s0) Hloop)
    as (s2' & Hloop' & _ & Hdb2 & Hd2 & tr & Htr & Hs & Hc); [done|..].
  { eapply Forall_impl; [exact Hall|]. intros a Ha. cbn beta in *.
    unfold Session.view. cbn. by rewrite Hd0, Hdb0, Hclean, (left_id_L ∅ (∪)). }
  rewrite Hloop in Hloop'. injection Hloop' as <-.
  assert (t2 = tr) as ->.
  { apply (app_inv_head (trace (loop_start dataset_name stream s0))). by rewrite <- Ht2. }
  assert (Hdirty : dirty s2 = ∅) by (rewrite Hd2; cbn; congruence).
  destruct (loop_end_facts stream s2) as (Hdb' & _).
  destruct (count_loop_end_events stream s2) as (He1 & _ & He2).
  rewrite bool_decide_eq_true_2 in He2 by done.
  split.
  - rewrite Hdb'. unfold Session.view. rewrite Hdirty, Hdb2. cbn.
    by rewrite (left_id_L ∅ (∪)).
  - eexists. split; [exact Ht|].
    assert (H0 : count is_set_data t0 = 0 ∧ count is_commit t0 = 0).
    { by destruct Ht0 as [-> | ->]. }
    destruct H0 as [H0s H0c].
    rewrite !count_app, H0s, H0c, Hs, Hc, He1, He2.
    by destruct (bool_decide (length stream = 0)).
Qed.

Lemma migrate_dataset_noop_when_recorded_witness :
  let s := start (db (migrate_dataset Example.logic (JStr "dataset-1") Example.s).2) 7 [] in
  let s' := (migrate_dataset Example.logic (JStr "dataset-1") s).2 in
  db s' = db s ∧
  ∃ t, trace s' = trace s ++ t ∧ count is_set_data t = 0 ∧ count is_commit t = 0.
Proof.
  intros s s'.
  apply (migrate_dataset_noop_when_recorded Example.logic (JStr "dataset-1") s
           (get_context Example.logic s).2 Example.stream s').
  - vm_compute. reflexivity.
  - vm_compute. reflexivity.
  - repeat (apply Forall_cons; split; [vm_compute; reflexivity|]). apply Forall_nil. done.
  - reflexivity.
  - vm_compute. reflexivity.
Defined.

(** The [package_show] call made for an activity, in the context [c]. *)
Lemma loop_calls logic n stream :
  ∀ i s s' t,
    for_each (migrate_activity logic n) i stream s = (Ok tt, s') →
    trace s' = trace s ++ t →
    Forall2 (λ a call,
               ∃ revision_id object_id,
                 field a "revision_id" = Some revision_id ∧
                 field a "object_id" = Some object_id ∧
                 call = EAction "package_show"
                          (<["revision_id" := revision_id]> (context_now s))
                          (show_args object_id))
            stream (filter (λ e, is_action "package_show" e = true) t).
Proof.
  induction stream as [|a stream IH]; intros i s s' t.
  - intros ->%for_each_nil_ok Ht.
    assert (t = []) as ->; [|constructor].
    apply (app_inv_head (trace s)). by rewrite app_nil_r.
  - intros (s1 & (p & k & Hp & _ & _ & _ & ->)%migrate_activity_facts
               & Hrest)%for_each_cons_ok Ht.
    destruct (loop_trace _ _ _ _ _ _ Hrest) as (t' & Ht' & _).
    set (b := recorded (Session.view s) a) in *.
    assert (t = activity_events n i (context_now s) p k b ++ t') as ->.
    { apply (app_inv_head (trace s)). rewrite <- Ht, Ht'. cbn. by rewrite <- app_assoc. }
    rewrite filter_app.
    assert (filter (λ e, is_action "package_show" e = true)
              (activity_events n i (context_now s) p k b)
            = [EAction "package_show"
                 (<["revision_id" := pr_revision_id p]> (context_now s))
                 (show_args (pr_object_id p))]) as -> by (by destruct b).
    destruct (prepare_ok _ _ _ _ Hp) as (_ & _ & Hrev%getitem_ok & Hoid%getitem_ok & _).
    constructor; [by eauto|].
    eapply Forall2_impl; [exact (IH _ _ _ _ Hrest Ht')|].
    intros a' call (rev & oid & ? & ? & ->). exists rev, oid. split_and!; [done..|].
    f_equal. apply insert_revision_id, context_after_activity.
Qed.

(** X20.  The activities are reconstructed in the order of the
    stream: the [package_show] calls of a call of [migrate_dataset]
    that returns are, in order, one per activity of the stream, each
    with that activity's ['revision_id'] in the context and its
    ['object_id'] as the id. *)
Theorem migrate_dataset_reconstructs_in_order logic dataset_name s s0 stream s' :
  get_context logic s = (Ok tt, s0) →
  package_activity_list logic (listing_context s0) (list_args dataset_name) = Ok stream →
  migrate_dataset logic dataset_name s = (Ok tt, s') →
  ∃ t, trace s' = trace s ++ t ∧
    Forall2 (λ a call,
               ∃ revision_id object_id,
                 field a "revision_id" = Some revision_id ∧
                 field a "object_id" = Some object_id ∧
                 call = EAction "package_show"
                          (<["revision_id" := revision_id]> (loop_context s0))
                          (show_args object_id))
            stream (filter (λ e, is_action "package_show" e = true) t).
Proof.
  intros Hctx Hlist Hrun.
  destruct (migrate_dataset_trace _ _ _ _ _ _ Hctx Hlist Hrun)
    as (s2 & t0 & t1 & t2 & Hloop & -> & Ht & Ht2 & Ht0 & -> & _).
  eexists. split; [exact Ht|].
  rewrite !filter_app.
  assert (filter (λ e, is_action "package_show" e = true) t0 = []) as ->.
  { by destruct Ht0 as [-> | ->]. }
  assert (filter (λ e, is_action "package_show" e = true)
            (EAction "package_activity_list" (listing_context s0) (list_args dataset_name)
             :: (if bool_decide (length stream = 0)
                 then [EPrint "  No activities" []] else [])) = []) as ->.
  { by destruct (bool_decide (length stream = 0)). }
  assert (filter (λ e, is_action "package_show" e = true) (loop_end_events stream s2) = [])
    as ->.
  { unfold loop_end_events. by destruct (bool_decide (dirty s2 = ∅)). }
  rewrite app_nil_r. cbn [app].
  exact (loop_calls _ _ _ _ _ _ _ Hloop Ht2).
Qed.

Lemma migrate_dataset_reconstructs_in_order_witness :
  let s0 := (get_context Example.logic Example.s).2 in
  let s' := (migrate_dataset Example.logic (JStr "dataset-1") Example.s).2 in
  ∃ t, trace s' = trace Example.s ++ t ∧
    Forall2 (λ a call,
               ∃ revision_id object_id,
                 field a "revision_id" = Some revision_id ∧
                 field a "object_id" = Some object_id ∧
                 call = EAction "package_show"
                          (<["revision_id" := revision_id]> (loop_context s0))
                          (show_args object_id))
            Example.stream (filter (λ e, is_action "package_show" e = true) t).
Proof.
  intros s0 s'.
  apply (migrate_dataset_reconstructs_in_order Example.logic (JStr "dataset-1") Example.s
           s0 Example.stream s').
  - vm_compute. reflexivity.
  - vm_compute. reflexivity.
  - vm_compute. reflexivity.
Defined.

(** X21.  An activity of the stream that has no row in the activity
    table stops the pass with the [AttributeError] of line 133, after
    the reconstruction: nothing is set and nothing is committed. *)
Theorem migrate_activity_missing_row logic n i activity s p k :
  prepare logic (context_now s) activity = Ok p →
  pr_id p = JStr k →
  Session.view s !! k = None →
  ∃ s',
    migrate_activity logic n i activity s = (Raise AttributeError, s') ∧
    dirty s' = dirty s ∧ db s' = db s ∧
    trace s' = trace s ++
      [ EPrint "  activity {}/{} {}" [JNat (i + 1); JNat n; pr_timestamp p];
        EAction "package_show" (<["revision_id" := pr_revision_id p]> (context_now s))
                (show_args (pr_object_id p));
        EUserGet (pr_user_id p);
        EActivityGet (JStr k) ].
Proof.
  intros (raw & Hts & Hrev & Hoid & Hshow & Hnorm & Huid & Hactor & Hid)%prepare_ok
         Hk Hview.
  rewrite Hk in Hid.
  unfold migrate_activity, print, context_set.
  rewrite (bind_lift _ _ _ _ Hts), bind_log.
  rewrite (bind_lift _ _ _ _ Hrev), bind_modify.
  rewrite (bind_lift _ _ _ _ Hoid).
  erewrite bind_run.
  2:{ apply context_action_ok. split; [|reflexivity].
      cbn [context_now with_context with_trace _context default]. exact Hshow. }
  rewrite (bind_lift _ _ _ _ Hnorm).
  erewrite bind_run.
  2:{ apply actor_name_ok. eexists. split_and!; [exact Huid|reflexivity..]. }
  rewrite (bind_lift _ _ _ _ Hid).
  erewrite bind_run.
  2:{ apply activity_get_ok. split; reflexivity. }
  eexists. split.
  - apply bind_run_raise. unfold Session.get_data, Session.view in *.
    cbn [dirty db with_trace with_context]. rewrite Hview. reflexivity.
  - cbn [dirty db trace with_trace with_context context_now _context default].
    split_and!; [done..|]. by rewrite <- !app_assoc.
Qed.

Lemma migrate_activity_missing_row_witness :
  let activity := Example.activity "a7" "r1" "site" in
  let p := {| pr_timestamp := JStr "2018-04-20T16:11:45"; pr_revision_id := JStr "r1";
              pr_object_id := JStr "dataset-1";
              pr_dataset := Example.normalized_at (JStr "r1");
              pr_user_id := JStr "site"; pr_actor := JStr "site"; pr_id := JStr "a7" |} in
  ∃ s',
    migrate_activity Example.logic 1 0 activity Example.s = (Raise AttributeError, s') ∧
    dirty s' = dirty Example.s ∧ db s' = db Example.s ∧
    trace s' = trace Example.s ++
      [ EPrint "  activity {}/{} {}" [JNat (0 + 1); JNat 1; pr_timestamp p];
        EAction "package_show"
                (<["revision_id" := pr_revision_id p]> (context_now Example.s))
                (show_args (pr_object_id p));
        EUserGet (pr_user_id p);
        EActivityGet (JStr "a7") ].
Proof.
  intros activity p.
  apply (migrate_activity_missing_row Example.logic 1 0 activity Example.s p "a7").
  - vm_compute. reflexivity.
  - reflexivity.
  - vm_compute. reflexivity.
Defined.
